(** * nlmanager: the netlink session engine of ifupdown2

    A shallow embedding of [nlmanager/nlmanager.py]: the sequence allocator,
    the receive/demultiplex loop of [tx_nlpacket_get_response], the request
    builders [request_dump], [_link_add] and [link_add_vlan], and the route
    batching of [_routes_add_or_delete].

    Python integers are [Z], byte strings are lists of [Byte.byte], the
    dictionaries with integer keys are [gmap Z _].  The module [nlpacket]
    (imported with [from nlpacket import *]) is the interface [NlPacket]
    below; what it computes is a parameter of every statement.

    The module is Python 2 (it has a [print] statement and calls
    [dict.iteritems]), so [int] is the [int] of Python 2 ([Str.int]).

    The socket calls [socket.socket], [bind] and [sendall] can raise
    [socket.error].  [sendall_or_raise] has the transmission with the call
    that raises; [sendall] is the transmission in which every call
    completes, and the methods are followed along these runs.  What a
    raising call does to a builder and to the socket is stated apart, on
    [build_and_tx_or_raise] and [tx_run]. *)

From Stdlib Require Import ZArith Lia String Ascii.
From Stdlib.Strings Require Byte.
From stdpp Require Import base tactics option list gmap strings.

Set Warnings "-register-all,-clear-no-such-hyp".
Open Scope Z_scope.

Abbreviation bytes := (list Byte.byte).

(** ** [struct.pack] / [struct.unpack] for the integer formats in use *)

Module Struct.

Definition byte_val (b : Byte.byte) : Z := Z.of_N (Byte.to_N b).

Definition byte_of (z : Z) : Byte.byte :=
  default Byte.x00 (Byte.of_N (Z.to_N (z mod 256))).

(** Little-endian value of a byte string. *)
Fixpoint le_uint (bs : bytes) : Z :=
  match bs with
  | [] => 0
  | b :: r => byte_val b + 256 * le_uint r
  end.

(** The [n] low-order bytes of [z], least significant first. *)
Fixpoint le_bytes (n : nat) (z : Z) : bytes :=
  match n with
  | O => []
  | S k => byte_of z :: le_bytes k (z / 256)
  end.

(** A field in host byte order ([big] says which one the host has). *)
Definition host_uint (big : bool) (bs : bytes) : Z :=
  le_uint (if big then rev bs else bs).

Definition host_bytes (big : bool) (n : nat) (z : Z) : bytes :=
  if big then rev (le_bytes n z) else le_bytes n z.

(** Reinterpretation of a [w]-bit unsigned value as two's complement. *)
Definition to_signed (w : Z) (u : Z) : Z :=
  if u <? 2 ^ (w - 1) then u else u - 2 ^ w.

(** [unpack('=i', s)]: [None] stands for [struct.error], raised when [s]
    is not exactly four bytes long. *)
Definition unpack_i (big : bool) (s : bytes) : option Z :=
  if decide (length s = 4%nat) then Some (to_signed 32 (host_uint big s))
  else None.

(** [pack('B', v)]: [None] stands for [struct.error] (value out of range). *)
Definition pack_B (v : Z) : option Byte.byte :=
  if decide (0 <= v <= 255) then Some (byte_of v) else None.

Definition zeros (n : nat) : bytes := replicate n Byte.x00.

End Struct.

(** ** Exceptions and results *)

Inductive exn :=
| NetlinkError (error_code : Z)
| NetlinkNoAddressError (error_code : Z)
| InvalidInterfaceNameVlanCombo (ifname : string) (ifname_vlanid vlanid : Z)
| UnknownMessageType (msgtype : Z)
    (* [Exception("RXed unknown netlink message type %s" % msgtype)] *)
| KeyError (key : Z)
| struct_error
| ValueError (literal : string)
| CodecError
    (* whatever [decode_packet] of nlpacket raised *)
| socket_error.
    (* [socket.error], from [socket.socket], [bind] or [sendall] *)

(** ** Packets *)

Inductive ip_address :=
| IPv4Address (a : Z)
| IPv6Address (a : Z).

Inductive attr_value :=
| AStr (s : string)
| AInt (n : Z)
| AAddr (ip : ip_address)
| AList (l : list attr_value)
| ADict (kv : list (Z * attr_value)).

Inductive packet_class := Link | Address | Neighbor | Route | Error.

(** A [NetlinkPacket] object ([Link], [Address], [Neighbor], [Route] or
    [Error] instance): the fields this file reads or writes. *)
Record NetlinkPacket := {
  pkt_class : packet_class;
  pkt_msgtype : Z;
  pkt_debug : bool;
  pkt_flags : Z;
  pkt_family : option Z;
  pkt_body : bytes;
  pkt_attributes : gmap Z attr_value;
  pkt_length : Z;
  pkt_seq : Z;
  pkt_pid : Z;
  pkt_message : option bytes
}.

(** [Link(msgtype, debug)] and its siblings: a fresh, unbuilt packet. *)
Definition new_packet (c : packet_class) (msgtype : Z) (debug : bool)
  : NetlinkPacket :=
  {| pkt_class := c; pkt_msgtype := msgtype; pkt_debug := debug;
     pkt_flags := 0; pkt_family := None; pkt_body := [];
     pkt_attributes := ∅; pkt_length := 0; pkt_seq := 0; pkt_pid := 0;
     pkt_message := None |}.

Definition set_flags (f : Z) (p : NetlinkPacket) : NetlinkPacket :=
  {| pkt_class := pkt_class p; pkt_msgtype := pkt_msgtype p;
     pkt_debug := pkt_debug p; pkt_flags := f; pkt_family := pkt_family p;
     pkt_body := pkt_body p; pkt_attributes := pkt_attributes p;
     pkt_length := pkt_length p; pkt_seq := pkt_seq p; pkt_pid := pkt_pid p;
     pkt_message := pkt_message p |}.

Definition set_family (f : Z) (p : NetlinkPacket) : NetlinkPacket :=
  {| pkt_class := pkt_class p; pkt_msgtype := pkt_msgtype p;
     pkt_debug := pkt_debug p; pkt_flags := pkt_flags p;
     pkt_family := Some f;
     pkt_body := pkt_body p; pkt_attributes := pkt_attributes p;
     pkt_length := pkt_length p; pkt_seq := pkt_seq p; pkt_pid := pkt_pid p;
     pkt_message := pkt_message p |}.

Definition set_body (b : bytes) (p : NetlinkPacket) : NetlinkPacket :=
  {| pkt_class := pkt_class p; pkt_msgtype := pkt_msgtype p;
     pkt_debug := pkt_debug p; pkt_flags := pkt_flags p;
     pkt_family := pkt_family p;
     pkt_body := b; pkt_attributes := pkt_attributes p;
     pkt_length := pkt_length p; pkt_seq := pkt_seq p; pkt_pid := pkt_pid p;
     pkt_message := pkt_message p |}.

Definition set_attributes (a : gmap Z attr_value) (p : NetlinkPacket)
  : NetlinkPacket :=
  {| pkt_class := pkt_class p; pkt_msgtype := pkt_msgtype p;
     pkt_debug := pkt_debug p; pkt_flags := pkt_flags p;
     pkt_family := pkt_family p;
     pkt_body := pkt_body p; pkt_attributes := a;
     pkt_length := pkt_length p; pkt_seq := pkt_seq p; pkt_pid := pkt_pid p;
     pkt_message := pkt_message p |}.

(** [p.add_attribute(attr_type, value)] *)
Definition add_attribute (attr_type : Z) (value : attr_value)
    (p : NetlinkPacket) : NetlinkPacket :=
  set_attributes (<[attr_type := value]> (pkt_attributes p)) p.

(** ** The interface of [nlpacket]

    [nlpacket.py] is a sibling module of this repository that is not part of
    the sources at hand.  Its constants, its type-name table and its codec
    are the fields of this class. *)
Class NlPacket := {
  NLMSG_ERROR : Z;
  NLMSG_DONE : Z;
  RTM_NEWLINK : Z;  RTM_DELLINK : Z;  RTM_GETLINK : Z;
  RTM_NEWADDR : Z;  RTM_DELADDR : Z;  RTM_GETADDR : Z;
  RTM_NEWNEIGH : Z; RTM_DELNEIGH : Z; RTM_GETNEIGH : Z;
  RTM_NEWROUTE : Z; RTM_DELROUTE : Z; RTM_GETROUTE : Z;
  NLM_F_REQUEST : Z; NLM_F_DUMP : Z; NLM_F_CREATE : Z;
  (** [Error.NLE_NOADDR] *)
  NLE_NOADDR : Z;
  (** [Link.IFLA_*], [Route.RTA_*] attribute identifiers *)
  IFLA_IFNAME : Z; IFLA_LINK : Z; IFLA_LINKINFO : Z;
  IFLA_INFO_KIND : Z; IFLA_INFO_DATA : Z; IFLA_VLAN_ID : Z;
  RTA_DST : Z; RTA_GATEWAY : Z; RTA_OIF : Z; RTA_MULTIPATH : Z;
  (** [NetlinkPacket.type_to_string], a dictionary *)
  type_to_string : gmap Z string;
  (** host byte order of [NetlinkPacket.header_PACK] *)
  big_endian : bool;
  (** the encoded attributes of a packet, as [build_message] appends them *)
  encode_attributes : NetlinkPacket -> bytes;
  (** [msg.decode_packet(length, flags, seq, pid, data)]; [None] when it
      raises *)
  decode_packet :
    NetlinkPacket -> Z -> Z -> Z -> Z -> bytes -> option NetlinkPacket
}.

(** Modelled from the spec: [NetlinkPacket.header_LEN] of nlpacket.py, the
    size of the frame header (section 6: "Frame header: 16 bytes"). *)
Definition header_LEN : nat := 16.
Arguments header_LEN : simpl never.

Section Header.
Context `{E : NlPacket}.

(** Modelled from the spec: [NetlinkPacket.header_PACK] of nlpacket.py
    (section 6: [length:uint32, type:uint16, flags:uint16,
    sequence:uint32, pid:uint32], native byte order).
    [unpack(header_PACK, s)] raises [struct.error] ([None]) unless [s] is
    exactly [header_LEN] bytes long. *)
Definition unpack_header (s : bytes) : option (Z * Z * Z * Z * Z) :=
  if decide (length s = header_LEN) then
    Some (Struct.host_uint big_endian (take 4 s),
          Struct.host_uint big_endian (take 2 (drop 4 s)),
          Struct.host_uint big_endian (take 2 (drop 6 s)),
          Struct.host_uint big_endian (take 4 (drop 8 s)),
          Struct.host_uint big_endian (take 4 (drop 12 s)))
  else None.

Definition pack_header (length msgtype flags seq pid : Z) : bytes :=
  Struct.host_bytes big_endian 4 length
  ++ Struct.host_bytes big_endian 2 msgtype
  ++ Struct.host_bytes big_endian 2 flags
  ++ Struct.host_bytes big_endian 4 seq
  ++ Struct.host_bytes big_endian 4 pid.

(** Modelled from the spec: [build_message(seq, pid)] of nlpacket.py
    (section 6, [build(sequence, pid) -> bytes]; section 3: the encoded
    buffer carries the sequence number and pid stamped into it).  The
    packet remembers [seq] and [pid], and its message is the header
    followed by the service header and the encoded attributes. *)
Definition build_message (seq pid : Z) (p : NetlinkPacket)
  : NetlinkPacket :=
  let attrs := encode_attributes p in
  let len :=
    Z.of_nat (header_LEN + length (pkt_body p) + length attrs) in
  {| pkt_class := pkt_class p; pkt_msgtype := pkt_msgtype p;
     pkt_debug := pkt_debug p; pkt_flags := pkt_flags p;
     pkt_family := pkt_family p;
     pkt_body := pkt_body p; pkt_attributes := pkt_attributes p;
     pkt_length := len; pkt_seq := seq; pkt_pid := pid;
     pkt_message :=
       Some (pack_header len (pkt_msgtype p) (pkt_flags p) seq pid
             ++ pkt_body p ++ attrs) |}.

(** A frame as the kernel writes it: the header, with the length of the
    whole frame in its first field, and the payload. *)
Definition frame (msgtype flags seq pid : Z) (payload : bytes) : bytes :=
  pack_header (Z.of_nat (header_LEN + length payload)) msgtype flags seq pid
  ++ payload.

End Header.

(** ** The session *)

(** [class Sequence] *)
Record Sequence := { _next : Z }.

(** The netlink socket: the address it is bound to, once [bind] has
    completed on it, and what [sendall] wrote to it, oldest first. *)
Record socket := {
  sock_bind : option (Z * Z);
  sock_sent : list bytes
}.

(** The call of a transmission that raises [socket.error], when one does.
    A fault names a call, and strikes when the transmission makes that
    call. *)
Inductive sock_fault :=
| SocketRaises
    (* [socket.socket(socket.AF_NETLINK, socket.SOCK_RAW, 0)] *)
| BindRaises
    (* [self.tx_socket.bind((self.pid, 0))] *)
| SendallRaises.
    (* [self.tx_socket.sendall(message)] *)

(** [class NetlinkManager]: [pid], [sequence], [tx_socket] and the
    [debug] registry (the keys of the dictionary).  The [shutdown_flag] is
    written by the signal handlers only; what the wait loop reads from it is
    part of the [event]s below. *)
Record NetlinkManager := {
  pid : Z;
  sequence : Sequence;
  tx_socket : option socket;
  debug : gset Z
}.

(** [Sequence.__init__] *)
Definition Sequence_init : Sequence := {| _next := 0 |}.

(** [Sequence.next]: the value returned and the allocator afterwards. *)
Definition Sequence_next (s : Sequence) : Z * Sequence :=
  let n := _next s + 1 in (n, {| _next := n |}).

(** [NetlinkManager.__init__], for the process [ospid] *)
Definition NetlinkManager_init (ospid : Z) : NetlinkManager :=
  {| pid := ospid; sequence := Sequence_init; tx_socket := None;
     debug := ∅ |}.

(** [self.sequence.next()] *)
Definition next_sequence (m : NetlinkManager) : Z * NetlinkManager :=
  let '(n, s) := Sequence_next (sequence m) in
  (n, {| pid := pid m; sequence := s; tx_socket := tx_socket m;
        debug := debug m |}).

(** [tx_socket_allocate], first statement: the new socket is stored in
    [self.tx_socket] before it is bound. *)
Definition socket_stored (m : NetlinkManager) : NetlinkManager :=
  {| pid := pid m; sequence := sequence m;
     tx_socket := Some {| sock_bind := None; sock_sent := [] |};
     debug := debug m |}.

(** [tx_socket_allocate], second statement:
    [self.tx_socket.bind((self.pid, 0))] *)
Definition bind_to_pid (m : NetlinkManager) : NetlinkManager :=
  {| pid := pid m; sequence := sequence m;
     tx_socket :=
       (fun s => {| sock_bind := Some (pid m, 0); sock_sent := sock_sent s |})
         <$> tx_socket m;
     debug := debug m |}.

(** [tx_socket_allocate] with the call that raises, when one does: the
    exception, if any, and the manager as the call leaves it.  When
    [socket.socket] raises nothing is stored; when [bind] raises the
    unbound socket stays in [self.tx_socket]. *)
Definition tx_socket_allocate_or_raise (fault : option sock_fault)
    (m : NetlinkManager) : option exn * NetlinkManager :=
  match fault with
  | Some SocketRaises => (Some socket_error, m)
  | Some BindRaises => (Some socket_error, socket_stored m)
  | _ => (None, bind_to_pid (socket_stored m))
  end.

(** [tx_socket_allocate] when both calls complete *)
Definition tx_socket_allocate (m : NetlinkManager) : NetlinkManager :=
  bind_to_pid (socket_stored m).

(** [self.tx_socket.sendall(message)] when it completes, on the socket
    that the manager has *)
Definition written (message : bytes) (m : NetlinkManager) : NetlinkManager :=
  {| pid := pid m; sequence := sequence m;
     tx_socket :=
       (fun s => {| sock_bind := sock_bind s;
                    sock_sent := sock_sent s ++ [message] |})
         <$> tx_socket m;
     debug := debug m |}.

(** [if not self.tx_socket: self.tx_socket_allocate()] followed by
    [self.tx_socket.sendall(message)], as [tx_nlpacket_raw], [tx_nlpacket]
    and [tx_nlpacket_get_response] have them, with the call that raises
    when one does.  [socket.socket] and [bind] are called only when the
    manager has no socket.  A raw netlink socket takes a message whole or
    not at all, so that nothing is written when [sendall] raises. *)
Definition sendall_or_raise (fault : option sock_fault) (message : bytes)
    (m : NetlinkManager) : option exn * NetlinkManager :=
  let '(raised, m') :=
    match tx_socket m with
    | Some _ => (None, m)
    | None => tx_socket_allocate_or_raise fault m
    end in
  match raised, fault with
  | Some e, _ => (Some e, m')
  | None, Some SendallRaises => (Some socket_error, m')
  | None, _ => (None, written message m')
  end.

(** The same two statements when every socket call completes.  These are
    the runs that the definitions below follow; [sendall_or_raise] has the
    others, and the builders meet them in [build_and_tx_or_raise]. *)
Definition sendall (message : bytes) (m : NetlinkManager) : NetlinkManager :=
  let m' := match tx_socket m with
            | Some _ => m
            | None => tx_socket_allocate m
            end in
  {| pid := pid m'; sequence := sequence m';
     tx_socket :=
       (fun s => {| sock_bind := sock_bind s;
                    sock_sent := sock_sent s ++ [message] |})
         <$> tx_socket m';
     debug := debug m' |}.

(** What has been written to the socket so far. *)
Definition transmitted (m : NetlinkManager) : list bytes :=
  match tx_socket m with
  | Some s => sock_sent s
  | None => []
  end.

(** [tx_nlpacket_raw] *)
Definition tx_nlpacket_raw (message : bytes) (m : NetlinkManager)
  : NetlinkManager :=
  sendall message m.

(** Python truth value of a byte string that may be [None] *)
Definition truthy (message : option bytes) : bool :=
  match message with
  | Some (_ :: _) => true
  | _ => false
  end.

(** [tx_nlpacket]: [false] is the early [return] after [log.error]. *)
Definition tx_nlpacket (nlpacket : NetlinkPacket) (m : NetlinkManager)
  : bool * NetlinkManager :=
  match pkt_message nlpacket with
  | Some (b :: msg) => (true, sendall (b :: msg) m)
  | _ => (false, m)
  end.

(** ** The receive/demultiplex loop *)

(** What one turn of the [while True] loop observes: the shutdown flag
    found set, [select] timing out after its second, or [select] reporting
    the socket readable and [recv(4096)] returning [data]. *)
Inductive event :=
| EvShutdown
| EvTimeout
| EvRecv (data : bytes).

(** How a call of [tx_nlpacket_get_response] ends. *)
Inductive result :=
| ReturnNone
    (* the bare [return] for an unbuilt packet *)
| Return (msgs : list NetlinkPacket)
| Raise (e : exn)
| Waiting (null_read : Z) (msgs : list NetlinkPacket)
    (* the listed events are used up and the loop is back in [select] *)
| Hangs.
    (* the inner [while data] loop never ends *)

(** One turn of the inner [while data] loop *)
Inductive turn :=
| Next (data : bytes) (msgs : list NetlinkPacket)
| Stop (r : result).

(** The inner loop as a whole *)
Inductive drained :=
| Exhausted (msgs : list NetlinkPacket)
| Final (r : result)
| OutOfFuel.

Definition MAX_NULL_READS : Z := 30.

(** The number of times [select] timed out in a list of events *)
Fixpoint timeouts (evs : list event) : Z :=
  match evs with
  | [] => 0
  | EvTimeout :: evs' => 1 + timeouts evs'
  | _ :: evs' => timeouts evs'
  end.

Section ResponseDemuxer.
Context `{E : NlPacket}.

(** The class chosen for a data frame by the [if]/[elif] chain; [None] is
    the final [else]. *)
Definition data_class (msgtype : Z) : option packet_class :=
  if (msgtype =? RTM_NEWLINK) || (msgtype =? RTM_DELLINK) then Some Link
  else if (msgtype =? RTM_NEWADDR) || (msgtype =? RTM_DELADDR)
    then Some Address
  else if (msgtype =? RTM_NEWNEIGH) || (msgtype =? RTM_DELNEIGH)
    then Some Neighbor
  else if (msgtype =? RTM_NEWROUTE) || (msgtype =? RTM_DELROUTE)
    then Some Route
  else None.

(** The body of [while data:], for a non-empty [data]. *)
Definition demux_frame (nlpacket : NetlinkPacket) (data : bytes)
    (msgs : list NetlinkPacket) : turn :=
  match unpack_header (take header_LEN data) with
  | None => Stop (Raise struct_error)
  | Some (length, msgtype, flags, seq, pid) =>
    match type_to_string !! msgtype with
    | None => Stop (Raise (KeyError msgtype))
    | Some _ =>
      if negb (pid =? pkt_pid nlpacket) then
        Next (drop (Z.to_nat length) data) msgs
      else if negb (seq =? pkt_seq nlpacket) then
        Next (drop (Z.to_nat length) data) msgs
      else if msgtype =? NLMSG_DONE then
        Stop (Return msgs)
      else if msgtype =? NLMSG_ERROR then
        match Struct.unpack_i big_endian
                (take 4 (drop header_LEN data)) with
        | None => Stop (Raise struct_error)
        | Some code =>
          let error_code := Z.abs code in
          match decode_packet (new_packet Error msgtype (pkt_debug nlpacket))
                  length flags seq pid data with
          | None => Stop (Raise CodecError)
          | Some _ =>
            if negb (error_code =? 0) then
              if error_code =? NLE_NOADDR
              then Stop (Raise (NetlinkNoAddressError error_code))
              else Stop (Raise (NetlinkError error_code))
            else Stop (Return msgs)
          end
        end
      else
        match data_class msgtype with
        | None => Stop (Raise (UnknownMessageType msgtype))
        | Some c =>
          match decode_packet (new_packet c msgtype (pkt_debug nlpacket))
                  length flags seq pid data with
          | None => Stop (Raise CodecError)
          | Some msg =>
            Next (drop (Z.to_nat length) data) (msgs ++ [msg])
          end
        end
    end
  end.

(** [while data: ...], with [fuel] turns at most. *)
Fixpoint demux_loop (fuel : nat) (nlpacket : NetlinkPacket) (data : bytes)
    (msgs : list NetlinkPacket) : drained :=
  match data with
  | [] => Exhausted msgs
  | _ :: _ =>
    match fuel with
    | O => OutOfFuel
    | S fuel' =>
      match demux_frame nlpacket data msgs with
      | Next data' msgs' => demux_loop fuel' nlpacket data' msgs'
      | Stop r => Final r
      end
    end
  end.

(** A turn that does not stop either shortens [data] or leaves it as it
    is for good, so [length data] turns decide the loop. *)
Definition demux (nlpacket : NetlinkPacket) (data : bytes)
    (msgs : list NetlinkPacket) : drained :=
  demux_loop (length data) nlpacket data msgs.

(** [while True: ...], one event a turn. *)
Fixpoint wait_loop (nlpacket : NetlinkPacket) (evs : list event)
    (null_read : Z) (msgs : list NetlinkPacket) : result :=
  match evs with
  | [] => Waiting null_read msgs
  | EvShutdown :: _ => Return msgs
  | EvTimeout :: evs' =>
    let null_read := null_read + 1 in
    if MAX_NULL_READS <=? null_read then Return msgs
    else wait_loop nlpacket evs' null_read msgs
  | EvRecv data :: evs' =>
    match data with
    | [] => Return msgs
    | _ :: _ =>
      match demux nlpacket data msgs with
      | Exhausted msgs' => wait_loop nlpacket evs' null_read msgs'
      | Final r => r
      | OutOfFuel => Hangs
      end
    end
  end.

(** [tx_nlpacket_get_response] *)
Definition tx_nlpacket_get_response (nlpacket : NetlinkPacket)
    (evs : list event) (m : NetlinkManager) : result * NetlinkManager :=
  match pkt_message nlpacket with
  | Some (b :: msg) =>
    let m' := sendall (b :: msg) m in
    (wait_loop nlpacket evs 0 [], m')
  | _ => (ReturnNone, m)
  end.

End ResponseDemuxer.

(** ** Python strings: [in], [split] and [int] *)

Module Str.

(** [c in s] for a one-character [c] *)
Fixpoint contains (c : ascii) (s : string) : bool :=
  match s with
  | EmptyString => false
  | String a r => if Ascii.eqb a c then true else contains c r
  end.

(** [s.split(sep)] for a one-character [sep]: the last component comes
    first in [split_rev]; [cur] is the component being read, reversed. *)
Fixpoint split_rev (sep : ascii) (s : string) (cur : list ascii)
    (done : list string) : list string :=
  match s with
  | EmptyString => string_of_list_ascii (rev cur) :: done
  | String a r =>
    if Ascii.eqb a sep
    then split_rev sep r [] (string_of_list_ascii (rev cur) :: done)
    else split_rev sep r (a :: cur) done
  end.

Definition split (sep : ascii) (s : string) : list string :=
  rev (split_rev sep s [] []).

(** [l[-1]] of a list that [split] returned (it is never empty) *)
Definition last_item (l : list string) : string :=
  default EmptyString (last l).

(** [isspace] of the C locale *)
Definition is_space (c : ascii) : bool :=
  let n := Z.of_N (N_of_ascii c) in
  (n =? 32) || ((9 <=? n) && (n <=? 13)).

Definition digit_val (c : ascii) : option Z :=
  let n := Z.of_N (N_of_ascii c) in
  if (48 <=? n) && (n <=? 57) then Some (n - 48) else None.

(** The white space at the head of [l] is skipped. *)
Fixpoint lstrip (l : list ascii) : list ascii :=
  match l with
  | c :: r => if is_space c then lstrip r else l
  | [] => []
  end.

(** The sign at the head of [l], if there is one, and what follows it;
    [true] is the minus sign. *)
Definition read_sign (l : list ascii) : bool * list ascii :=
  match l with
  | c :: r =>
    if Ascii.eqb c "-" then (true, r)
    else if Ascii.eqb c "+" then (false, r)
    else (false, l)
  | [] => (false, [])
  end.

(** The decimal digits at the head of [l], read into [acc]: how many were
    read, the number they give, and what follows them *)
Fixpoint read_digits (acc : Z) (l : list ascii) : nat * Z * list ascii :=
  match l with
  | c :: r =>
    match digit_val c with
    | Some d =>
      let '(k, v, rest) := read_digits (10 * acc + d) r in (S k, v, rest)
    | None => (O, acc, l)
    end
  | [] => (O, acc, [])
  end.

(** [int(s)] for a byte string [s], as Python 2 reads it.  nlmanager.py is
    a Python 2 module (the [print] statement of [routes_print], the
    [iteritems] of [_routes_add_or_delete]), and [int] of CPython 2.7 is
    [PyInt_FromString] on [PyOS_strtol] and [PyOS_strtoul]: white space is
    skipped, a sign is read if there is one, white space is skipped once
    more, the decimal digits are read, and white space is skipped; there
    must be one digit at least and nothing may be left (a null octet
    included).  So white space may stand between the sign and the digits;
    an underscore is no part of a number (that is Python 3.6 and later).
    The value is not bounded: past the machine word [int] returns a
    [long].  [None] stands for [ValueError]. *)
Definition int (s : string) : option Z :=
  let '(negative, l) := read_sign (lstrip (list_ascii_of_string s)) in
  let '(k, v, rest) := read_digits 0 (lstrip l) in
  match k, lstrip rest with
  | S _, [] => Some (if negative then - v else v)
  | _, _ => None
  end.

(** The number that a string of decimal digits writes *)
Definition number (ds : list ascii) : Z :=
  foldl (fun a c => 10 * a + default 0 (digit_val c)) 0 ds.

(** What the claims call a text that parses as an integer, said without
    [int]: [s] is white space, a sign or none, white space, one decimal
    digit or more, and white space, and [n] is the number that the digits
    write, with the sign. *)
Definition literal (s : string) (n : Z) : Prop :=
  exists lead sign gap ds trail,
    list_ascii_of_string s = lead ++ sign ++ gap ++ ds ++ trail
    /\ Forall (fun c => is_space c = true) (lead ++ gap ++ trail)
    /\ ds <> [] /\ Forall (fun c => is_Some (digit_val c)) ds
    /\ ((sign = [] /\ n = number ds)
        \/ (sign = ["+"%char] /\ n = number ds)
        \/ (sign = ["-"%char] /\ n = - number ds)).

End Str.

(** ** Request builders *)

(** What a builder has when it reaches [build_message]. *)
Inductive prepared :=
| Unsupported
    (* [request_dump]: [log.error] and [return None] *)
| PackError
    (* [pack] raised [struct.error] *)
| Prepared (msg : NetlinkPacket).

(** How a fire-and-forget operation ends. *)
Inductive outcome :=
| Sent
| NotSent
    (* [tx_nlpacket] logged an error and returned *)
| Raised (e : exn).

(** [socket.AF_UNSPEC] *)
Definition AF_UNSPEC : Z := 0.

(** [pack('B' + 'x'*3 + 'i'*k, family, 0, ..., 0)]: the family octet, three
    pad octets and [k] zero words *)
Definition pack_Bxxx_i (family : Z) (k : nat) : option bytes :=
  (fun b => b :: Struct.zeros 3 ++ Struct.zeros (4 * k))
    <$> Struct.pack_B family.

(** A route of the [routes] argument of [_routes_add_or_delete]:
    [(afi, ip, mask, nexthop, interface_index)] *)
Definition route_spec : Type :=
  Z * ip_address * Z * option ip_address * Z.

(** An item of [ecmp_routes.iteritems()]: [((afi, ip, mask), value)] *)
Definition ecmp_spec : Type := (Z * ip_address * Z) * attr_value.

Definition PACKET_CONCAT_SIZE : Z := 16384.

Section Builders.
Context `{E : NlPacket}.

(** [request_dump], lines 265 to 286: the request before it is built *)
Definition request_dump_msg (rtm_type family : Z) (debug : bool)
  : prepared :=
  let finish (c : packet_class) (k : nat) :=
    match pack_Bxxx_i family k with
    | None => PackError
    | Some body =>
      Prepared
        (set_attributes ∅
           (set_flags (Z.lor NLM_F_REQUEST NLM_F_DUMP)
              (set_body body (new_packet c rtm_type debug))))
    end in
  if rtm_type =? RTM_GETADDR then finish Address 1%nat
  else if rtm_type =? RTM_GETLINK then finish Link 3%nat
  else if rtm_type =? RTM_GETNEIGH then finish Neighbor 2%nat
  else if rtm_type =? RTM_GETROUTE then finish Route 2%nat
  else Unsupported.

(** [msg.build_message(self.sequence.next(), self.pid)] *)
Definition build_next (msg : NetlinkPacket) (m : NetlinkManager)
  : NetlinkPacket * NetlinkManager :=
  let '(n, m') := next_sequence m in
  (build_message n (pid m') msg, m').

(** [request_dump] *)
Definition request_dump (rtm_type family : Z) (debug : bool)
    (evs : list event) (m : NetlinkManager) : result * NetlinkManager :=
  match request_dump_msg rtm_type family debug with
  | Unsupported => (ReturnNone, m)
  | PackError => (Raise struct_error, m)
  | Prepared msg =>
    let '(msg, m') := build_next msg m in
    tx_nlpacket_get_response msg evs m'
  end.

(** [_link_add] *)
Definition _link_add (ifindex : Z) (ifname kind : string)
    (ifla_info_data : attr_value) (m : NetlinkManager)
  : outcome * NetlinkManager :=
  let debug := bool_decide (RTM_NEWLINK ∈ debug m) in
  let link := new_packet Link RTM_NEWLINK debug in
  let link := set_flags (Z.lor NLM_F_CREATE NLM_F_REQUEST) link in
  match pack_Bxxx_i AF_UNSPEC 3 with
  | None => (Raised struct_error, m)
  | Some body =>
    let link := set_body body link in
    let link := add_attribute IFLA_IFNAME (AStr ifname) link in
    let link := add_attribute IFLA_LINK (AInt ifindex) link in
    let link :=
      add_attribute IFLA_LINKINFO
        (ADict [(IFLA_INFO_KIND, AStr kind);
                (IFLA_INFO_DATA, ifla_info_data)]) link in
    let '(link, m') := build_next link m in
    let '(ok, m'') := tx_nlpacket link m' in
    (if ok then Sent else NotSent, m'')
  end.

(** [link_add_vlan] *)
Definition link_add_vlan (ifindex : Z) (ifname : string) (vlanid : Z)
    (m : NetlinkManager) : outcome * NetlinkManager :=
  let add :=
    _link_add ifindex ifname "vlan" (ADict [(IFLA_VLAN_ID, AInt vlanid)]) m in
  if Str.contains "." ifname then
    let suffix := Str.last_item (Str.split "." ifname) in
    match Str.int suffix with
    | None => (Raised (ValueError suffix), m)
    | Some ifname_vlanid =>
      if negb (ifname_vlanid =? vlanid)
      then (Raised (InvalidInterfaceNameVlanCombo ifname ifname_vlanid vlanid),
            m)
      else add
    end
  else add.

(** [tx_or_concat_message], the closure of [_routes_add_or_delete]: the
    new [total_message] and the session after a possible flush.  [route]
    has been built, so that [route.message] is a byte string. *)
Definition tx_or_concat_message (total_message : option bytes)
    (route : NetlinkPacket) (m : NetlinkManager)
  : option bytes * NetlinkManager :=
  let message := default [] (pkt_message route) in
  let total :=
    if truthy total_message then default [] total_message ++ message
    else message in
  if PACKET_CONCAT_SIZE <=? Z.of_nat (length total)
  then (None, tx_nlpacket_raw total m)
  else (Some total, m).

(** The request for one entry of [routes], before [build_message] *)
Definition route_msg (rtm_command : Z) (debug : bool)
    (table protocol route_scope route_type : Z) (r : route_spec)
  : prepared :=
  let '(afi, ip, mask, nexthop, interface_index) := r in
  let route := new_packet Route rtm_command debug in
  let route := set_flags (Z.lor NLM_F_REQUEST NLM_F_CREATE) route in
  match mapM Struct.pack_B
          [afi; mask; 0; 0; table; protocol; route_scope; route_type] with
  | None => PackError
  | Some octets =>
    let route := set_body (octets ++ Struct.zeros 4) route in
    let route := set_family afi route in
    let route := add_attribute RTA_DST (AAddr ip) route in
    let route :=
      match nexthop with
      | Some gw => add_attribute RTA_GATEWAY (AAddr gw) route
      | None => route
      end in
    Prepared (add_attribute RTA_OIF (AInt interface_index) route)
  end.

(** The request for one item of [ecmp_routes], before [build_message] *)
Definition ecmp_msg (rtm_command : Z) (debug : bool)
    (table protocol route_scope route_type : Z) (r : ecmp_spec)
  : prepared :=
  let '((afi, ip, mask), value) := r in
  let route := new_packet Route rtm_command debug in
  let route := set_flags (Z.lor NLM_F_REQUEST NLM_F_CREATE) route in
  match mapM Struct.pack_B
          [afi; mask; 0; 0; table; protocol; route_scope; route_type] with
  | None => PackError
  | Some octets =>
    let route := set_body (octets ++ Struct.zeros 4) route in
    let route := set_family afi route in
    let route := add_attribute RTA_DST (AAddr ip) route in
    Prepared (add_attribute RTA_MULTIPATH value route)
  end.

(** One of the two [for] loops of [_routes_add_or_delete]: every item is
    prepared, built and handed to [tx_or_concat_message].  The result is the
    [total_message] after the loop, or the exception that ended it. *)
Fixpoint batch_loop {A : Type} (prepare : A -> prepared) (items : list A)
    (total_message : option bytes) (m : NetlinkManager)
  : (exn + option bytes) * NetlinkManager :=
  match items with
  | [] => (inr total_message, m)
  | x :: items' =>
    match prepare x with
    | Prepared route =>
      let '(route, m1) := build_next route m in
      let '(total_message', m2) :=
        tx_or_concat_message total_message route m1 in
      batch_loop prepare items' total_message' m2
    | _ => (inl struct_error, m)
    end
  end.

(** [if total_message: self.tx_nlpacket_raw(total_message)] *)
Definition flush_rest (total_message : option bytes) (m : NetlinkManager)
  : NetlinkManager :=
  if truthy total_message
  then tx_nlpacket_raw (default [] total_message) m
  else m.

(** The messages that the loop builds, in order: item [i] is stamped with
    the [i]-th sequence number after [seq0]. *)
Fixpoint built_messages {A : Type} (prepare : A -> prepared)
    (items : list A) (seq0 pid : Z) : list bytes :=
  match items with
  | [] => []
  | x :: items' =>
    match prepare x with
    | Prepared route =>
      default [] (pkt_message (build_message (seq0 + 1) pid route))
      :: built_messages prepare items' (seq0 + 1) pid
    | _ => []
    end
  end.

(** [_routes_add_or_delete]; [Some e] when [e] was raised on the way. *)
Definition _routes_add_or_delete (add_route : bool)
    (routes : list route_spec) (ecmp_routes : list ecmp_spec)
    (table protocol route_scope route_type : Z) (m : NetlinkManager)
  : option exn * NetlinkManager :=
  let rtm_command := if add_route then RTM_NEWROUTE else RTM_DELROUTE in
  let total_message : option bytes := None in
  let debug := bool_decide (rtm_command ∈ debug m) in
  match
    match routes with
    | [] => (inr total_message, m)
    | _ :: _ =>
      match batch_loop
              (route_msg rtm_command debug table protocol route_scope
                 route_type) routes total_message m with
      | (inr total_message, m1) =>
        (inr total_message, flush_rest total_message m1)
      | (inl e, m1) => (inl e, m1)
      end
    end
  with
  | (inl e, m1) => (Some e, m1)
  | (inr total_message, m1) =>
    match ecmp_routes with
    | [] => (None, m1)
    | _ :: _ =>
      match batch_loop
              (ecmp_msg rtm_command debug table protocol route_scope
                 route_type) ecmp_routes total_message m1 with
      | (inr total_message, m2) => (None, flush_rest total_message m2)
      | (inl e, m2) => (Some e, m2)
      end
    end
  end.

End Builders.

(** ** Vocabulary of the statements *)

(** A frame of a response: its type, its flags and its payload.  Sequence
    number and pid are those of the request it answers. *)
Record rx_frame := {
  rx_type : Z;
  rx_flags : Z;
  rx_payload : bytes
}.

Section Statements.
Context `{E : NlPacket}.

Definition frame_bytes (seq pid : Z) (f : rx_frame) : bytes :=
  frame (rx_type f) (rx_flags f) seq pid (rx_payload f).

(** Frames packed back to back, as one [recv] returns them. *)
Definition chunk_bytes (seq pid : Z) (fs : list rx_frame) : bytes :=
  mjoin (frame_bytes seq pid <$> fs).

(** The fields of a frame fit the header, and the frame is a data frame:
    its type is neither the Done nor the Error marker, it selects one of the
    four classes, and the type-name table lists it. *)
Definition data_frame (f : rx_frame) : Prop :=
  0 <= rx_type f < 2 ^ 16 /\ 0 <= rx_flags f < 2 ^ 16 /\
  Z.of_nat (header_LEN + length (rx_payload f)) < 2 ^ 32 /\
  rx_type f <> NLMSG_DONE /\ rx_type f <> NLMSG_ERROR /\
  is_Some (data_class (rx_type f)) /\
  is_Some (type_to_string !! rx_type f).

(** The objects that [decode_packet] yields for the frames [fs] of a
    buffer that goes on with [tail]: each call is handed the buffer from its
    frame onwards, as the loop does. *)
Fixpoint decode_chunk (debug : bool) (seq pid : Z) (fs : list rx_frame)
    (tail : bytes) : list (option NetlinkPacket) :=
  match fs with
  | [] => []
  | f :: fs' =>
    (data_class (rx_type f) ≫= fun c =>
       decode_packet (new_packet c (rx_type f) debug)
         (Z.of_nat (header_LEN + length (rx_payload f))) (rx_flags f)
         seq pid (chunk_bytes seq pid (f :: fs') ++ tail))
    :: decode_chunk debug seq pid fs' tail
  end.

(** The wait loop as the specification words it: the counter holds the
    number of consecutive timeouts, so it starts again from zero when the
    socket was readable. *)
Fixpoint wait_loop_consecutive (nlpacket : NetlinkPacket) (evs : list event)
    (null_read : Z) (msgs : list NetlinkPacket) : result :=
  match evs with
  | [] => Waiting null_read msgs
  | EvShutdown :: _ => Return msgs
  | EvTimeout :: evs' =>
    let null_read := null_read + 1 in
    if MAX_NULL_READS <=? null_read then Return msgs
    else wait_loop_consecutive nlpacket evs' null_read msgs
  | EvRecv data :: evs' =>
    match data with
    | [] => Return msgs
    | _ :: _ =>
      match demux nlpacket data msgs with
      | Exhausted msgs' => wait_loop_consecutive nlpacket evs' 0 msgs'
      | Final r => r
      | OutOfFuel => Hangs
      end
    end
  end.

(** The requests of a session in the order in which they are built: every
    builder calls [build_message(self.sequence.next(), self.pid)] once for
    each request, and nothing else writes the allocator. *)
Fixpoint session_builds (reqs : list NetlinkPacket) (m : NetlinkManager)
  : list NetlinkPacket * NetlinkManager :=
  match reqs with
  | [] => ([], m)
  | r :: reqs' =>
    let '(p, m1) := build_next r m in
    let '(ps, m2) := session_builds reqs' m1 in
    (p :: ps, m2)
  end.

(** The octets waiting in [total_message] *)
Definition pending (total : option bytes) : bytes :=
  if truthy total then default [] total else [].

(** The sequence number that the header of an encoded request carries *)
Definition stamped_seq (message : bytes) : option Z :=
  (fun h : Z * Z * Z * Z * Z => h.1.2) <$>
    unpack_header (take header_LEN message).

End Statements.

(** ** A host to run the definitions on

    The constants of [linux/netlink.h] and [linux/rtnetlink.h] on a
    little-endian host, a type-name table for the message types that
    nlmanager.py names, and a stand-in codec: every attribute is encoded as
    an 8-octet TLV whose payload is left zero, and a frame is decoded by
    keeping its payload as the body. *)
Module Linux.

Definition type_names : gmap Z string :=
  list_to_map
    [(2, "NLMSG_ERROR"); (3, "NLMSG_DONE");
     (16, "RTM_NEWLINK"); (17, "RTM_DELLINK"); (18, "RTM_GETLINK");
     (19, "RTM_SETLINK");
     (20, "RTM_NEWADDR"); (21, "RTM_DELADDR"); (22, "RTM_GETADDR");
     (24, "RTM_NEWROUTE"); (25, "RTM_DELROUTE"); (26, "RTM_GETROUTE");
     (28, "RTM_NEWNEIGH"); (29, "RTM_DELNEIGH"); (30, "RTM_GETNEIGH")]%string.

Definition encode (p : NetlinkPacket) : bytes :=
  mjoin ((fun kv : Z * attr_value =>
            Struct.le_bytes 2 8 ++ Struct.le_bytes 2 kv.1 ++ Struct.zeros 4)
         <$> map_to_list (pkt_attributes p)).

Definition decode (p : NetlinkPacket) (length flags seq pid : Z)
    (data : bytes) : option NetlinkPacket :=
  Some {| pkt_class := pkt_class p; pkt_msgtype := pkt_msgtype p;
          pkt_debug := pkt_debug p; pkt_flags := flags;
          pkt_family := None;
          pkt_body := drop header_LEN (take (Z.to_nat length) data);
          pkt_attributes := ∅;
          pkt_length := length; pkt_seq := seq; pkt_pid := pid;
          pkt_message := None |}.

#[export] Instance host : NlPacket := {|
  NLMSG_ERROR := 2; NLMSG_DONE := 3;
  RTM_NEWLINK := 16; RTM_DELLINK := 17; RTM_GETLINK := 18;
  RTM_NEWADDR := 20; RTM_DELADDR := 21; RTM_GETADDR := 22;
  RTM_NEWROUTE := 24; RTM_DELROUTE := 25; RTM_GETROUTE := 26;
  RTM_NEWNEIGH := 28; RTM_DELNEIGH := 29; RTM_GETNEIGH := 30;
  NLM_F_REQUEST := 1; NLM_F_DUMP := 768; NLM_F_CREATE := 1024;
  NLE_NOADDR := 19;
  IFLA_IFNAME := 3; IFLA_LINK := 5; IFLA_LINKINFO := 18;
  IFLA_INFO_KIND := 1; IFLA_INFO_DATA := 2; IFLA_VLAN_ID := 1;
  RTA_DST := 1; RTA_GATEWAY := 5; RTA_OIF := 4; RTA_MULTIPATH := 9;
  type_to_string := type_names;
  big_endian := false;
  encode_attributes := encode;
  decode_packet := decode
|}.

End Linux.

(** ** Sample inputs on that host *)

Module Sample.
Import Linux.

(** A fresh session of process 1234; its first request is stamped with
    sequence 1. *)
Definition m0 : NetlinkManager := NetlinkManager_init 1234.

(** The request that [request_dump(RTM_GETADDR, AF_UNSPEC, False)] builds
    first in that session *)
Definition getaddr : NetlinkPacket :=
  build_message 1 1234
    (set_attributes ∅
       (set_flags 769 (set_body (Struct.zeros 8) (new_packet Address 22 false)))).

(** An [RTM_NEWADDR] answer to it, with eight octets of payload *)
Definition newaddr : rx_frame :=
  {| rx_type := 20; rx_flags := 2; rx_payload := Struct.zeros 8 |}.

(** A second one, told apart by its payload *)
Definition newaddr' : rx_frame :=
  {| rx_type := 20; rx_flags := 2;
     rx_payload := Byte.x02 :: Struct.zeros 7 |}.

(** The [NLMSG_DONE] frame that ends the dump *)
Definition done_frame : bytes := frame 3 2 1 1234 (Struct.zeros 4).

(** An [NLMSG_ERROR] frame for the request: [code], then the request
    echoed *)
Definition error_frame (code : Z) : bytes :=
  frame 2 0 1 1234
    (Struct.le_bytes 4 code ++ default [] (pkt_message getaddr)).

(** A frame of pid 0 and sequence 0 of type [t], without payload *)
Definition foreign_frame (t : Z) : bytes := frame t 0 0 0 [].

(** What [decode_packet] makes of [newaddr] and of [newaddr'] *)
Definition newaddr_obj (payload : bytes) : NetlinkPacket :=
  {| pkt_class := Address; pkt_msgtype := 20; pkt_debug := false;
     pkt_flags := 2; pkt_family := None; pkt_body := payload;
     pkt_attributes := ∅; pkt_length := 24; pkt_seq := 1; pkt_pid := 1234;
     pkt_message := None |}.

(** An IPv4 route with a gateway *)
Definition route4 : route_spec :=
  (2, IPv4Address 167772160, 24, Some (IPv4Address 167772161), 3).

End Sample.

(** ** The rest of the module

    The functions of nlmanager.py that the definitions above do not reach:
    the debug registry, [shutdown], the lookups that wait for a response
    ([route_get], [_get_iface_by_name], [get_iface_index], [routes_dump]),
    and the builders that send without waiting ([link_add_macvlan],
    [_link_bridge_vlan], [link_set_updown], [link_set_protodown],
    [neighbor_add], [neighbor_del], [routes_add], [routes_del]). *)

(** More of [struct.pack]: [None] stands for [struct.error], raised for a
    value outside the range of its format. *)
Module Pack.

(** ['i'], a signed 32-bit field *)
Definition pack_i (big : bool) (v : Z) : option bytes :=
  if decide (- 2 ^ 31 <= v < 2 ^ 31)
  then Some (Struct.host_bytes big 4 (v mod 2 ^ 32)) else None.

(** ['L'] of a format that starts with ['='], an unsigned 32-bit field *)
Definition pack_L (big : bool) (v : Z) : option bytes :=
  if decide (0 <= v < 2 ^ 32) then Some (Struct.host_bytes big 4 v) else None.

(** ['H'], an unsigned 16-bit field *)
Definition pack_H (big : bool) (v : Z) : option bytes :=
  if decide (0 <= v < 2 ^ 16) then Some (Struct.host_bytes big 2 v) else None.

(** [pack('Bxxxiii', f, a, b, c)] and [pack('=Bxxxiii', f, a, b, c)]: the
    words follow the three pad octets, so that both layouts are the same *)
Definition Bxxxiii (big : bool) (f a b c : Z) : option bytes :=
  o ← Struct.pack_B f; x ← pack_i big a; y ← pack_i big b;
  z ← pack_i big c;
  Some (o :: Struct.zeros 3 ++ x ++ y ++ z).

(** [pack('=BxxxiLL', f, a, b, c)] *)
Definition BxxxiLL (big : bool) (f a b c : Z) : option bytes :=
  o ← Struct.pack_B f; x ← pack_i big a; y ← pack_L big b;
  z ← pack_L big c;
  Some (o :: Struct.zeros 3 ++ x ++ y ++ z).

(** [pack('=BxxxiHBB', f, a, h, b, c)] *)
Definition BxxxiHBB (big : bool) (f a h b c : Z) : option bytes :=
  o ← Struct.pack_B f; x ← pack_i big a; y ← pack_H big h;
  u ← Struct.pack_B b; v ← Struct.pack_B c;
  Some (o :: Struct.zeros 3 ++ x ++ y ++ [u; v]).

(** [pack('Bxxxxxxxi', f, a)]: the word is aligned at offset 8 *)
Definition Bxxxxxxxi (big : bool) (f a : Z) : option bytes :=
  o ← Struct.pack_B f; x ← pack_i big a;
  Some (o :: Struct.zeros 7 ++ x).

End Pack.

(** The constants of [nlpacket] that these functions name, and what they
    read from a decoded [Link]. *)
Class NlPacketMore := {
  RTM_SETLINK : Z;
  NLM_F_ACK : Z;
  IFLA_MACVLAN_MODE : Z; MACVLAN_MODE_PRIVATE : Z;
  BRIDGE_FLAGS_SELF : Z;
  BRIDGE_VLAN_INFO_PVID : Z; BRIDGE_VLAN_INFO_UNTAGGED : Z;
  IFLA_AF_SPEC : Z; IFLA_BRIDGE_FLAGS : Z; IFLA_BRIDGE_VLAN_INFO : Z;
  IFF_UP : Z; IFLA_PROTO_DOWN : Z;
  NUD_REACHABLE : Z; NDA_DST : Z; NDA_LLADDR : Z;
  RTN_UNICAST : Z;
  RT_TABLE_MAIN : Z; RT_PROT_XORP : Z; RT_SCOPE_UNIVERSE : Z;
  (** [iface.ifindex] *)
  link_ifindex : NetlinkPacket -> Z;
  (** the truth value of a decoded packet, as [if iface:] takes it *)
  link_truthy : NetlinkPacket -> bool
}.

(** [socket.AF_INET], [socket.AF_INET6] and [socket.AF_BRIDGE] on Linux *)
Definition AF_INET : Z := 2.
Definition AF_INET6 : Z := 10.
Definition AF_BRIDGE : Z := 7.

(** What these functions raise besides the exceptions of [exn] *)
Inductive failure :=
| Exn (e : exn)
| UnsupportedState (state : string)
    (* [Exception('Unsupported state %s, ...' % state)] *)
| InvalidIpType
    (* [Exception("%s is an invalid IP type" % type_ip)] *)
| IndexError
    (* [[][0]] *)
| TypeError.
    (* [None[0]] *)

(** The argument of [ip_to_afi]: an address object or something else *)
Inductive ip_arg :=
| IsIp (ip : ip_address)
| NotIp.

(** How a lookup ends *)
Inductive ending (A : Type) :=
| Gives (x : A)
| Fails (f : failure)
| StillWaiting (null_read : Z) (msgs : list NetlinkPacket)
| NeverEnds.
Arguments Gives {A} x.
Arguments Fails {A} f.
Arguments StillWaiting {A} null_read msgs.
Arguments NeverEnds {A}.

(** A received frame with the sequence number and the pid of its header *)
Record wire_frame := {
  wf_seq : Z;
  wf_pid : Z;
  wf_frame : rx_frame
}.

(** [_debug_set_clear] *)
Fixpoint _debug_set_clear (msg_types : list Z) (enabled : bool)
    (m : NetlinkManager) : NetlinkManager :=
  match msg_types with
  | [] => m
  | x :: msg_types' =>
    _debug_set_clear msg_types' enabled
      {| pid := pid m; sequence := sequence m; tx_socket := tx_socket m;
         debug := if enabled then {[x]} ∪ debug m else debug m ∖ {[x]} |}
  end.

(** [debug_this_packet] *)
Definition debug_this_packet (mtype : Z) (m : NetlinkManager) : bool :=
  bool_decide (mtype ∈ debug m).

(** [shutdown] *)
Definition shutdown (m : NetlinkManager) : NetlinkManager :=
  {| pid := pid m; sequence := sequence m; tx_socket := None;
     debug := debug m |}.

(** [ip_to_afi] *)
Definition ip_to_afi (ip : ip_arg) : failure + Z :=
  match ip with
  | IsIp (IPv4Address _) => inr AF_INET
  | IsIp (IPv6Address _) => inr AF_INET6
  | NotIp => inl InvalidIpType
  end.

Section MoreBuilders.
Context `{E : NlPacket} `{X : NlPacketMore}.

(** [debug_link], [debug_address], [debug_neighbor] and [debug_route] *)
Definition debug_link (enabled : bool) : NetlinkManager -> NetlinkManager :=
  _debug_set_clear [RTM_NEWLINK; RTM_DELLINK; RTM_GETLINK; RTM_SETLINK]
    enabled.

Definition debug_address (enabled : bool)
  : NetlinkManager -> NetlinkManager :=
  _debug_set_clear [RTM_NEWADDR; RTM_DELADDR; RTM_GETADDR] enabled.

Definition debug_neighbor (enabled : bool)
  : NetlinkManager -> NetlinkManager :=
  _debug_set_clear [RTM_NEWNEIGH; RTM_DELNEIGH; RTM_GETNEIGH] enabled.

Definition debug_route (enabled : bool)
  : NetlinkManager -> NetlinkManager :=
  _debug_set_clear [RTM_NEWROUTE; RTM_DELROUTE; RTM_GETROUTE] enabled.

(** The end of the builders that do not wait:
    [x.build_message(self.sequence.next(), self.pid)] and
    [return self.tx_nlpacket(x)], or the [struct.error] of [pack]. *)
Definition build_and_tx (p : prepared) (m : NetlinkManager)
  : option failure * NetlinkManager :=
  match p with
  | Prepared x =>
    let '(x, m1) := build_next x m in
    (None, (tx_nlpacket x m1).2)
  | _ => (Some (Exn struct_error), m)
  end.

(** The same for the lookups: [return self.tx_nlpacket_get_response(x)] *)
Definition build_and_collect (p : prepared) (evs : list event)
    (m : NetlinkManager) : result * NetlinkManager :=
  match p with
  | Prepared x =>
    let '(x, m1) := build_next x m in
    tx_nlpacket_get_response x evs m1
  | _ => (Raise struct_error, m)
  end.

(** [tx_nlpacket] with the socket call that raises, when one does *)
Definition tx_nlpacket_or_raise (fault : option sock_fault)
    (nlpacket : NetlinkPacket) (m : NetlinkManager)
  : option failure * NetlinkManager :=
  match pkt_message nlpacket with
  | Some (b :: msg) =>
    let '(raised, m') := sendall_or_raise fault (b :: msg) m in
    (Exn <$> raised, m')
  | _ => (None, m)
  end.

(** The end of the builders, as [build_and_tx], with the socket call that
    raises when one does: [self.sequence.next()] has been called when
    [tx_nlpacket] reaches the socket. *)
Definition build_and_tx_or_raise (fault : option sock_fault) (p : prepared)
    (m : NetlinkManager) : option failure * NetlinkManager :=
  match p with
  | Prepared x =>
    let '(x, m1) := build_next x m in
    tx_nlpacket_or_raise fault x m1
  | _ => (Some (Exn struct_error), m)
  end.

(** The fault strikes in a transmission of the manager [m]: [sendall] is
    always called, [socket.socket] and [bind] only when there is no
    socket. *)
Definition fault_strikes (fault : option sock_fault) (m : NetlinkManager)
  : bool :=
  match fault, tx_socket m with
  | None, _ => false
  | Some SendallRaises, _ => true
  | Some _, None => true
  | Some _, Some _ => false
  end.

(** [link_add_macvlan] *)
Definition link_add_macvlan (ifindex : Z) (ifname : string)
    (m : NetlinkManager) : outcome * NetlinkManager :=
  _link_add ifindex ifname "macvlan"
    (ADict [(IFLA_MACVLAN_MODE, AInt MACVLAN_MODE_PRIVATE)]) m.

(** [_link_bridge_vlan], up to [build_message] *)
Definition _link_bridge_vlan_msg (msgtype ifindex vlanid : Z)
    (pvid untagged master : bool) (m : NetlinkManager) : prepared :=
  let flags := if master then 0 else BRIDGE_FLAGS_SELF in
  let vflags :=
    if pvid then Z.lor BRIDGE_VLAN_INFO_PVID BRIDGE_VLAN_INFO_UNTAGGED
    else if untagged then BRIDGE_VLAN_INFO_UNTAGGED
    else 0 in
  let debug := bool_decide (msgtype ∈ debug m) in
  let link := new_packet Link msgtype debug in
  let link := set_flags (Z.lor NLM_F_REQUEST NLM_F_ACK) link in
  match Pack.Bxxxiii big_endian AF_BRIDGE ifindex 0 0 with
  | None => PackError
  | Some body =>
    let link := set_body body link in
    Prepared
      (add_attribute IFLA_AF_SPEC
         (ADict [(IFLA_BRIDGE_FLAGS, AInt flags);
                 (IFLA_BRIDGE_VLAN_INFO, AList [AInt vflags; AInt vlanid])])
         link)
  end.

(** [_link_bridge_vlan] *)
Definition _link_bridge_vlan (msgtype ifindex vlanid : Z)
    (pvid untagged master : bool) (m : NetlinkManager)
  : option failure * NetlinkManager :=
  build_and_tx
    (_link_bridge_vlan_msg msgtype ifindex vlanid pvid untagged master m) m.

(** [link_add_bridge_vlan] and [link_del_bridge_vlan] *)
Definition link_add_bridge_vlan (ifindex vlanid : Z)
    (pvid untagged master : bool) (m : NetlinkManager)
  : option failure * NetlinkManager :=
  _link_bridge_vlan RTM_SETLINK ifindex vlanid pvid untagged master m.

Definition link_del_bridge_vlan (ifindex vlanid : Z)
    (pvid untagged master : bool) (m : NetlinkManager)
  : option failure * NetlinkManager :=
  _link_bridge_vlan RTM_DELLINK ifindex vlanid pvid untagged master m.

(** [link_set_updown], after the test of [state]: [if_flags] is known *)
Definition link_set_updown_msg (ifname : string) (if_flags : Z)
    (m : NetlinkManager) : prepared :=
  let debug := bool_decide (RTM_NEWLINK ∈ debug m) in
  let if_change := IFF_UP in
  let link := new_packet Link RTM_NEWLINK debug in
  let link := set_flags NLM_F_REQUEST link in
  match Pack.BxxxiLL big_endian AF_UNSPEC 0 if_flags if_change with
  | None => PackError
  | Some body =>
    Prepared (add_attribute IFLA_IFNAME (AStr ifname) (set_body body link))
  end.

(** [link_set_updown] *)
Definition link_set_updown (ifname state : string) (m : NetlinkManager)
  : option failure * NetlinkManager :=
  if String.eqb state "up" then
    build_and_tx (link_set_updown_msg ifname IFF_UP m) m
  else if String.eqb state "down" then
    build_and_tx (link_set_updown_msg ifname 0 m) m
  else (Some (UnsupportedState state), m).

(** [link_set_protodown], up to [build_message] *)
Definition link_set_protodown_msg (ifname state : string)
    (m : NetlinkManager) : prepared :=
  let protodown := if String.eqb state "on" then 1 else 0 in
  let debug := bool_decide (RTM_NEWLINK ∈ debug m) in
  let link := new_packet Link RTM_NEWLINK debug in
  let link := set_flags NLM_F_REQUEST link in
  match Pack.BxxxiLL big_endian AF_UNSPEC 0 0 0 with
  | None => PackError
  | Some body =>
    let link := set_body body link in
    let link := add_attribute IFLA_IFNAME (AStr ifname) link in
    Prepared (add_attribute IFLA_PROTO_DOWN (AInt protodown) link)
  end.

(** [link_set_protodown] *)
Definition link_set_protodown (ifname state : string) (m : NetlinkManager)
  : option failure * NetlinkManager :=
  build_and_tx (link_set_protodown_msg ifname state m) m.

(** The request of [neighbor_add] and of [neighbor_del], which differ by
    the message type and by the flags *)
Definition neighbor_msg (msgtype flags afi ifindex : Z) (ip : ip_address)
    (mac : attr_value) (m : NetlinkManager) : prepared :=
  let debug := bool_decide (msgtype ∈ debug m) in
  let service_hdr_flags := 0 in
  let nbr := new_packet Neighbor msgtype debug in
  let nbr := set_flags flags nbr in
  let nbr := set_family afi nbr in
  match Pack.BxxxiHBB big_endian afi ifindex NUD_REACHABLE service_hdr_flags
          RTN_UNICAST with
  | None => PackError
  | Some body =>
    let nbr := set_body body nbr in
    let nbr := add_attribute NDA_DST (AAddr ip) nbr in
    Prepared (add_attribute NDA_LLADDR mac nbr)
  end.

(** [neighbor_add] *)
Definition neighbor_add (afi ifindex : Z) (ip : ip_address)
    (mac : attr_value) (m : NetlinkManager)
  : option failure * NetlinkManager :=
  build_and_tx
    (neighbor_msg RTM_NEWNEIGH (Z.lor NLM_F_CREATE NLM_F_REQUEST)
       afi ifindex ip mac m) m.

(** [neighbor_del] *)
Definition neighbor_del (afi ifindex : Z) (ip : ip_address)
    (mac : attr_value) (m : NetlinkManager)
  : option failure * NetlinkManager :=
  build_and_tx
    (neighbor_msg RTM_DELNEIGH NLM_F_REQUEST afi ifindex ip mac m) m.

(** [routes_add] and [routes_del], with the defaults of their keyword
    arguments written out by [routes_add_default] and [routes_del_default] *)
Definition routes_add (routes : list route_spec)
    (ecmp_routes : list ecmp_spec) (table protocol route_scope route_type : Z)
    (m : NetlinkManager) : option exn * NetlinkManager :=
  _routes_add_or_delete true routes ecmp_routes table protocol route_scope
    route_type m.

Definition routes_del (routes : list route_spec)
    (ecmp_routes : list ecmp_spec) (table protocol route_scope route_type : Z)
    (m : NetlinkManager) : option exn * NetlinkManager :=
  _routes_add_or_delete false routes ecmp_routes table protocol route_scope
    route_type m.

Definition routes_add_default (routes : list route_spec)
    (ecmp_routes : list ecmp_spec) (m : NetlinkManager)
  : option exn * NetlinkManager :=
  routes_add routes ecmp_routes RT_TABLE_MAIN RT_PROT_XORP RT_SCOPE_UNIVERSE
    RTN_UNICAST m.

Definition routes_del_default (routes : list route_spec)
    (ecmp_routes : list ecmp_spec) (m : NetlinkManager)
  : option exn * NetlinkManager :=
  routes_del routes ecmp_routes RT_TABLE_MAIN RT_PROT_XORP RT_SCOPE_UNIVERSE
    RTN_UNICAST m.

(** [routes_dump] *)
Definition routes_dump (family : Z) (debug : bool) (evs : list event)
    (m : NetlinkManager) : result * NetlinkManager :=
  request_dump RTM_GETROUTE family debug evs m.

(** [route_get], once [ip_to_afi] has given [afi] for the address [ip] *)
Definition route_get_msg (afi : Z) (ip : ip_address) (debug : bool)
  : prepared :=
  let route := new_packet Route RTM_GETROUTE debug in
  let route := set_flags (Z.lor NLM_F_REQUEST NLM_F_ACK) route in
  match Pack.Bxxxxxxxi big_endian afi 0 with
  | None => PackError
  | Some body =>
    let route := set_body body route in
    let route := set_family afi route in
    Prepared (add_attribute RTA_DST (AAddr ip) route)
  end.

(** [route_get] *)
Definition route_get (ip : ip_arg) (debug : bool) (evs : list event)
    (m : NetlinkManager) : ending (option (list NetlinkPacket))
                           * NetlinkManager :=
  match ip, ip_to_afi ip with
  | IsIp a, inr afi =>
    let '(r, m') := build_and_collect (route_get_msg afi a debug) evs m in
    (match r with
     | ReturnNone => Gives None
     | Return msgs => Gives (Some msgs)
     | Raise e => Fails (Exn e)
     | Waiting n msgs => StillWaiting n msgs
     | Hangs => NeverEnds
     end, m')
  | _, inl f => (Fails f, m)
  | NotIp, inr _ => (Fails InvalidIpType, m)
  end.

(** The request of [_get_iface_by_name], up to [build_message] *)
Definition _get_iface_by_name_msg (ifname : string) (m : NetlinkManager)
  : prepared :=
  let debug := bool_decide (RTM_GETLINK ∈ debug m) in
  let link := new_packet Link RTM_GETLINK debug in
  let link := set_flags (Z.lor NLM_F_REQUEST NLM_F_ACK) link in
  match Pack.Bxxxiii big_endian AF_UNSPEC 0 0 0 with
  | None => PackError
  | Some body =>
    Prepared (add_attribute IFLA_IFNAME (AStr ifname) (set_body body link))
  end.

(** [_get_iface_by_name]: the first object of the response; [None] when
    [NetlinkNoAddressError] is caught; [IndexError] when the response is
    empty. *)
Definition _get_iface_by_name (ifname : string) (evs : list event)
    (m : NetlinkManager) : ending (option NetlinkPacket) * NetlinkManager :=
  let '(r, m') :=
    build_and_collect (_get_iface_by_name_msg ifname m) evs m in
  (match r with
   | Return (iface :: _) => Gives (Some iface)
   | Return [] => Fails IndexError
   | Raise (NetlinkNoAddressError _) => Gives None
   | Raise e => Fails (Exn e)
   | ReturnNone => Fails TypeError
   | Waiting n msgs => StillWaiting n msgs
   | Hangs => NeverEnds
   end, m').

(** [get_iface_index] *)
Definition get_iface_index (ifname : string) (evs : list event)
    (m : NetlinkManager) : ending (option Z) * NetlinkManager :=
  let '(r, m') := _get_iface_by_name ifname evs m in
  (match r with
   | Gives (Some iface) =>
     Gives (if link_truthy iface then Some (link_ifindex iface) else None)
   | Gives None => Gives None
   | Fails f => Fails f
   | StillWaiting n msgs => StillWaiting n msgs
   | NeverEnds => NeverEnds
   end, m').

(** The calls that a client of the manager can make *)
Inductive call :=
| CallDebugLink (enabled : bool)
| CallDebugAddress (enabled : bool)
| CallDebugNeighbor (enabled : bool)
| CallDebugRoute (enabled : bool)
| CallShutdown
| CallRequestDump (rtm_type family : Z) (debug : bool) (evs : list event)
| CallRoutesAdd (routes : list route_spec) (ecmp_routes : list ecmp_spec)
    (table protocol route_scope route_type : Z)
| CallRoutesDel (routes : list route_spec) (ecmp_routes : list ecmp_spec)
    (table protocol route_scope route_type : Z)
| CallRouteGet (ip : ip_arg) (debug : bool) (evs : list event)
| CallRoutesDump (family : Z) (debug : bool) (evs : list event)
| CallGetIfaceIndex (ifname : string) (evs : list event)
| CallLinkAddVlan (ifindex : Z) (ifname : string) (vlanid : Z)
| CallLinkAddMacvlan (ifindex : Z) (ifname : string)
| CallLinkAddBridgeVlan (ifindex vlanid : Z) (pvid untagged master : bool)
| CallLinkDelBridgeVlan (ifindex vlanid : Z) (pvid untagged master : bool)
| CallLinkSetUpdown (ifname state : string)
| CallLinkSetProtodown (ifname state : string)
| CallNeighborAdd (afi ifindex : Z) (ip : ip_address) (mac : attr_value)
| CallNeighborDel (afi ifindex : Z) (ip : ip_address) (mac : attr_value).

(** The manager after a call, whether the call returned or raised *)
Definition after (c : call) (m : NetlinkManager) : NetlinkManager :=
  match c with
  | CallDebugLink b => debug_link b m
  | CallDebugAddress b => debug_address b m
  | CallDebugNeighbor b => debug_neighbor b m
  | CallDebugRoute b => debug_route b m
  | CallShutdown => shutdown m
  | CallRequestDump t f d evs => (request_dump t f d evs m).2
  | CallRoutesAdd r e t p s y => (routes_add r e t p s y m).2
  | CallRoutesDel r e t p s y => (routes_del r e t p s y m).2
  | CallRouteGet ip d evs => (route_get ip d evs m).2
  | CallRoutesDump f d evs => (routes_dump f d evs m).2
  | CallGetIfaceIndex n evs => (get_iface_index n evs m).2
  | CallLinkAddVlan i n v => (link_add_vlan i n v m).2
  | CallLinkAddMacvlan i n => (link_add_macvlan i n m).2
  | CallLinkAddBridgeVlan i v p u a => (link_add_bridge_vlan i v p u a m).2
  | CallLinkDelBridgeVlan i v p u a => (link_del_bridge_vlan i v p u a m).2
  | CallLinkSetUpdown n s => (link_set_updown n s m).2
  | CallLinkSetProtodown n s => (link_set_protodown n s m).2
  | CallNeighborAdd a i ip mac => (neighbor_add a i ip mac m).2
  | CallNeighborDel a i ip mac => (neighbor_del a i ip mac m).2
  end.

(** Between [m] and [m'] one request was built and sent: the allocator
    has advanced by one, and one message has been written to the socket. *)
Definition one_sent (m m' : NetlinkManager) : Prop :=
  sequence m' = (Sequence_next (sequence m)).2
  /\ pid m' = pid m /\ debug m' = debug m
  /\ exists message, transmitted m' = transmitted m ++ [message].



(** What every method keeps of the session: the pid is the same and the
    allocator has not gone back. *)
Definition keeps_session (m m' : NetlinkManager) : Prop :=
  pid m' = pid m /\ _next (sequence m) <= _next (sequence m').

(** The session after the calls [cs], made one after the other *)
Definition after_all (cs : list call) (m : NetlinkManager) : NetlinkManager :=
  foldl (fun m c => after c m) m cs.





End MoreBuilders.

Section MixedStreams.
Context `{E : NlPacket}.

Definition wire_bytes (w : wire_frame) : bytes :=
  frame_bytes (wf_seq w) (wf_pid w) (wf_frame w).

(** Frames of any origin, packed back to back *)
Definition stream_bytes (ws : list wire_frame) : bytes :=
  mjoin (wire_bytes <$> ws).

(** The frame answers [nlpacket]: both its pid and its sequence are those
    of the request. *)
Definition answers (nlpacket : NetlinkPacket) (w : wire_frame) : bool :=
  (wf_pid w =? pkt_pid nlpacket) && (wf_seq w =? pkt_seq nlpacket).

(** A frame of the stream is either a data frame that answers the
    request, or a frame of another pid or sequence whose fields fit the
    header and whose type the table lists. *)
Definition stream_frame (nlpacket : NetlinkPacket) (w : wire_frame) : Prop :=
  0 <= wf_seq w < 2 ^ 32 /\ 0 <= wf_pid w < 2 ^ 32 /\
  if answers nlpacket w then data_frame (wf_frame w)
  else 0 <= rx_type (wf_frame w) < 2 ^ 16 /\
       0 <= rx_flags (wf_frame w) < 2 ^ 16 /\
       Z.of_nat (header_LEN + length (rx_payload (wf_frame w))) < 2 ^ 32 /\
       is_Some (type_to_string !! rx_type (wf_frame w)).

(** What [decode_packet] yields for the frames of the stream that answer
    the request, each call being handed the buffer from its frame onwards *)
Fixpoint decode_stream (nlpacket : NetlinkPacket) (ws : list wire_frame)
    (tail : bytes) : list (option NetlinkPacket) :=
  match ws with
  | [] => []
  | w :: ws' =>
    let rest := decode_stream nlpacket ws' tail in
    if answers nlpacket w then
      (data_class (rx_type (wf_frame w)) ≫= fun c =>
         decode_packet
           (new_packet c (rx_type (wf_frame w)) (pkt_debug nlpacket))
           (Z.of_nat (header_LEN + length (rx_payload (wf_frame w))))
           (rx_flags (wf_frame w)) (wf_seq w) (wf_pid w)
           (stream_bytes (w :: ws') ++ tail))
      :: rest
    else rest
  end.

End MixedStreams.

(** The sample host, continued: the constants of [linux/if_link.h],
    [linux/if_bridge.h], [linux/neighbour.h] and [linux/rtnetlink.h]; the
    interface index is read from the [ifinfomsg] that the stand-in decoder
    keeps as the body, and a decoded packet counts as true. *)
Module LinuxMore.

#[export] Instance host_more : NlPacketMore := {|
  RTM_SETLINK := 19;
  NLM_F_ACK := 4;
  IFLA_MACVLAN_MODE := 1; MACVLAN_MODE_PRIVATE := 1;
  BRIDGE_FLAGS_SELF := 2;
  BRIDGE_VLAN_INFO_PVID := 2; BRIDGE_VLAN_INFO_UNTAGGED := 4;
  IFLA_AF_SPEC := 26; IFLA_BRIDGE_FLAGS := 0; IFLA_BRIDGE_VLAN_INFO := 2;
  IFF_UP := 1; IFLA_PROTO_DOWN := 39;
  NUD_REACHABLE := 2; NDA_DST := 1; NDA_LLADDR := 2;
  RTN_UNICAST := 1;
  RT_TABLE_MAIN := 254; RT_PROT_XORP := 14; RT_SCOPE_UNIVERSE := 0;
  link_ifindex := fun p => Struct.le_uint (take 4 (drop 4 (pkt_body p)));
  link_truthy := fun _ => true
|}.

(** An [RTM_NEWLINK] answer to the first request of [Sample.m0] for the
    interface of index 3 *)
Definition newlink : rx_frame :=
  {| rx_type := 16; rx_flags := 0;
     rx_payload := Struct.zeros 4 ++ Struct.le_bytes 4 3 ++ Struct.zeros 8 |}.


(** An [NLMSG_ERROR] frame for the first request of [Sample.m0], carrying
    [code] and nothing else in its 20 octets of body *)
Definition error_reply (code : Z) : bytes :=
  frame (E := Linux.host) 2 0 1 1234
    (Struct.le_bytes 4 code ++ Struct.zeros 16).

End LinuxMore.

(** * Facts *)

(** ** The integer codec *)

Module StructFacts.
Import Struct.

Lemma byte_val_range b : 0 <= byte_val b < 256.
Proof.
  unfold byte_val. pose proof (Byte.to_N_bounded b). lia.
Qed.

Lemma byte_val_of z : byte_val (byte_of z) = z mod 256.
Proof.
  unfold byte_val, byte_of.
  pose proof (Z.mod_pos_bound z 256 ltac:(lia)) as Hz.
  destruct (Byte.of_N (Z.to_N (z mod 256))) as [b|] eqn:Hb; simpl.
  - apply Byte.to_of_N in Hb. rewrite Hb. lia.
  - apply Byte.of_N_None_iff in Hb. lia.
Qed.

Lemma length_le_bytes n z : length (le_bytes n z) = n.
Proof. revert z. induction n as [|n IH]; intros z; simpl; [done|]. by rewrite IH. Qed.

Lemma le_uint_bytes n z : le_uint (le_bytes n z) = z mod 256 ^ Z.of_nat n.
Proof.
  revert z. induction n as [|n IH]; intros z.
  - simpl. by rewrite Z.mod_1_r.
  - cbn [le_bytes le_uint]. rewrite byte_val_of, IH.
    rewrite Nat2Z.inj_succ, Z.pow_succ_r by lia.
    rewrite Z.rem_mul_r; [done | lia |].
    apply Z.pow_pos_nonneg; lia.
Qed.

Lemma length_host_bytes big n z : length (host_bytes big n z) = n.
Proof.
  unfold host_bytes. destruct big; [rewrite length_rev|]; apply length_le_bytes.
Qed.

(** Unpacking what was packed gives the value back, for a value that fits
    the field. *)
Lemma host_uint_bytes big n z :
  0 <= z < 256 ^ Z.of_nat n -> host_uint big (host_bytes big n z) = z.
Proof.
  intros Hz. unfold host_uint, host_bytes.
  destruct big; [rewrite rev_involutive|];
    rewrite le_uint_bytes; by apply Z.mod_small.
Qed.

Lemma le_uint_range bs : 0 <= le_uint bs < 256 ^ Z.of_nat (length bs).
Proof.
  induction bs as [|b bs IH].
  - simpl. lia.
  - cbn [le_uint length]. rewrite Nat2Z.inj_succ, Z.pow_succ_r by lia.
    pose proof (byte_val_range b). lia.
Qed.

End StructFacts.

(** ** Frames and their headers *)

Section HeaderFacts.
Context `{E : NlPacket}.

Lemma length_pack_header l t f s p :
  length (pack_header l t f s p) = header_LEN.
Proof.
  unfold pack_header.
  by rewrite !length_app, !StructFacts.length_host_bytes.
Qed.

(** The header is read whenever sixteen octets are left. *)
Lemma unpack_header_is_Some data :
  (header_LEN <= length data)%nat ->
  is_Some (unpack_header (take header_LEN data)).
Proof.
  intros Hlen. unfold unpack_header.
  rewrite decide_True; [by eexists|].
  rewrite length_take. lia.
Qed.

(** It cannot be read from less. *)
Lemma unpack_header_short data :
  (length data < header_LEN)%nat ->
  unpack_header (take header_LEN data) = None.
Proof.
  intros Hlen. unfold unpack_header.
  rewrite decide_False; [done|].
  rewrite length_take. lia.
Qed.

Lemma header_fields (a b c d e : bytes) :
  length a = 4%nat -> length b = 2%nat -> length c = 2%nat ->
  length d = 4%nat -> length e = 4%nat ->
  let h := a ++ b ++ c ++ d ++ e in
  take 4 h = a /\ take 2 (drop 4 h) = b /\ take 2 (drop 6 h) = c /\
  take 4 (drop 8 h) = d /\ take 4 (drop 12 h) = e.
Proof.
  intros Ha Hb Hc Hd He.
  repeat (destruct a as [|? a]; try discriminate Ha).
  repeat (destruct b as [|? b]; try discriminate Hb).
  repeat (destruct c as [|? c]; try discriminate Hc).
  repeat (destruct d as [|? d]; try discriminate Hd).
  repeat (destruct e as [|? e]; try discriminate He).
  done.
Qed.

Lemma unpack_pack_header l t f s p rest :
  0 <= l < 2 ^ 32 -> 0 <= t < 2 ^ 16 -> 0 <= f < 2 ^ 16 ->
  0 <= s < 2 ^ 32 -> 0 <= p < 2 ^ 32 ->
  unpack_header (take header_LEN (pack_header l t f s p ++ rest))
  = Some (l, t, f, s, p).
Proof.
  intros Hl Ht Hf Hs Hp.
  rewrite take_app_length' by (by rewrite length_pack_header).
  unfold unpack_header.
  rewrite decide_True by apply length_pack_header.
  unfold pack_header.
  destruct (header_fields
              (Struct.host_bytes big_endian 4 l)
              (Struct.host_bytes big_endian 2 t)
              (Struct.host_bytes big_endian 2 f)
              (Struct.host_bytes big_endian 4 s)
              (Struct.host_bytes big_endian 4 p))
    as (-> & -> & -> & -> & ->);
    try apply StructFacts.length_host_bytes.
  by rewrite !StructFacts.host_uint_bytes.
Qed.

Lemma length_frame t f s p payload :
  length (frame t f s p payload) = (header_LEN + length payload)%nat.
Proof. unfold frame. by rewrite length_app, length_pack_header. Qed.

End HeaderFacts.

(** ** The inner loop *)

Section DemuxFacts.
Context `{E : NlPacket}.
Implicit Types (nlpacket : NetlinkPacket) (data : bytes).
Implicit Types (msgs : list NetlinkPacket).

(** A turn that goes on leaves a suffix of the buffer and appends to the
    accumulator; which suffix and what is appended does not depend on the
    accumulator. *)
Lemma demux_frame_Next nlpacket data msgs data' msgs' :
  demux_frame nlpacket data msgs = Next data' msgs' ->
  exists n new,
    data' = drop n data /\ msgs' = msgs ++ new /\
    forall msgs2, demux_frame nlpacket data msgs2 = Next data' (msgs2 ++ new).
Proof.
  unfold demux_frame.
  destruct (unpack_header _) as [[[[[len t] fl] s] p]|]; [|done].
  destruct (type_to_string !! t); [|done].
  destruct (negb (p =? _)).
  { intros [= <- <-]. exists (Z.to_nat len), [].
    by setoid_rewrite app_nil_r. }
  destruct (negb (s =? _)).
  { intros [= <- <-]. exists (Z.to_nat len), [].
    by setoid_rewrite app_nil_r. }
  destruct (t =? NLMSG_DONE); [done|].
  destruct (t =? NLMSG_ERROR).
  { destruct (Struct.unpack_i _ _); [|done].
    destruct (decode_packet _ _ _ _ _ _); [|done].
    by repeat case_match. }
  destruct (data_class t); [|done].
  destruct (decode_packet _ _ _ _ _ _) as [msg|]; [|done].
  intros [= <- <-]. by exists (Z.to_nat len), [msg].
Qed.

(** What the loop has accumulated is never dropped. *)
Lemma demux_loop_prefix fuel nlpacket data msgs msgs' :
  demux_loop fuel nlpacket data msgs = Exhausted msgs' ->
  msgs `prefix_of` msgs'.
Proof.
  revert data msgs. induction fuel as [|fuel IH]; intros data msgs.
  - destruct data; simpl; [by intros [= <-]|done].
  - destruct data as [|b data]; simpl; [by intros [= <-]|].
    destruct (demux_frame _ _ _) as [d' m'|] eqn:Hturn; [|done].
    intros Hloop. apply IH in Hloop.
    apply demux_frame_Next in Hturn as (n & new & _ & -> & _).
    etrans; [|exact Hloop]. by apply prefix_app_r.
Qed.

Lemma demux_loop_S fuel nlpacket data msgs :
  data <> [] ->
  demux_loop (S fuel) nlpacket data msgs =
  match demux_frame nlpacket data msgs with
  | Next data' msgs' => demux_loop fuel nlpacket data' msgs'
  | Stop r => Final r
  end.
Proof. by destruct data. Qed.

(** More fuel does not change an answer. *)
Lemma demux_loop_more_fuel fuel fuel' nlpacket data msgs :
  (fuel <= fuel')%nat ->
  demux_loop fuel nlpacket data msgs <> OutOfFuel ->
  demux_loop fuel' nlpacket data msgs = demux_loop fuel nlpacket data msgs.
Proof.
  revert fuel' data msgs. induction fuel as [|fuel IH];
    intros fuel' data msgs Hle.
  - destruct data; simpl; [by destruct fuel'|done].
  - destruct fuel' as [|fuel']; [lia|].
    destruct data as [|b data]; simpl; [done|].
    destruct (demux_frame _ _ _); [|done].
    apply IH. lia.
Qed.

(** A buffer on which a turn makes no progress is never left. *)
Lemma demux_loop_stuck fuel nlpacket b data msgs msgs' :
  demux_frame nlpacket (b :: data) msgs = Next (b :: data) msgs' ->
  demux_loop fuel nlpacket (b :: data) msgs = OutOfFuel.
Proof.
  intros Hturn.
  apply demux_frame_Next in Hturn as (n & new & _ & _ & Hall).
  revert msgs. induction fuel as [|fuel IH]; intros msgs; simpl; [done|].
  by rewrite Hall.
Qed.

(** [length data] turns are enough: when they do not decide the loop,
    no number of turns does, that is, [while data] does not end. *)
Lemma demux_loop_hangs fuel nlpacket data msgs :
  (length data <= fuel)%nat ->
  demux_loop fuel nlpacket data msgs = OutOfFuel ->
  forall fuel2 msgs2, demux_loop fuel2 nlpacket data msgs2 = OutOfFuel.
Proof.
  revert data msgs. induction fuel as [|fuel IH]; intros data msgs Hlen.
  - destruct data; simpl in *; [done|lia].
  - destruct data as [|b data]; [done|]. simpl.
    destruct (demux_frame _ _ _) as [d' m'|] eqn:Hturn; [|done].
    intros Hloop fuel2 msgs2.
    pose proof Hturn as (n & new & -> & -> & Hall)%demux_frame_Next.
    destruct n as [|n].
    + rewrite drop_0 in Hturn. by eapply demux_loop_stuck.
    + destruct fuel2 as [|fuel2]; simpl; [done|].
      rewrite Hall. eapply IH; [|exact Hloop].
      rewrite length_drop. simpl in *. lia.
Qed.

Lemma demux_hangs nlpacket data msgs :
  demux nlpacket data msgs = OutOfFuel ->
  forall fuel msgs2, demux_loop fuel nlpacket data msgs2 = OutOfFuel.
Proof. by apply demux_loop_hangs. Qed.

(** A frame of another pid or another sequence whose type the table
    lists is skipped: the accumulator is as before, and the buffer moves on
    by the length that the header declares. *)
Lemma foreign_frame_skipped nlpacket data msgs len t fl s p name :
  unpack_header (take header_LEN data) = Some (len, t, fl, s, p) ->
  type_to_string !! t = Some name ->
  p <> pkt_pid nlpacket \/ s <> pkt_seq nlpacket ->
  demux_frame nlpacket data msgs = Next (drop (Z.to_nat len) data) msgs.
Proof.
  intros Hh Ht Hforeign. unfold demux_frame. rewrite Hh, Ht.
  destruct (Z.eqb_spec p (pkt_pid nlpacket)) as [->|]; simpl; [|done].
  destruct (Z.eqb_spec s (pkt_seq nlpacket)) as [->|]; simpl; [|done].
  by destruct Hforeign.
Qed.

(** So a frame of another pid or another sequence is skipped or ends the
    call, depending on whether the table lists its type; what the type is
    otherwise plays no part. *)
Lemma foreign_frame_skipped_or_raises nlpacket data msgs len t fl s p :
  unpack_header (take header_LEN data) = Some (len, t, fl, s, p) ->
  p <> pkt_pid nlpacket \/ s <> pkt_seq nlpacket ->
  demux_frame nlpacket data msgs
  = match type_to_string !! t with
    | Some _ => Next (drop (Z.to_nat len) data) msgs
    | None => Stop (Raise (KeyError t))
    end.
Proof.
  intros Hh Hforeign. destruct (type_to_string !! t) as [name|] eqn:Ht.
  - by eapply foreign_frame_skipped.
  - unfold demux_frame. by rewrite Hh, Ht.
Qed.

(** A frame that declares length 0 and is skipped is met again at the next
    turn, and at every turn after it. *)
Lemma zero_length_frame_hangs nlpacket data evs n msgs t fl s p name :
  unpack_header (take header_LEN data) = Some (0, t, fl, s, p) ->
  type_to_string !! t = Some name ->
  p <> pkt_pid nlpacket \/ s <> pkt_seq nlpacket ->
  wait_loop nlpacket (EvRecv data :: evs) n msgs = Hangs.
Proof.
  intros Hh Ht Hforeign.
  pose proof (foreign_frame_skipped _ _ msgs _ _ _ _ _ _ Hh Ht Hforeign)
    as Hturn.
  destruct data as [|b data]; [done|]. rewrite drop_0 in Hturn.
  cbn [wait_loop]. unfold demux.
  by rewrite (demux_loop_stuck _ _ _ _ _ _ Hturn).
Qed.

(** Whatever the pid and the sequence, a frame whose type the table does
    not list ends the call with [KeyError]. *)
Lemma unlisted_type_raises nlpacket data msgs len t fl s p :
  unpack_header (take header_LEN data) = Some (len, t, fl, s, p) ->
  type_to_string !! t = None ->
  demux_frame nlpacket data msgs = Stop (Raise (KeyError t)).
Proof. intros Hh Ht. unfold demux_frame. by rewrite Hh, Ht. Qed.

(** The inner loop ends the call by returning or by raising only. *)
Lemma demux_frame_Stop nlpacket data msgs r :
  demux_frame nlpacket data msgs = Stop r ->
  r = Return msgs \/ exists e, r = Raise e.
Proof.
  unfold demux_frame. intros H.
  repeat case_match; simplify_eq; eauto.
Qed.

Lemma demux_loop_Final fuel nlpacket data msgs r :
  demux_loop fuel nlpacket data msgs = Final r ->
  (exists msgs', r = Return msgs') \/ exists e, r = Raise e.
Proof.
  revert data msgs. induction fuel as [|fuel IH]; intros data msgs.
  - by destruct data.
  - destruct data as [|b data]; simpl; [done|].
    destruct (demux_frame _ _ _) eqn:Hturn; [by apply IH|].
    intros [= ->]. apply demux_frame_Stop in Hturn as [->|?]; eauto.
Qed.

(** The wait loop on a list of events that comes in two parts *)
Lemma wait_loop_app nlpacket evs1 evs2 n msgs :
  wait_loop nlpacket (evs1 ++ evs2) n msgs =
  match wait_loop nlpacket evs1 n msgs with
  | Waiting n' msgs' => wait_loop nlpacket evs2 n' msgs'
  | r => r
  end.
Proof.
  revert n msgs. induction evs1 as [|ev evs1 IH]; intros n msgs; [done|].
  destruct ev as [| |data]; simpl; [done| |].
  - destruct (_ <=? _); [done|]. apply IH.
  - destruct data; [done|].
    destruct (demux _ _ _) eqn:Hd; [apply IH| |done].
    by apply demux_loop_Final in Hd as [[? ->]|[? ->]].
Qed.

End DemuxFacts.

(** ** Frames of other clients and frames of unknown type *)

Section ReceiveFacts.
Context `{E : NlPacket}.
Implicit Types (nlpacket : NetlinkPacket) (data : bytes).
Implicit Types (msgs : list NetlinkPacket).

Lemma unpack_header_nonempty data h :
  unpack_header (take header_LEN data) = Some h -> data <> [].
Proof. by intros H ->. Qed.

(** A turn that stops decides the call. *)
Lemma wait_loop_Stop nlpacket data evs n msgs r :
  data <> [] ->
  demux_frame nlpacket data msgs = Stop r ->
  wait_loop nlpacket (EvRecv data :: evs) n msgs = r.
Proof.
  intros Hne Hturn. destruct data as [|b data]; [done|].
  cbn [wait_loop]. unfold demux. cbn [length demux_loop]. by rewrite Hturn.
Qed.

Lemma data_class_None t :
  t ∉ [RTM_NEWLINK; RTM_DELLINK; RTM_NEWADDR; RTM_DELADDR;
       RTM_NEWNEIGH; RTM_DELNEIGH; RTM_NEWROUTE; RTM_DELROUTE] ->
  data_class t = None.
Proof.
  intros Hnot. unfold data_class.
  repeat match goal with
  | |- context [t =? ?c] =>
    destruct (Z.eqb_spec t c) as [->|_]; [exfalso; apply Hnot; set_solver|]
  end.
  done.
Qed.

End ReceiveFacts.

(** C1, on the sample session.  A frame of pid 0 and sequence 0 comes ahead
    of the answer to the first request.  When its type is one that
    [type_to_string] lists (20), it is skipped and the dump returns its one
    object; when its type is not listed (80), building the debug string
    raises [KeyError] before pid and sequence are looked at, and the call
    ends with that exception. *)
Theorem C1_foreign_frame_of_unlisted_type_raises :
  (request_dump (E := Linux.host) 22 0 false
     [EvRecv (Sample.foreign_frame 20
              ++ frame_bytes (E := Linux.host) 1 1234 Sample.newaddr
              ++ Sample.done_frame)] Sample.m0).1
  = Return [Sample.newaddr_obj (Struct.zeros 8)]
  /\ (request_dump (E := Linux.host) 22 0 false
        [EvRecv (Sample.foreign_frame 80
                 ++ frame_bytes (E := Linux.host) 1 1234 Sample.newaddr
                 ++ Sample.done_frame)] Sample.m0).1
     = Raise (KeyError 80).
Proof. split; vm_compute; reflexivity. Qed.

(** C2: an error frame that answers the request decides the call by the
    magnitude of the signed 32-bit code in its first four body octets: zero
    returns what has been accumulated, [NLE_NOADDR] raises
    [NetlinkNoAddressError], every other code raises [NetlinkError]. *)
Theorem C2_error_frame_is_classified_by_its_code
    `{E : NlPacket} (nlpacket : NetlinkPacket) (data : bytes)
    (evs : list event) (n : Z) (msgs : list NetlinkPacket)
    (len fl code : Z) (name : string) (err : NetlinkPacket) :
  NLMSG_ERROR <> NLMSG_DONE ->
  type_to_string !! NLMSG_ERROR = Some name ->
  unpack_header (take header_LEN data)
  = Some (len, NLMSG_ERROR, fl, pkt_seq nlpacket, pkt_pid nlpacket) ->
  Struct.unpack_i big_endian (take 4 (drop header_LEN data)) = Some code ->
  decode_packet (new_packet Error NLMSG_ERROR (pkt_debug nlpacket))
    len fl (pkt_seq nlpacket) (pkt_pid nlpacket) data = Some err ->
  let r := wait_loop nlpacket (EvRecv data :: evs) n msgs in
  (Z.abs code = 0 -> r = Return msgs)
  /\ (Z.abs code <> 0 -> Z.abs code = NLE_NOADDR ->
      r = Raise (NetlinkNoAddressError (Z.abs code)))
  /\ (Z.abs code <> 0 -> Z.abs code <> NLE_NOADDR ->
      r = Raise (NetlinkError (Z.abs code))).
Proof.
  intros Hne Hname Hh Hcode Hdec r.
  assert (demux_frame nlpacket data msgs =
          Stop (if negb (Z.abs code =? 0)
                then if Z.abs code =? NLE_NOADDR
                     then Raise (NetlinkNoAddressError (Z.abs code))
                     else Raise (NetlinkError (Z.abs code))
                else Return msgs)) as Hturn.
  { unfold demux_frame. rewrite Hh, Hname, !Z.eqb_refl. simpl.
    destruct (Z.eqb_spec NLMSG_ERROR NLMSG_DONE) as [?|_]; [done|].
    rewrite Hcode, Hdec. by repeat case_match. }
  apply (wait_loop_Stop _ _ evs n) in Hturn;
    [|by eapply unpack_header_nonempty].
  subst r. rewrite Hturn. repeat split.
  - intros ->. done.
  - intros H0 Hno. destruct (Z.eqb_spec (Z.abs code) 0); [done|]. simpl.
    by rewrite Hno, Z.eqb_refl.
  - intros H0 Hno. destruct (Z.eqb_spec (Z.abs code) 0); [done|]. simpl.
    by destruct (Z.eqb_spec (Z.abs code) NLE_NOADDR).
Qed.

Lemma C2_witness :
  wait_loop (E := Linux.host) Sample.getaddr
    [EvRecv (Sample.error_frame (-19))] 0 []
  = Raise (NetlinkNoAddressError 19)
  /\ wait_loop (E := Linux.host) Sample.getaddr
       [EvRecv (Sample.error_frame (-17))] 0 []
     = Raise (NetlinkError 17)
  /\ wait_loop (E := Linux.host) Sample.getaddr
       [EvRecv (Sample.error_frame 0)] 0 []
     = Return [].
Proof.
  split; [|split].
  - refine (proj1 (proj2 (C2_error_frame_is_classified_by_its_code
      (E := Linux.host) Sample.getaddr (Sample.error_frame (-19)) [] 0 []
      44 0 (-19) "NLMSG_ERROR" _ _ _ _ _ _)) _ _);
      try (vm_compute; reflexivity); vm_compute; lia.
  - refine (proj2 (proj2 (C2_error_frame_is_classified_by_its_code
      (E := Linux.host) Sample.getaddr (Sample.error_frame (-17)) [] 0 []
      44 0 (-17) "NLMSG_ERROR" _ _ _ _ _ _)) _ _);
      try (vm_compute; reflexivity); vm_compute; lia.
  - refine (proj1 (C2_error_frame_is_classified_by_its_code
      (E := Linux.host) Sample.getaddr (Sample.error_frame 0) [] 0 []
      44 0 0 "NLMSG_ERROR" _ _ _ _ _ _) _);
      try (vm_compute; reflexivity); vm_compute; lia.
Defined.

(** C9, as stated, fails on the sample session: a frame of type
    [RTM_GETLINK] (18, outside the enumeration that the loop decodes) with
    pid 0 and sequence 0 is dropped without a trace, and the dump returns its
    one object as if the frame had not been there. *)
Lemma C9_unknown_type_of_foreign_frame_is_skipped :
  data_class (E := Linux.host) 18 = None
  /\ (request_dump (E := Linux.host) 22 0 false
        [EvRecv (Sample.foreign_frame 18
                 ++ frame_bytes (E := Linux.host) 1 1234 Sample.newaddr
                 ++ Sample.done_frame)] Sample.m0).1
     = Return [Sample.newaddr_obj (Struct.zeros 8)].
Proof. split; vm_compute; reflexivity. Qed.

(** C9, amended: a frame that answers the request (its pid and its
    sequence are those of the request) and whose type is neither Done, nor
    Error, nor one of the eight new/del types ends the call with an
    exception that carries the type: [KeyError] when [type_to_string] does
    not list the type, the "RXed unknown netlink message type" exception
    when it does.  The frame is not skipped and nothing is returned. *)
Theorem C9_unknown_type_of_matching_frame_raises
    `{E : NlPacket} (nlpacket : NetlinkPacket) (data : bytes)
    (evs : list event) (n : Z) (msgs : list NetlinkPacket) (len t fl : Z) :
  unpack_header (take header_LEN data)
  = Some (len, t, fl, pkt_seq nlpacket, pkt_pid nlpacket) ->
  t <> NLMSG_DONE -> t <> NLMSG_ERROR ->
  t ∉ [RTM_NEWLINK; RTM_DELLINK; RTM_NEWADDR; RTM_DELADDR;
       RTM_NEWNEIGH; RTM_DELNEIGH; RTM_NEWROUTE; RTM_DELROUTE] ->
  wait_loop nlpacket (EvRecv data :: evs) n msgs
  = Raise (match type_to_string !! t with
           | Some _ => UnknownMessageType t
           | None => KeyError t
           end).
Proof.
  intros Hh Hdone Herr Hdata.
  apply wait_loop_Stop; [by eapply unpack_header_nonempty|].
  unfold demux_frame. rewrite Hh.
  destruct (type_to_string !! t); [|done].
  rewrite !Z.eqb_refl. simpl.
  destruct (Z.eqb_spec t NLMSG_DONE); [done|].
  destruct (Z.eqb_spec t NLMSG_ERROR); [done|].
  by rewrite data_class_None.
Qed.

Lemma C9_witness :
  wait_loop (E := Linux.host) Sample.getaddr
    [EvRecv (frame (E := Linux.host) 18 0 1 1234 [])] 0 []
  = Raise (UnknownMessageType 18)
  /\ wait_loop (E := Linux.host) Sample.getaddr
       [EvRecv (frame (E := Linux.host) 80 0 1 1234 [])] 0 []
     = Raise (KeyError 80).
Proof.
  split.
  - apply (C9_unknown_type_of_matching_frame_raises (E := Linux.host)
             Sample.getaddr (frame (E := Linux.host) 18 0 1 1234 [])
             [] 0 [] 16 18 0);
      [vm_compute; reflexivity | vm_compute; lia | vm_compute; lia |].
    rewrite !elem_of_cons, elem_of_nil. simpl. lia.
  - apply (C9_unknown_type_of_matching_frame_raises (E := Linux.host)
             Sample.getaddr (frame (E := Linux.host) 80 0 1 1234 [])
             [] 0 [] 16 80 0);
      [vm_compute; reflexivity | vm_compute; lia | vm_compute; lia |].
    rewrite !elem_of_cons, elem_of_nil. simpl. lia.
Defined.

(** ** The wait loop *)

Section WaitFacts.
Context `{E : NlPacket}.
Implicit Types (nlpacket : NetlinkPacket) (data : bytes).
Implicit Types (msgs : list NetlinkPacket) (evs : list event).

(** While the loop is waiting, its counter is the counter it started
    with plus all the timeouts seen since, whatever came between them. *)
Lemma wait_loop_counts_all nlpacket evs n msgs n' msgs' :
  wait_loop nlpacket evs n msgs = Waiting n' msgs' ->
  n' = n + timeouts evs.
Proof.
  revert n msgs. induction evs as [|ev evs IH]; intros n msgs.
  - simpl. intros [= <- <-]. lia.
  - destruct ev as [| |data]; simpl; [done| |].
    + destruct (_ <=? _); [done|]. intros ->%IH. lia.
    + destruct data; [done|]. destruct (demux _ _ _) eqn:Hd.
      * apply IH.
      * intros ->. by apply demux_loop_Final in Hd as [[? ?]|[? ?]].
      * done.
Qed.

(** Silence that fills the counter ends the wait with the accumulator. *)
Lemma wait_loop_silence nlpacket (k : nat) evs n msgs :
  (0 < k)%nat -> MAX_NULL_READS <= n + Z.of_nat k ->
  wait_loop nlpacket (replicate k EvTimeout ++ evs) n msgs = Return msgs.
Proof.
  revert n. induction k as [|k IH]; intros n Hk Hn; [lia|]. simpl.
  destruct (Z.leb_spec MAX_NULL_READS (n + 1)); [done|].
  apply IH; lia.
Qed.

(** An inner loop that ends the call gives the result of the call. *)
Lemma wait_loop_Stop_demux nlpacket data evs n msgs r :
  data <> [] ->
  demux nlpacket data msgs = Final r ->
  wait_loop nlpacket (EvRecv data :: evs) n msgs = r.
Proof.
  intros Hne Hd. destruct data; [done|]. cbn [wait_loop]. by rewrite Hd.
Qed.

(** When the buffer is used up the loop is back in [select] with the
    counter as it was. *)
Lemma wait_loop_Exhausted nlpacket data evs n msgs msgs' :
  data <> [] ->
  demux nlpacket data msgs = Exhausted msgs' ->
  wait_loop nlpacket (EvRecv data :: evs) n msgs
  = wait_loop nlpacket evs n msgs'.
Proof.
  intros Hne Hd. destruct data; [done|]. cbn [wait_loop]. by rewrite Hd.
Qed.

End WaitFacts.

(** C4, as stated, fails on the sample session: after the one complete
    frame of the buffer four octets are left, fewer than a header; the loop
    reads a header all the same and the call ends with [struct.error]
    instead of going back to waiting with the object it had decoded. *)
Lemma C4_short_remainder_raises :
  (request_dump (E := Linux.host) 22 0 false
     [EvRecv (frame_bytes (E := Linux.host) 1 1234 Sample.newaddr
              ++ Struct.zeros 4);
      EvRecv Sample.done_frame] Sample.m0).1
  = Raise struct_error.
Proof. vm_compute. reflexivity. Qed.

(** C4, amended: the loop reads a header whenever the buffer is not
    empty.  With sixteen octets or more the read succeeds; with fewer it
    raises [struct.error], at any turn of the loop.  When the buffer is used
    up without a terminal frame, the loop goes back to waiting with the
    counter unchanged and with an accumulator that extends the one it had. *)
Theorem C4_header_is_read_while_the_buffer_is_not_empty
    `{E : NlPacket} (nlpacket : NetlinkPacket) (data : bytes)
    (evs : list event) (n : Z) (msgs : list NetlinkPacket) :
  data <> [] ->
  ((header_LEN <= length data)%nat ->
     is_Some (unpack_header (take header_LEN data)))
  /\ ((length data < header_LEN)%nat ->
      (forall fuel,
         demux_loop (S fuel) nlpacket data msgs = Final (Raise struct_error))
      /\ wait_loop nlpacket (EvRecv data :: evs) n msgs = Raise struct_error)
  /\ (forall msgs',
        demux nlpacket data msgs = Exhausted msgs' ->
        msgs `prefix_of` msgs'
        /\ wait_loop nlpacket (EvRecv data :: evs) n msgs
           = wait_loop nlpacket evs n msgs').
Proof.
  intros Hne. split; [apply unpack_header_is_Some|]. split.
  - intros Hshort.
    assert (demux_frame nlpacket data msgs = Stop (Raise struct_error))
      as Hturn.
    { unfold demux_frame. by rewrite unpack_header_short. }
    split; [|by apply wait_loop_Stop].
    intros fuel. destruct data; [done|]. simpl. by rewrite Hturn.
  - intros msgs' Hd. split; [by eapply demux_loop_prefix|].
    by apply wait_loop_Exhausted.
Qed.

Lemma C4_witness :
  wait_loop (E := Linux.host) Sample.getaddr
    [EvRecv (Struct.zeros 4)] 0 [] = Raise struct_error
  /\ wait_loop (E := Linux.host) Sample.getaddr
       [EvRecv (frame_bytes (E := Linux.host) 1 1234 Sample.newaddr);
        EvTimeout] 7 []
     = wait_loop (E := Linux.host) Sample.getaddr
         [EvTimeout] 7 [Sample.newaddr_obj (Struct.zeros 8)].
Proof.
  split.
  - apply (C4_header_is_read_while_the_buffer_is_not_empty
             (E := Linux.host) Sample.getaddr (Struct.zeros 4) [] 0 []);
      [vm_compute; discriminate | vm_compute; lia].
  - apply (C4_header_is_read_while_the_buffer_is_not_empty
             (E := Linux.host) Sample.getaddr
             (frame_bytes (E := Linux.host) 1 1234 Sample.newaddr)
             [EvTimeout] 7 []);
      [vm_compute; discriminate | vm_compute; reflexivity].
Defined.

(** C5, as stated, fails on the sample session.  The socket is silent for
    29 seconds, then the first frame of the answer arrives, then the socket
    is silent for one second, then the rest of the answer arrives.  The loop
    gives up at that one second of silence, because the counter went on from
    29, and returns one object; a loop that counts consecutive timeouts goes
    on and returns both. *)
Lemma C5_timeouts_are_not_counted_consecutively :
  wait_loop (E := Linux.host) Sample.getaddr
    (replicate 29 EvTimeout
     ++ [EvRecv (frame_bytes (E := Linux.host) 1 1234 Sample.newaddr);
         EvTimeout;
         EvRecv (frame_bytes (E := Linux.host) 1 1234 Sample.newaddr'
                 ++ Sample.done_frame)]) 0 []
  = Return [Sample.newaddr_obj (Struct.zeros 8)]
  /\ wait_loop_consecutive (E := Linux.host) Sample.getaddr
       (replicate 29 EvTimeout
        ++ [EvRecv (frame_bytes (E := Linux.host) 1 1234 Sample.newaddr);
            EvTimeout;
            EvRecv (frame_bytes (E := Linux.host) 1 1234 Sample.newaddr'
                    ++ Sample.done_frame)]) 0 []
     = Return [Sample.newaddr_obj (Struct.zeros 8);
               Sample.newaddr_obj (Byte.x02 :: Struct.zeros 7)].
Proof. split; vm_compute; reflexivity. Qed.

(** C5, amended: the counter counts the timeouts of the whole call, not
    the consecutive ones (data that arrives does not reset it).  While the
    loop is waiting the counter is the number of timeouts so far; the timeout
    that brings it to 30 ends the call with what has accumulated, an earlier
    one leaves the loop waiting; and with no data at all, 30 timeouts return
    the empty list.  No exception is raised on the way. *)
Theorem C5_thirtieth_timeout_ends_the_wait
    `{E : NlPacket} (nlpacket : NetlinkPacket) (evs1 evs2 : list event)
    (n' : Z) (msgs' : list NetlinkPacket) :
  wait_loop nlpacket evs1 0 [] = Waiting n' msgs' ->
  n' = timeouts evs1
  /\ (MAX_NULL_READS <= timeouts evs1 + 1 ->
      wait_loop nlpacket (evs1 ++ EvTimeout :: evs2) 0 [] = Return msgs')
  /\ (timeouts evs1 + 1 < MAX_NULL_READS ->
      wait_loop nlpacket (evs1 ++ EvTimeout :: evs2) 0 []
      = wait_loop nlpacket evs2 (timeouts evs1 + 1) msgs')
  /\ wait_loop nlpacket (replicate 30 EvTimeout ++ evs2) 0 [] = Return [].
Proof.
  intros Hwait.
  pose proof (wait_loop_counts_all _ _ _ _ _ _ Hwait) as Hn.
  rewrite Z.add_0_l in Hn. subst n'.
  split; [done|]. rewrite wait_loop_app, Hwait. cbn [wait_loop].
  split; [|split].
  - intros Hmax. by destruct (Z.leb_spec MAX_NULL_READS (timeouts evs1 + 1)); [|lia].
  - intros Hless. by destruct (Z.leb_spec MAX_NULL_READS (timeouts evs1 + 1)); [lia|].
  - apply wait_loop_silence; [lia|]. unfold MAX_NULL_READS. lia.
Qed.

Lemma C5_witness :
  wait_loop (E := Linux.host) Sample.getaddr
    ((replicate 29 EvTimeout
      ++ [EvRecv (frame_bytes (E := Linux.host) 1 1234 Sample.newaddr)])
     ++ EvTimeout :: [EvRecv Sample.done_frame]) 0 []
  = Return [Sample.newaddr_obj (Struct.zeros 8)].
Proof.
  refine (proj1 (proj2
    (C5_thirtieth_timeout_ends_the_wait (E := Linux.host) Sample.getaddr
       (replicate 29 EvTimeout
        ++ [EvRecv (frame_bytes (E := Linux.host) 1 1234 Sample.newaddr)])
       [EvRecv Sample.done_frame] 29
       [Sample.newaddr_obj (Struct.zeros 8)] _)) _);
    [vm_compute; reflexivity | vm_compute; discriminate].
Defined.

(** ** Dumps *)

Section DumpFacts.
Context `{E : NlPacket}.
Implicit Types (nlpacket : NetlinkPacket) (data tail : bytes).
Implicit Types (msgs : list NetlinkPacket) (fs : list rx_frame).

Lemma chunk_bytes_cons seq pid f fs tail :
  chunk_bytes seq pid (f :: fs) ++ tail
  = frame_bytes seq pid f ++ chunk_bytes seq pid fs ++ tail.
Proof. unfold chunk_bytes. simpl. by rewrite <- app_assoc. Qed.

Lemma drop_frame t fl s p payload rest :
  drop (Z.to_nat (Z.of_nat (header_LEN + length payload)))
    (frame t fl s p payload ++ rest) = rest.
Proof.
  rewrite Nat2Z.id. apply drop_app_length'. by rewrite length_frame.
Qed.

Lemma unpack_frame t fl s p payload rest :
  0 <= t < 2 ^ 16 -> 0 <= fl < 2 ^ 16 ->
  0 <= s < 2 ^ 32 -> 0 <= p < 2 ^ 32 ->
  Z.of_nat (header_LEN + length payload) < 2 ^ 32 ->
  unpack_header (take header_LEN (frame t fl s p payload ++ rest))
  = Some (Z.of_nat (header_LEN + length payload), t, fl, s, p).
Proof.
  intros Ht Hf Hs Hp Hl. unfold frame. rewrite <- app_assoc.
  apply unpack_pack_header; (done || lia).
Qed.

Lemma frame_nonempty t fl s p payload rest :
  frame t fl s p payload ++ rest <> [].
Proof.
  intros H. apply (f_equal length) in H.
  rewrite length_app, length_frame in H. unfold header_LEN in H.
  simpl in H. lia.
Qed.

(** One turn on a data frame that answers the request: the object is
    appended and the buffer moves on to the next frame. *)
Lemma data_frame_turn nlpacket f rest msgs c obj :
  0 <= pkt_seq nlpacket < 2 ^ 32 -> 0 <= pkt_pid nlpacket < 2 ^ 32 ->
  data_frame f ->
  data_class (rx_type f) = Some c ->
  decode_packet (new_packet c (rx_type f) (pkt_debug nlpacket))
    (Z.of_nat (header_LEN + length (rx_payload f))) (rx_flags f)
    (pkt_seq nlpacket) (pkt_pid nlpacket)
    (frame_bytes (pkt_seq nlpacket) (pkt_pid nlpacket) f ++ rest)
  = Some obj ->
  demux_frame nlpacket
    (frame_bytes (pkt_seq nlpacket) (pkt_pid nlpacket) f ++ rest) msgs
  = Next rest (msgs ++ [obj]).
Proof.
  intros Hs Hp (Ht & Hf & Hl & Hdone & Herr & _ & [name Hname]) Hc Hdec.
  unfold demux_frame, frame_bytes in *.
  rewrite unpack_frame by (done || lia).
  rewrite Hname, !Z.eqb_refl. cbn [negb].
  destruct (Z.eqb_spec (rx_type f) NLMSG_DONE); [done|].
  destruct (Z.eqb_spec (rx_type f) NLMSG_ERROR); [done|].
  rewrite Hc, Hdec. f_equal. apply drop_frame.
Qed.

(** One turn on the Done frame of the request *)
Lemma done_frame_turn nlpacket fl payload rest msgs :
  0 <= pkt_seq nlpacket < 2 ^ 32 -> 0 <= pkt_pid nlpacket < 2 ^ 32 ->
  0 <= NLMSG_DONE < 2 ^ 16 -> 0 <= fl < 2 ^ 16 ->
  Z.of_nat (header_LEN + length payload) < 2 ^ 32 ->
  is_Some (type_to_string !! NLMSG_DONE) ->
  demux_frame nlpacket
    (frame NLMSG_DONE fl (pkt_seq nlpacket) (pkt_pid nlpacket) payload
     ++ rest) msgs
  = Stop (Return msgs).
Proof.
  intros Hs Hp Ht Hf Hl [name Hname]. unfold demux_frame.
  rewrite unpack_frame by (done || lia).
  by rewrite Hname, !Z.eqb_refl.
Qed.

(** The frames of a chunk take one turn each. *)
Lemma demux_loop_chunk nlpacket fs tail objs fuel msgs :
  0 <= pkt_seq nlpacket < 2 ^ 32 -> 0 <= pkt_pid nlpacket < 2 ^ 32 ->
  Forall data_frame fs ->
  decode_chunk (pkt_debug nlpacket) (pkt_seq nlpacket) (pkt_pid nlpacket)
    fs tail = Some <$> objs ->
  demux_loop (length fs + fuel) nlpacket
    (chunk_bytes (pkt_seq nlpacket) (pkt_pid nlpacket) fs ++ tail) msgs
  = demux_loop fuel nlpacket tail (msgs ++ objs).
Proof.
  intros Hs Hp Hfs. revert objs msgs.
  induction Hfs as [|f fs Hf Hfs IH]; intros objs msgs Hdec.
  - destruct objs; [|done]. by rewrite app_nil_r.
  - destruct objs as [|obj objs]; [done|].
    cbn [decode_chunk fmap list_fmap] in Hdec.
    injection Hdec as Hobj Hrest.
    destruct (data_class (rx_type f)) as [c|] eqn:Hc; [|done].
    cbn [mbind option_bind] in Hobj. rewrite chunk_bytes_cons in Hobj |- *.
    cbn [length Nat.add].
    rewrite demux_loop_S by apply frame_nonempty.
    rewrite (data_frame_turn _ _ _ _ c obj) by done.
    rewrite (IH objs) by done. by rewrite <- app_assoc.
Qed.

Lemma length_chunk_bytes seq pid fs :
  (length fs <= length (chunk_bytes seq pid fs))%nat.
Proof.
  induction fs as [|f fs IH]; [done|].
  change (chunk_bytes seq pid (f :: fs))
    with (frame_bytes seq pid f ++ chunk_bytes seq pid fs).
  rewrite length_app. unfold frame_bytes. rewrite length_frame.
  unfold header_LEN. cbn [length]. lia.
Qed.


(** A chunk that ends the dump: data frames, the Done frame, and whatever
    follows it. *)
Lemma demux_last_chunk nlpacket fs fl payload trailing objs msgs :
  0 <= pkt_seq nlpacket < 2 ^ 32 -> 0 <= pkt_pid nlpacket < 2 ^ 32 ->
  0 <= NLMSG_DONE < 2 ^ 16 -> 0 <= fl < 2 ^ 16 ->
  Z.of_nat (header_LEN + length payload) < 2 ^ 32 ->
  is_Some (type_to_string !! NLMSG_DONE) ->
  Forall data_frame fs ->
  let tail :=
    frame NLMSG_DONE fl (pkt_seq nlpacket) (pkt_pid nlpacket) payload
    ++ trailing in
  decode_chunk (pkt_debug nlpacket) (pkt_seq nlpacket) (pkt_pid nlpacket)
    fs tail = Some <$> objs ->
  demux nlpacket
    (chunk_bytes (pkt_seq nlpacket) (pkt_pid nlpacket) fs ++ tail) msgs
  = Final (Return (msgs ++ objs)).
Proof.
  intros Hs Hp Ht Hf Hl Hname Hfs tail Hdec. unfold demux.
  pose proof (length_chunk_bytes (pkt_seq nlpacket) (pkt_pid nlpacket) fs).
  assert (demux_loop 1 nlpacket tail (msgs ++ objs)
          = Final (Return (msgs ++ objs))) as Hdone.
  { subst tail. rewrite demux_loop_S by apply frame_nonempty.
    by rewrite done_frame_turn. }
  rewrite (demux_loop_more_fuel (length fs + 1)).
  - by rewrite (demux_loop_chunk _ _ _ objs).
  - rewrite length_app. subst tail. rewrite length_app, length_frame.
    unfold header_LEN. lia.
  - by rewrite (demux_loop_chunk _ _ _ objs), Hdone.
Qed.

End DumpFacts.

Section DumpStream.
Context `{E : NlPacket}.
Implicit Types (nlpacket : NetlinkPacket) (msgs : list NetlinkPacket).



End DumpStream.



(** ** The sequence allocator and the requests it stamps *)

Section SequenceFacts.
Context `{E : NlPacket}.

Lemma build_next_seq (r : NetlinkPacket) (m : NetlinkManager) :
  pkt_seq (build_next r m).1 = (Sequence_next (sequence m)).1
  /\ sequence (build_next r m).2 = (Sequence_next (sequence m)).2
  /\ pkt_pid (build_next r m).1 = pid m
  /\ pid (build_next r m).2 = pid m
  /\ tx_socket (build_next r m).2 = tx_socket m.
Proof. done. Qed.

(** The header of a built request carries the sequence number it was
    built with. *)
Lemma stamped_seq_build (r : NetlinkPacket) (seq pid : Z) :
  0 <= seq < 2 ^ 32 ->
  stamped_seq <$> pkt_message (build_message seq pid r) = Some (Some seq).
Proof.
  intros Hseq. cbn [build_message pkt_message fmap option_fmap option_map].
  f_equal. unfold stamped_seq.
  rewrite take_app_length' by (by rewrite length_pack_header).
  unfold unpack_header. rewrite decide_True by apply length_pack_header.
  cbn [fmap option_fmap option_map fst snd]. f_equal.
  unfold pack_header.
  destruct (header_fields
              (Struct.host_bytes big_endian 4
                 (Z.of_nat (header_LEN + length (pkt_body r)
                            + length (encode_attributes r))))
              (Struct.host_bytes big_endian 2 (pkt_msgtype r))
              (Struct.host_bytes big_endian 2 (pkt_flags r))
              (Struct.host_bytes big_endian 4 seq)
              (Struct.host_bytes big_endian 4 pid))
    as (_ & _ & _ & -> & _);
    try apply StructFacts.length_host_bytes.
  by apply StructFacts.host_uint_bytes.
Qed.

(** The requests of a session carry consecutive sequence numbers. *)
Lemma session_builds_seq (reqs : list NetlinkPacket) (m : NetlinkManager)
    built m' :
  session_builds reqs m = (built, m') ->
  _next (sequence m') = _next (sequence m) + Z.of_nat (length reqs)
  /\ forall i p, built !! i = Some p ->
       pkt_seq p = _next (sequence m) + 1 + Z.of_nat i.
Proof.
  revert m built m'. induction reqs as [|r reqs IH]; intros m built m'.
  - simpl. intros [= <- <-]. split; [lia|done].
  - cbn [session_builds].
    destruct (build_next r m) as [p m1] eqn:Hb.
    destruct (session_builds reqs m1) as [ps m2] eqn:Hs.
    intros [= <- <-]. apply IH in Hs as [Hnext Hseq].
    pose proof (build_next_seq r m) as (Hp & Hm1 & _). rewrite Hb in Hp, Hm1.
    simpl in Hp, Hm1. rewrite Hm1 in Hnext, Hseq. simpl in Hnext, Hseq.
    split; [rewrite Hnext; simpl length; lia|].
    intros [|i] q; simpl.
    + intros [= <-]. rewrite Hp. lia.
    + intros Hq%Hseq. lia.
Qed.

Lemma transmitted_sendall (message : bytes) (m : NetlinkManager) :
  transmitted (sendall message m) = transmitted m ++ [message]
  /\ sequence (sendall message m) = sequence m
  /\ pid (sendall message m) = pid m.
Proof.
  unfold sendall, transmitted.
  destruct (tx_socket m) eqn:Hsock; simpl; by rewrite ?Hsock.
Qed.

Lemma build_message_nonempty (r : NetlinkPacket) (seq pid : Z) :
  exists b msg, pkt_message (build_message seq pid r) = Some (b :: msg).
Proof.
  cbn [build_message pkt_message].
  destruct (pack_header _ _ _ _ _) as [|b h] eqn:Hh.
  - apply (f_equal length) in Hh. by rewrite length_pack_header in Hh.
  - by exists b, (h ++ pkt_body r ++ encode_attributes r).
Qed.

(** [request_dump] sends one request, stamped with the value that
    [next()] has just returned. *)
Lemma request_dump_stamps rtm_type family debug evs (m : NetlinkManager)
    msg :
  request_dump_msg rtm_type family debug = Prepared msg ->
  0 <= _next (sequence m) + 1 < 2 ^ 32 ->
  let m' := (request_dump rtm_type family debug evs m).2 in
  sequence m' = (Sequence_next (sequence m)).2
  /\ exists message,
       transmitted m' = transmitted m ++ [message]
       /\ stamped_seq message = Some (Sequence_next (sequence m)).1.
Proof.
  intros Hmsg Hfit. unfold request_dump. rewrite Hmsg.
  unfold build_next, next_sequence. cbn [Sequence_next fst snd pid].
  unfold tx_nlpacket_get_response.
  pose proof (stamped_seq_build msg (_next (sequence m) + 1) (pid m) Hfit)
    as Hstamp.
  destruct (build_message_nonempty msg (_next (sequence m) + 1) (pid m))
    as (b & message & Hb).
  rewrite Hb in Hstamp |- *. cbn [snd].
  split; [by rewrite (proj1 (proj2 (transmitted_sendall _ _)))|].
  exists (b :: message).
  split; [by rewrite (proj1 (transmitted_sendall _ _)) | by injection Hstamp].
Qed.

End SequenceFacts.

(** C7: [next()] returns one more than it returned before, 1 on the first
    call; a request is built with the value that [next()] returns at that
    moment, which is the sequence number in the header of its encoded buffer
    (as long as it fits the 32-bit field), as [request_dump] shows; and
    the requests of a session
    carry 1, 2, 3, ... in the order in which they are built, so that each is
    strictly greater than all the earlier ones. *)
Theorem C7_sequence_numbers_strictly_increase
    `{E : NlPacket} (ospid : Z) (reqs : list NetlinkPacket) :
  (Sequence_next Sequence_init).1 = 1
  /\ (forall s, (Sequence_next s).1 = _next s + 1
                /\ _next (Sequence_next s).2 = (Sequence_next s).1)
  /\ (forall r m,
        pkt_seq (build_next r m).1 = (Sequence_next (sequence m)).1
        /\ sequence (build_next r m).2 = (Sequence_next (sequence m)).2)
  /\ (forall rtm_type family debug evs m msg,
        request_dump_msg rtm_type family debug = Prepared msg ->
        0 <= _next (sequence m) + 1 < 2 ^ 32 ->
        let m' := (request_dump rtm_type family debug evs m).2 in
        sequence m' = (Sequence_next (sequence m)).2
        /\ exists message,
             transmitted m' = transmitted m ++ [message]
             /\ stamped_seq message = Some (Sequence_next (sequence m)).1)
  /\ let built := (session_builds reqs (NetlinkManager_init ospid)).1 in
     (forall i p, built !! i = Some p ->
        pkt_seq p = Z.of_nat i + 1
        /\ (pkt_seq p < 2 ^ 32 ->
            stamped_seq <$> pkt_message p = Some (Some (pkt_seq p))))
     /\ (forall i j p q, built !! i = Some p -> built !! j = Some q ->
           (i < j)%nat -> 0 < pkt_seq p < pkt_seq q).
Proof.
  split; [done|]. split; [done|]. split; [done|].
  split; [apply request_dump_stamps|].
  destruct (session_builds reqs (NetlinkManager_init ospid))
    as [built m'] eqn:Hs. cbn [fst].
  pose proof (session_builds_seq _ _ _ _ Hs) as [_ Hseq]. simpl in Hseq.
  assert (forall k r m ps m1, session_builds k m = (ps, m1) -> r ∈ ps ->
            exists r0 seq pid, r = build_message seq pid r0) as Hshape.
  { clear. induction k as [|r0 k IH]; intros r m ps m1; simpl.
    - intros [= <- <-] Hin. by apply elem_of_nil in Hin.
    - destruct (session_builds k _) as [ps' m2] eqn:Hk.
      intros [= <- <-] [->|Hin]%elem_of_cons; [by eauto|].
      by eapply IH. }
  split.
  - intros i p Hp. pose proof (Hseq i p Hp) as Hi. split; [lia|].
    intros Hfit.
    destruct (Hshape _ p _ _ _ Hs) as (r0 & seq & pid & ->).
    { by eapply list_elem_of_lookup_2. }
    apply stamped_seq_build. simpl in *. lia.
  - intros i j p q Hp%Hseq Hq%Hseq Hij. lia.
Qed.

Lemma C7_witness :
  (forall p,
     (session_builds (E := Linux.host)
        [new_packet Link 18 false; new_packet Route 26 false]
        (NetlinkManager_init 1234)).1 !! 1%nat = Some p ->
     pkt_seq p = 2)
  /\ exists message,
       transmitted
         (request_dump (E := Linux.host) 22 0 false [] Sample.m0).2
       = [message]
       /\ stamped_seq (E := Linux.host) message = Some 1.
Proof.
  pose proof (C7_sequence_numbers_strictly_increase (E := Linux.host) 1234
                [new_packet Link 18 false; new_packet Route 26 false])
    as (_ & _ & _ & Hdump & Hbuilt & _).
  split.
  - intros p Hp. by apply (Hbuilt 1%nat p Hp).
  - apply (Hdump 22 0 false [] Sample.m0
             (set_attributes ∅
                (set_flags 769
                   (set_body (Struct.zeros 8)
                      (new_packet Address 22 false)))));
      [vm_compute; reflexivity | simpl; lia].
Defined.

(** ** Interface names *)

Module StrFacts.
Import Str.

Lemma contains_app (c : ascii) (prefix suffix : string) :
  contains c (prefix +:+ String c suffix) = true.
Proof.
  induction prefix as [|a prefix IH]; simpl.
  - by rewrite Ascii.eqb_refl.
  - by destruct (Ascii.eqb a c).
Qed.

(** Without a separator there is one component, the text that is left. *)
Lemma split_rev_plain (sep : ascii) (s : string) cur done :
  contains sep s = false ->
  split_rev sep s cur done
  = string_of_list_ascii (rev cur ++ list_ascii_of_string s) :: done.
Proof.
  revert cur. induction s as [|a s IH]; intros cur; simpl.
  - by rewrite app_nil_r.
  - destruct (Ascii.eqb a sep); [done|]. intros Hs. rewrite IH by done.
    simpl. by rewrite <- app_assoc.
Qed.

(** The last component is the text after the last separator. *)
Lemma split_rev_last (sep : ascii) (prefix suffix : string) cur done :
  contains sep suffix = false ->
  exists rest,
    split_rev sep (prefix +:+ String sep suffix) cur done = suffix :: rest.
Proof.
  intros Hs. revert cur done.
  induction prefix as [|a prefix IH]; intros cur done; simpl.
  - rewrite Ascii.eqb_refl, split_rev_plain by done. simpl.
    rewrite string_of_list_ascii_of_string. eauto.
  - destruct (Ascii.eqb a sep); apply IH.
Qed.

Lemma last_item_split (sep : ascii) (prefix suffix : string) :
  contains sep suffix = false ->
  last_item (split sep (prefix +:+ String sep suffix)) = suffix.
Proof.
  intros Hs. unfold last_item, split.
  destruct (split_rev_last sep prefix suffix [] [] Hs) as [rest ->].
  simpl. by rewrite last_snoc.
Qed.

(** *** [int] and the literals *)

Lemma digit_val_range c d : digit_val c = Some d -> 0 <= d <= 9.
Proof.
  unfold digit_val. case_match; [|done]. intros [= <-]. lia.
Qed.

Lemma digit_not_space c : is_Some (digit_val c) -> is_space c = false.
Proof.
  unfold digit_val, is_space. intros [d Hd]. case_match; [|done]. lia.
Qed.

Lemma digit_not_sign c :
  is_Some (digit_val c) -> Ascii.eqb c "-" = false /\ Ascii.eqb c "+" = false.
Proof.
  intros [d Hd].
  split; apply Ascii.eqb_neq; intros ->; vm_compute in Hd; discriminate.
Qed.

Lemma lstrip_spaces sp l :
  Forall (fun c => is_space c = true) sp -> lstrip (sp ++ l) = lstrip l.
Proof. induction 1 as [|c sp Hc _ IH]; [done|]. simpl. by rewrite Hc. Qed.

Lemma lstrip_head c l : is_space c = false -> lstrip (c :: l) = c :: l.
Proof. intros Hc. simpl. by rewrite Hc. Qed.

Lemma lstrip_nil l :
  lstrip l = [] <-> Forall (fun c => is_space c = true) l.
Proof.
  induction l as [|c l IH]; simpl; [done|].
  destruct (is_space c) eqn:Hc.
  - rewrite IH. split; [by constructor | by inversion 1].
  - split; [done|]. inversion 1; congruence.
Qed.

Lemma lstrip_split l :
  exists sp,
    l = sp ++ lstrip l /\ Forall (fun c => is_space c = true) sp.
Proof.
  induction l as [|c l (sp & Hl & Hsp)]; simpl; [by exists []|].
  destruct (is_space c) eqn:Hc.
  - exists (c :: sp). split; [simpl; congruence | by constructor].
  - by exists [].
Qed.

Lemma read_digits_split acc l k v rest :
  read_digits acc l = (k, v, rest) ->
  exists ds,
    l = ds ++ rest /\ length ds = k
    /\ Forall (fun c => is_Some (digit_val c)) ds
    /\ v = foldl (fun a c => 10 * a + default 0 (digit_val c)) acc ds.
Proof.
  revert acc k v rest. induction l as [|c l IH]; intros acc k v rest; simpl.
  - intros [= <- <- <-]. by exists [].
  - destruct (digit_val c) as [d|] eqn:Hd.
    + destruct (read_digits (10 * acc + d) l) as [[k' v'] rest'] eqn:Hr.
      intros [= <- <- <-].
      destruct (IH _ _ _ _ Hr) as (ds & -> & <- & Hds & ->).
      exists (c :: ds). split; [done|]. split; [done|].
      split; [constructor; [by rewrite Hd|done]|]. simpl. by rewrite Hd.
    + intros [= <- <- <-]. by exists [].
Qed.

Lemma read_digits_app acc ds rest :
  Forall (fun c => is_Some (digit_val c)) ds ->
  match rest with [] => True | c :: _ => digit_val c = None end ->
  read_digits acc (ds ++ rest)
  = (length ds, foldl (fun a c => 10 * a + default 0 (digit_val c)) acc ds,
     rest).
Proof.
  intros Hds Hrest. revert acc.
  induction Hds as [|c ds [d Hd] _ IH]; intros acc; simpl.
  - destruct rest as [|c r]; [done|]. simpl. by rewrite Hrest.
  - rewrite Hd, IH. done.
Qed.

(** [int] reads the literals of [literal], and nothing else. *)
Lemma int_literal (s : string) (n : Z) : int s = Some n <-> literal s n.
Proof.
  unfold int, literal. split.
  - destruct (lstrip_split (list_ascii_of_string s)) as (lead & Hs & Hlead).
    destruct (read_sign (lstrip (list_ascii_of_string s)))
      as [negative l] eqn:Hsign.
    destruct (lstrip_split l) as (gap & Hl & Hgap).
    destruct (read_digits 0 (lstrip l)) as [[k v] rest] eqn:Hdigits.
    destruct (read_digits_split _ _ _ _ _ Hdigits)
      as (ds & Hds & Hk & Hdig & Hv).
    destruct k as [|k]; [done|].
    destruct (lstrip rest) eqn:Hrest; [|done].
    apply lstrip_nil in Hrest. intros [= <-].
    assert (exists sign,
              lstrip (list_ascii_of_string s) = sign ++ l
              /\ ((sign = [] /\ negative = false)
                  \/ (sign = ["+"%char] /\ negative = false)
                  \/ (sign = ["-"%char] /\ negative = true)))
      as (sign & Hsl & Hcases).
    { unfold read_sign in Hsign.
      destruct (lstrip (list_ascii_of_string s)) as [|c r].
      - injection Hsign as <- <-. exists []. auto.
      - destruct (Ascii.eqb_spec c "-") as [->|_].
        + injection Hsign as <- <-. exists ["-"%char]. auto.
        + destruct (Ascii.eqb_spec c "+") as [->|_].
          * injection Hsign as <- <-. exists ["+"%char]. auto.
          * injection Hsign as <- <-. exists []. auto. }
    exists lead, sign, gap, ds, rest.
    split; [by rewrite Hs at 1; rewrite Hsl, Hl at 1; rewrite Hds|].
    split; [by rewrite !Forall_app|].
    split; [by destruct ds|]. split; [done|].
    unfold number. rewrite <- Hv.
    destruct Hcases as [[-> ->]|[[-> ->]|[-> ->]]]; auto.
  - intros (lead & sign & gap & ds & trail & -> & Hsp & Hne & Hds & Hcases).
    apply Forall_app in Hsp as [Hlead Hsp].
    apply Forall_app in Hsp as [Hgap Htrail].
    rewrite lstrip_spaces by done.
    assert (exists c ds', ds = c :: ds' /\ is_Some (digit_val c))
      as (c & ds' & -> & Hc).
    { destruct ds as [|c ds']; [done|]. apply Forall_cons in Hds as [Hc _].
      eauto. }
    assert (forall acc,
              read_digits acc (c :: ds' ++ trail)
              = (length (c :: ds'),
                 foldl (fun a c => 10 * a + default 0 (digit_val c)) acc
                   (c :: ds'), trail)) as Hread.
    { intros acc. apply (read_digits_app acc (c :: ds') trail); [done|].
      destruct trail as [|t trail]; [done|].
      apply Forall_cons in Htrail as [Ht _].
      destruct (digit_val t) eqn:Hd; [|done].
      rewrite digit_not_space in Ht by eauto. done. }
    assert (lstrip trail = []) as Htr by (by apply lstrip_nil).
    destruct (digit_not_sign c Hc) as [Hminus Hplus].
    pose proof (digit_not_space c Hc) as Hnsp.
    destruct Hcases as [[-> ->]|[[-> ->]|[-> ->]]]; cbn [app].
    + rewrite lstrip_spaces, lstrip_head by done.
      cbn [read_sign]. rewrite Hminus, Hplus.
      rewrite lstrip_head by done. rewrite Hread. cbn [length].
      by rewrite Htr.
    + rewrite lstrip_head by done. cbn [read_sign].
      change (Ascii.eqb "+" "-") with false.
      change (Ascii.eqb "+" "+") with true. cbn iota.
      rewrite lstrip_spaces, lstrip_head by done. rewrite Hread.
      cbn [length]. by rewrite Htr.
    + rewrite lstrip_head by done. cbn [read_sign].
      change (Ascii.eqb "-" "-") with true. cbn iota.
      rewrite lstrip_spaces, lstrip_head by done. rewrite Hread.
      cbn [length]. by rewrite Htr.
Qed.

(** A text with a character that is no digit, no sign and no white space
    is no literal. *)
Lemma literal_characters (s : string) (n : Z) (c : ascii) :
  literal s n -> c ∈ list_ascii_of_string s ->
  is_Some (digit_val c) \/ is_space c = true
  \/ c = "+"%char \/ c = "-"%char.
Proof.
  intros (lead & sign & gap & ds & trail & -> & Hsp & _ & Hds & Hcases).
  rewrite !Forall_app in Hsp. destruct Hsp as (Hlead & Hgap & Htrail).
  rewrite !elem_of_app. rewrite Forall_forall in Hlead, Hgap, Htrail, Hds.
  intros [?|[Hsign|[?|[?|?]]]]; auto.
  destruct Hcases as [[-> _]|[[-> _]|[-> _]]].
  - by apply elem_of_nil in Hsign.
  - apply elem_of_cons in Hsign as [->|Hn]; [auto|].
    by apply elem_of_nil in Hn.
  - apply elem_of_cons in Hsign as [->|Hn]; [auto|].
    by apply elem_of_nil in Hn.
Qed.

End StrFacts.

Section VlanFacts.
Context `{E : NlPacket}.

(** [_link_add] builds one request and sends it. *)
Lemma _link_add_sends ifindex ifname kind ifla_info_data
    (m : NetlinkManager) :
  let r := _link_add ifindex ifname kind ifla_info_data m in
  r.1 = Sent
  /\ sequence r.2 = (Sequence_next (sequence m)).2
  /\ exists message,
       transmitted r.2 = transmitted m ++ [message]
       /\ (0 <= _next (sequence m) + 1 < 2 ^ 32 ->
           stamped_seq message = Some (Sequence_next (sequence m)).1).
Proof.
  unfold _link_add.
  destruct (pack_Bxxx_i AF_UNSPEC 3) as [body|] eqn:Hbody;
    [clear Hbody | by vm_compute in Hbody].
  unfold build_next, next_sequence. cbn [Sequence_next fst snd pid].
  set (link := add_attribute _ _ _).
  destruct (build_message_nonempty link (_next (sequence m) + 1) (pid m))
    as (b & message & Hb).
  unfold tx_nlpacket. rewrite Hb. cbn [fst snd].
  split; [done|].
  split; [by rewrite (proj1 (proj2 (transmitted_sendall _ _)))|].
  exists (b :: message).
  split; [by rewrite (proj1 (transmitted_sendall _ _))|].
  intros Hfit.
  pose proof (stamped_seq_build link _ (pid m) Hfit) as Hstamp.
  rewrite Hb in Hstamp. by injection Hstamp.
Qed.

End VlanFacts.

(** C8: when the interface name has a dot and the text after its last dot
    reads as a number other than the requested vlan id, [link_add_vlan]
    raises [InvalidInterfaceNameVlanCombo] and the session is as it was:
    no sequence number is taken, nothing is built, nothing is sent.  When
    that number is the requested vlan id, or when the name has no dot, the
    call is [_link_add], which takes the next sequence number and sends the
    one request it builds. *)
Theorem C8_vlan_suffix_is_checked_before_anything_is_built
    `{E : NlPacket} (ifindex : Z) (ifname : string) (vlanid : Z)
    (m : NetlinkManager) :
  let proceeds :=
    link_add_vlan ifindex ifname vlanid m
    = _link_add ifindex ifname "vlan" (ADict [(IFLA_VLAN_ID, AInt vlanid)]) m
    /\ (link_add_vlan ifindex ifname vlanid m).1 = Sent
    /\ sequence (link_add_vlan ifindex ifname vlanid m).2
       = (Sequence_next (sequence m)).2
    /\ exists message,
         transmitted (link_add_vlan ifindex ifname vlanid m).2
         = transmitted m ++ [message] in
  (forall prefix suffix n,
     ifname = prefix +:+ String "." suffix ->
     Str.contains "." suffix = false ->
     Str.int suffix = Some n ->
     (n <> vlanid ->
      link_add_vlan ifindex ifname vlanid m
      = (Raised (InvalidInterfaceNameVlanCombo ifname n vlanid), m))
     /\ (n = vlanid -> proceeds))
  /\ (Str.contains "." ifname = false -> proceeds).
Proof.
  intros proceeds.
  assert (link_add_vlan ifindex ifname vlanid m
          = _link_add ifindex ifname "vlan"
              (ADict [(IFLA_VLAN_ID, AInt vlanid)]) m -> proceeds) as Hgo.
  { intros Heq. subst proceeds. rewrite Heq.
    destruct (_link_add_sends ifindex ifname "vlan"
                (ADict [(IFLA_VLAN_ID, AInt vlanid)]) m)
      as (Hsent & Hseq & message & Htx & _).
    eauto 10. }
  split.
  - intros prefix suffix n -> Hsuffix Hint.
    unfold link_add_vlan.
    rewrite StrFacts.contains_app, StrFacts.last_item_split, Hint by done.
    split.
    + intros Hne. by destruct (Z.eqb_spec n vlanid).
    + intros ->. apply Hgo. unfold link_add_vlan.
      rewrite StrFacts.contains_app, StrFacts.last_item_split, Hint by done.
      by rewrite Z.eqb_refl.
  - intros Hnodot. apply Hgo. unfold link_add_vlan. by rewrite Hnodot.
Qed.

Lemma C8_witness :
  link_add_vlan (E := Linux.host) 3 "swp2.17" 12 Sample.m0
  = (Raised (InvalidInterfaceNameVlanCombo "swp2.17" 17 12), Sample.m0)
  /\ (link_add_vlan (E := Linux.host) 3 "swp2.12" 12 Sample.m0).1 = Sent
  /\ (link_add_vlan (E := Linux.host) 3 "swp2" 12 Sample.m0).1 = Sent.
Proof.
  split; [|split].
  - refine (proj1 (proj1
      (C8_vlan_suffix_is_checked_before_anything_is_built (E := Linux.host)
         3 "swp2.17" 12 Sample.m0) "swp2" "17" 17 _ _ _) _);
      [reflexivity | reflexivity | reflexivity | lia].
  - refine (proj1 (proj2 (proj2 (proj1
      (C8_vlan_suffix_is_checked_before_anything_is_built (E := Linux.host)
         3 "swp2.12" 12 Sample.m0) "swp2" "12" 12 _ _ _) _)));
      reflexivity.
  - refine (proj1 (proj2 (proj2
      (C8_vlan_suffix_is_checked_before_anything_is_built (E := Linux.host)
         3 "swp2" 12 Sample.m0) _)));
      reflexivity.
Defined.

(** C10: when the text after the last dot of the interface name is not a
    decimal integer literal (white space, a sign or none, white space, one
    decimal digit or more, white space), [int] raises [ValueError] and
    [link_add_vlan] ends with it; the session is as it was, so nothing is
    built or sent.  Every text with a character that is no digit, no sign
    and no white space is such a text.  [InvalidInterfaceNameVlanCombo] is
    raised only for a name with a dot whose last component is a literal, and
    the number it writes is not the requested vlan id. *)
Theorem C10_suffix_that_is_not_a_number_raises_ValueError
    `{E : NlPacket} (ifindex : Z) (ifname : string) (vlanid : Z)
    (m : NetlinkManager) :
  (forall prefix suffix,
     ifname = prefix +:+ String "." suffix ->
     Str.contains "." suffix = false ->
     (forall n, ~ Str.literal suffix n) ->
     link_add_vlan ifindex ifname vlanid m = (Raised (ValueError suffix), m))
  /\ (forall prefix suffix c,
        ifname = prefix +:+ String "." suffix ->
        Str.contains "." suffix = false ->
        c ∈ list_ascii_of_string suffix ->
        Str.digit_val c = None -> Str.is_space c = false ->
        c <> "+"%char -> c <> "-"%char ->
        link_add_vlan ifindex ifname vlanid m
        = (Raised (ValueError suffix), m))
  /\ (forall name n v,
        (link_add_vlan ifindex ifname vlanid m).1
        = Raised (InvalidInterfaceNameVlanCombo name n v) ->
        Str.contains "." ifname = true
        /\ Str.literal (Str.last_item (Str.split "." ifname)) n
        /\ n <> vlanid).
Proof.
  assert (forall prefix suffix,
            ifname = prefix +:+ String "." suffix ->
            Str.contains "." suffix = false ->
            (forall n, ~ Str.literal suffix n) ->
            link_add_vlan ifindex ifname vlanid m
            = (Raised (ValueError suffix), m)) as Hfirst.
  { intros prefix suffix -> Hsuffix Hno. unfold link_add_vlan.
    rewrite StrFacts.contains_app, StrFacts.last_item_split by done.
    destruct (Str.int suffix) as [n|] eqn:Hint; [|done].
    by apply StrFacts.int_literal, Hno in Hint. }
  split; [exact Hfirst|]. split.
  - intros prefix suffix c Hname Hsuffix Hc Hdigit Hspace Hplus Hminus.
    apply (Hfirst prefix suffix Hname Hsuffix). intros n Hlit.
    destruct (StrFacts.literal_characters suffix n c Hlit Hc)
      as [[d Hd]|[Hs|[Hp|Hm]]]; congruence.
  - intros name n v. unfold link_add_vlan.
    pose proof (_link_add_sends ifindex ifname "vlan"
                  (ADict [(IFLA_VLAN_ID, AInt vlanid)]) m) as [Hsent _].
    destruct (Str.contains "." ifname); [|by rewrite Hsent].
    destruct (Str.int _) as [k|] eqn:Hint; [|done].
    destruct (Z.eqb_spec k vlanid); simpl; [by rewrite Hsent|].
    intros [= _ <- _]. by apply StrFacts.int_literal in Hint.
Qed.

Lemma C10_witness :
  link_add_vlan (E := Linux.host) 3 "eth0.abc" 12 Sample.m0
  = (Raised (ValueError "abc"), Sample.m0).
Proof.
  refine (proj1
    (C10_suffix_that_is_not_a_number_raises_ValueError (E := Linux.host)
       3 "eth0.abc" 12 Sample.m0) "eth0" "abc" _ _ _);
    [reflexivity | reflexivity |].
  intros n Hlit. apply StrFacts.int_literal in Hlit. discriminate Hlit.
Defined.

(** ** Route batches *)

Section BatchFacts.
Context `{E : NlPacket}.
Implicit Types (m : NetlinkManager) (total : option bytes).

Lemma mjoin_cons (x : bytes) (l : list bytes) : mjoin (x :: l) = x ++ mjoin l.
Proof. done. Qed.

Lemma pending_Some (waiting : bytes) b (msg : bytes) :
  pending (Some (waiting ++ b :: msg)) = waiting ++ b :: msg.
Proof. unfold pending. by destruct waiting. Qed.

Lemma pending_truthy total : truthy total = true <-> pending total <> [].
Proof. unfold pending. by destruct total as [[|]|]. Qed.

(** [tx_or_concat_message] appends the request to what is waiting and
    flushes exactly when the whole is as long as the budget or longer. *)
Lemma tx_or_concat_message_spec total (route : NetlinkPacket) m message :
  pkt_message route = Some message ->
  let whole := pending total ++ message in
  tx_or_concat_message total route m
  = if PACKET_CONCAT_SIZE <=? Z.of_nat (length whole)
    then (None, tx_nlpacket_raw whole m)
    else (Some whole, m).
Proof.
  intros Hmsg. unfold tx_or_concat_message, pending. rewrite Hmsg.
  by destruct (truthy total).
Qed.

(** One loop of [_routes_add_or_delete], from a [total_message] that is
    shorter than the budget. *)
Lemma batch_loop_spec {A : Type} (prepare : A -> prepared)
    (items : list A) total m total' m' :
  Z.of_nat (length (pending total)) < PACKET_CONCAT_SIZE ->
  batch_loop prepare items total m = (inr total', m') ->
  let msgs := built_messages prepare items (_next (sequence m)) (pid m) in
  exists flushed,
    transmitted m' = transmitted m ++ flushed
    /\ mjoin flushed ++ pending total' = pending total ++ mjoin msgs
    /\ Forall (fun t =>
                 PACKET_CONCAT_SIZE <= Z.of_nat (length t)
                 /\ exists waiting request,
                      t = waiting ++ request /\ request ∈ msgs
                      /\ Z.of_nat (length waiting) < PACKET_CONCAT_SIZE)
         flushed
    /\ Z.of_nat (length (pending total')) < PACKET_CONCAT_SIZE.
Proof.
  revert total m. induction items as [|x items IH]; intros total m Hshort.
  - simpl. intros [= <- <-]. exists []. by rewrite !app_nil_r.
  - cbn [batch_loop built_messages].
    destruct (prepare x) as [| |route]; [done|done|].
    unfold build_next, next_sequence. cbn [Sequence_next].
    set (seq := _next (sequence m) + 1).
    destruct (build_message_nonempty route seq (pid m)) as (b & msg & Hb).
    rewrite (tx_or_concat_message_spec _ _ _ (b :: msg)) by done.
    rewrite Hb. cbn [default].
    set (m1 := {| pid := pid m; sequence := {| _next := seq |};
                  tx_socket := tx_socket m; debug := debug m |}).
    destruct (Z.leb_spec PACKET_CONCAT_SIZE
                (Z.of_nat (length (pending total ++ b :: msg))))
      as [Hfull|Hroom].
    + intros Hloop.
      apply (IH None) in Hloop as (flushed & Htx & Hjoin & Hall & Hrest);
        [|done].
      destruct (transmitted_sendall (pending total ++ b :: msg) m1)
        as (Htx1 & Hseq1 & Hpid1).
      unfold tx_nlpacket_raw in *. rewrite Htx1 in Htx.
      rewrite Hseq1, Hpid1 in Hjoin, Hall. cbn [m1 sequence pid _next] in *.
      exists ((pending total ++ b :: msg) :: flushed).
      split; [by rewrite Htx, <- app_assoc|].
      split.
      { rewrite !mjoin_cons. change (pending None) with (@nil Byte.byte) in Hjoin.
        rewrite app_nil_l in Hjoin.
        rewrite <- !app_assoc. by rewrite Hjoin. }
      split; [|done]. constructor.
      * split; [done|]. exists (pending total), (b :: msg).
        split; [done|]. split; [set_solver|done].
      * eapply Forall_impl; [exact Hall|].
        intros t (Ht & waiting & request & -> & Hin & Hw).
        split; [done|]. exists waiting, request. set_solver.
    + intros Hloop.
      apply (IH (Some (pending total ++ b :: msg))) in Hloop
        as (flushed & Htx & Hjoin & Hall & Hrest).
      2:{ by rewrite pending_Some. }
      cbn [m1 sequence pid _next] in *.
      exists flushed. split; [done|]. split.
      { rewrite Hjoin, mjoin_cons.
        by rewrite pending_Some, <- app_assoc. }
      split; [|done].
      eapply Forall_impl; [exact Hall|].
      intros t (Ht & waiting & request & -> & Hin & Hw).
      split; [done|]. exists waiting, request. set_solver.
Qed.

End BatchFacts.

(** C6, as stated, fails on the sample session: 316 routes whose requests
    are 52 octets each, none near the budget, leave as one transmission of
    16432 octets, 48 more than the budget of 16384. *)
Lemma C6_a_transmission_exceeds_the_budget :
  Forall (fun request => Z.of_nat (length request) = 52)
    (built_messages (E := Linux.host)
       (route_msg (E := Linux.host) 24 false 254 14 0 1)
       (replicate 316 Sample.route4) 0 1234)
  /\ (fun t => Z.of_nat (length t)) <$>
       transmitted
         (_routes_add_or_delete (E := Linux.host) true
            (replicate 316 Sample.route4) [] 254 14 0 1 Sample.m0).2
     = [16432].
Proof.
  split; [|vm_compute; reflexivity].
  apply Forall_forall. intros request Hin. revert request Hin.
  apply Forall_forall. vm_compute. repeat constructor.
Qed.

Section RoutesFacts.
Context `{E : NlPacket}.

(** One loop that starts with nothing waiting, and the flush after it *)
Lemma batch_loop_flush_spec
    {A : Type} (prepare : A -> prepared) (items : list A)
    (m : NetlinkManager) (total' : option bytes) (m1 : NetlinkManager) :
  batch_loop prepare items None m = (inr total', m1) ->
  let msgs := built_messages prepare items (_next (sequence m)) (pid m) in
  exists flushed rest,
    transmitted (flush_rest total' m1) = transmitted m ++ flushed ++ rest
    /\ mjoin (flushed ++ rest) = mjoin msgs
    /\ Forall (fun t =>
                 PACKET_CONCAT_SIZE <= Z.of_nat (length t)
                 /\ exists waiting request,
                      t = waiting ++ request /\ request ∈ msgs
                      /\ Z.of_nat (length waiting) < PACKET_CONCAT_SIZE)
         flushed
    /\ (rest = []
        \/ exists r, rest = [r] /\
             0 < Z.of_nat (length r) < PACKET_CONCAT_SIZE).
Proof.
  intros Hloop msgs.
  apply batch_loop_spec in Hloop as (flushed & Htx & Hjoin & Hall & Hrest);
    [|done].
  exists flushed. unfold flush_rest.
  destruct (truthy total') eqn:Htruthy.
  - exists [pending total'].
    destruct (transmitted_sendall (pending total') m1) as (Htx1 & _).
    unfold pending in Htx1 at 1. rewrite Htruthy in Htx1.
    unfold tx_nlpacket_raw. rewrite Htx1, Htx, <- app_assoc.
    split; [done|]. split.
    { rewrite join_app. simpl. by rewrite app_nil_r. }
    split; [done|]. right. exists (pending total'). split; [done|].
    apply pending_truthy in Htruthy.
    destruct (pending total'); [done|]. simpl in *. lia.
  - exists []. rewrite !app_nil_r. split; [done|].
    unfold pending in Hjoin at 1. rewrite Htruthy, app_nil_r in Hjoin.
    eauto.
Qed.


End RoutesFacts.

(** C6, amended, for a call of [_routes_add_or_delete] with [routes] only or
    with [ecmp_routes] only: the requests leave in the order in which they
    are built, without a gap and without a repetition.  What is waiting is
    flushed exactly when a request brings it to the budget of 16384 octets
    or past it, so that a transmission made inside the loop is at least as
    long as the budget, and is longer than the budget unless it ends exactly
    there.  What is left after the last request is shorter than the budget
    and is flushed when it is not empty. *)
Theorem C6_batches_are_flushed_at_or_past_the_budget
    `{E : NlPacket} (add_route : bool) (routes : list route_spec)
    (ecmp_routes : list ecmp_spec) (table protocol route_scope route_type : Z)
    (m : NetlinkManager) :
  routes = [] \/ ecmp_routes = [] ->
  let r :=
    _routes_add_or_delete add_route routes ecmp_routes table protocol
      route_scope route_type m in
  r.1 = None ->
  let rtm_command := if add_route then RTM_NEWROUTE else RTM_DELROUTE in
  let debug := bool_decide (rtm_command ∈ debug m) in
  let msgs :=
    built_messages
      (route_msg rtm_command debug table protocol route_scope route_type)
      routes (_next (sequence m)) (pid m)
    ++ built_messages
         (ecmp_msg rtm_command debug table protocol route_scope route_type)
         ecmp_routes (_next (sequence m)) (pid m) in
  exists flushed rest,
    transmitted r.2 = transmitted m ++ flushed ++ rest
    /\ mjoin (flushed ++ rest) = mjoin msgs
    /\ Forall (fun t =>
                 PACKET_CONCAT_SIZE <= Z.of_nat (length t)
                 /\ exists waiting request,
                      t = waiting ++ request /\ request ∈ msgs
                      /\ Z.of_nat (length waiting) < PACKET_CONCAT_SIZE)
         flushed
    /\ (rest = []
        \/ exists r, rest = [r] /\
             0 < Z.of_nat (length r) < PACKET_CONCAT_SIZE).
Proof.
  intros Hone r Hok rtm_command debug msgs.
  subst r. unfold _routes_add_or_delete in *.
  fold rtm_command in Hok |- *. fold debug in Hok |- *.
  destruct routes as [|x routes].
  - destruct ecmp_routes as [|y ecmp_routes].
    + exists [], []. simpl. rewrite app_nil_r. eauto.
    + destruct (batch_loop _ (y :: ecmp_routes) None m)
        as [[e|total'] m1] eqn:Hloop; [done|].
      cbn [snd]. subst msgs. rewrite app_nil_l.
      by apply batch_loop_flush_spec.
  - destruct Hone as [?| ->]; [done|].
    destruct (batch_loop _ (x :: routes) None m)
      as [[e|total'] m1] eqn:Hloop; [done|].
    cbn [snd]. subst msgs. rewrite app_nil_r.
    by apply batch_loop_flush_spec.
Qed.

Lemma C6_witness :
  exists flushed rest,
    transmitted
      (_routes_add_or_delete (E := Linux.host) true
         (replicate 3 Sample.route4) [] 254 14 0 1 Sample.m0).2
    = transmitted Sample.m0 ++ flushed ++ rest
    /\ mjoin (flushed ++ rest)
       = mjoin (built_messages (E := Linux.host)
                  (route_msg (E := Linux.host) 24 false 254 14 0 1)
                  (replicate 3 Sample.route4) 0 1234 ++ []).
Proof.
  destruct (C6_batches_are_flushed_at_or_past_the_budget (E := Linux.host)
              true (replicate 3 Sample.route4) [] 254 14 0 1 Sample.m0)
    as (flushed & rest & Htx & Hjoin & _).
  - right. reflexivity.
  - vm_compute. reflexivity.
  - exists flushed, rest. split; [exact Htx | exact Hjoin].
Defined.

(** * More facts *)

(** ** Early exits and the accumulator *)

Section MoreWaitFacts.
Context `{E : NlPacket}.
Implicit Types (nlpacket : NetlinkPacket) (data : bytes).
Implicit Types (msgs : list NetlinkPacket) (evs : list event).

Lemma demux_loop_Return_prefix fuel nlpacket data msgs msgs' :
  demux_loop fuel nlpacket data msgs = Final (Return msgs') ->
  msgs `prefix_of` msgs'.
Proof.
  revert data msgs. induction fuel as [|fuel IH]; intros data msgs.
  - by destruct data.
  - destruct data as [|b data]; simpl; [done|].
    destruct (demux_frame _ _ _) as [d' m'|r] eqn:Hturn.
    + intros Hloop%IH.
      apply demux_frame_Next in Hturn as (k & new & _ & -> & _).
      etrans; [|exact Hloop]. by apply prefix_app_r.
    + intros [= ->]. by apply demux_frame_Stop in Hturn as [[= ->]|[? ?]].
Qed.

Lemma wait_loop_prefix nlpacket evs n msgs :
  match wait_loop nlpacket evs n msgs with
  | Return msgs' | Waiting _ msgs' => msgs `prefix_of` msgs'
  | _ => True
  end.
Proof.
  revert n msgs. induction evs as [|ev evs IH]; intros n msgs;
    [simpl; reflexivity|].
  destruct ev as [| |data]; simpl; [reflexivity| |].
  - destruct (_ <=? _); [reflexivity|]. apply IH.
  - destruct data as [|b data]; [reflexivity|].
    destruct (demux _ _ _) as [msgs1|r|] eqn:Hd; [| |done].
    + apply demux_loop_prefix in Hd. specialize (IH n msgs1).
      destruct (wait_loop _ _ _ _); try done; by etrans.
    + destruct r; try done.
      * by apply demux_loop_Return_prefix in Hd.
      * by apply demux_loop_Final in Hd as [[? ?]|[? ?]].
Qed.

End MoreWaitFacts.

(** X1: while the call is waiting, finding the shutdown flag set, or
    reading no octet from the readable socket (the peer has closed it),
    ends the call at once with what has been accumulated; neither raises, and
    the events that would follow are not looked at. *)
Theorem shutdown_and_closed_socket_return_the_accumulator
    `{E : NlPacket} (nlpacket : NetlinkPacket) (evs1 evs2 : list event)
    (n' : Z) (msgs' : list NetlinkPacket) :
  wait_loop nlpacket evs1 0 [] = Waiting n' msgs' ->
  wait_loop nlpacket (evs1 ++ EvShutdown :: evs2) 0 [] = Return msgs'
  /\ wait_loop nlpacket (evs1 ++ EvRecv [] :: evs2) 0 [] = Return msgs'.
Proof.
  intros Hwait. by rewrite !wait_loop_app, Hwait.
Qed.

Lemma shutdown_and_closed_socket_witness :
  wait_loop (E := Linux.host) Sample.getaddr
    ([EvTimeout;
      EvRecv (frame_bytes (E := Linux.host) 1 1234 Sample.newaddr)]
     ++ EvShutdown :: [EvRecv Sample.done_frame]) 0 []
  = Return [Sample.newaddr_obj (Struct.zeros 8)].
Proof.
  apply (shutdown_and_closed_socket_return_the_accumulator
           (E := Linux.host) Sample.getaddr
           [EvTimeout;
            EvRecv (frame_bytes (E := Linux.host) 1 1234 Sample.newaddr)]
           [EvRecv Sample.done_frame] 1
           [Sample.newaddr_obj (Struct.zeros 8)]).
  vm_compute. reflexivity.
Defined.

(** X2: whatever arrives, an object that has been accumulated stays: what
    the call returns, and what it holds while it waits, extends what it held
    at any earlier point of the same event sequence. *)
Theorem accumulated_objects_are_never_dropped
    `{E : NlPacket} (nlpacket : NetlinkPacket) (evs1 evs2 : list event)
    (n1 : Z) (msgs1 : list NetlinkPacket) :
  wait_loop nlpacket evs1 0 [] = Waiting n1 msgs1 ->
  (forall msgs2, wait_loop nlpacket (evs1 ++ evs2) 0 [] = Return msgs2 ->
                 msgs1 `prefix_of` msgs2)
  /\ (forall n2 msgs2,
        wait_loop nlpacket (evs1 ++ evs2) 0 [] = Waiting n2 msgs2 ->
        msgs1 `prefix_of` msgs2 /\ n1 <= n2).
Proof.
  intros Hwait. rewrite wait_loop_app, Hwait.
  pose proof (wait_loop_prefix nlpacket evs2 n1 msgs1) as Hpre.
  split.
  - intros msgs2 Hr. by rewrite Hr in Hpre.
  - intros n2 msgs2 Hr. rewrite Hr in Hpre. split; [done|].
    apply wait_loop_counts_all in Hr.
    assert (0 <= timeouts evs2); [|lia].
    clear. induction evs2 as [|[| |?] ? IH]; simpl; lia.
Qed.

Lemma accumulated_objects_witness :
  wait_loop (E := Linux.host) Sample.getaddr
    [EvRecv (frame_bytes (E := Linux.host) 1 1234 Sample.newaddr)] 0 []
  = Waiting 0 [Sample.newaddr_obj (Struct.zeros 8)]
  /\ [Sample.newaddr_obj (Struct.zeros 8)]
     `prefix_of` [Sample.newaddr_obj (Struct.zeros 8);
                  Sample.newaddr_obj (Byte.x02 :: Struct.zeros 7)].
Proof.
  assert (wait_loop (E := Linux.host) Sample.getaddr
            [EvRecv (frame_bytes (E := Linux.host) 1 1234 Sample.newaddr)]
            0 []
          = Waiting 0 [Sample.newaddr_obj (Struct.zeros 8)]) as Hfirst
    by (vm_compute; reflexivity).
  split; [exact Hfirst|].
  apply (proj1 (accumulated_objects_are_never_dropped (E := Linux.host)
           Sample.getaddr
           [EvRecv (frame_bytes (E := Linux.host) 1 1234 Sample.newaddr)]
           [EvRecv (frame_bytes (E := Linux.host) 1 1234 Sample.newaddr'
                    ++ Sample.done_frame)] 0
           [Sample.newaddr_obj (Struct.zeros 8)] Hfirst)).
  vm_compute. reflexivity.
Defined.

(** X3: a frame that declares length 0 and is not terminal stops the
    progress of the inner loop: [data = data[length:]] leaves the buffer as it
    is, the same frame is read at every turn, and the call never returns.
    This holds for a skipped frame of another pid or sequence, and for a
    data frame of the request (which is decoded and appended at every turn).
    No amount of fuel makes the loop of the model end. *)
Theorem zero_length_frame_never_ends
    `{E : NlPacket} (nlpacket : NetlinkPacket) (data : bytes)
    (evs : list event) (n : Z) (msgs : list NetlinkPacket)
    (t fl s p : Z) (name : string) :
  unpack_header (take header_LEN data) = Some (0, t, fl, s, p) ->
  type_to_string !! t = Some name ->
  (p <> pkt_pid nlpacket \/ s <> pkt_seq nlpacket)
  \/ (t <> NLMSG_DONE /\ t <> NLMSG_ERROR /\
      exists c obj,
        data_class t = Some c /\
        decode_packet (new_packet c t (pkt_debug nlpacket)) 0 fl s p data
        = Some obj) ->
  (forall fuel msgs0, demux_loop fuel nlpacket data msgs0 = OutOfFuel)
  /\ wait_loop nlpacket (EvRecv data :: evs) n msgs = Hangs.
Proof.
  intros Hh Ht Hcase.
  assert (exists msgs1, demux_frame nlpacket data msgs = Next data msgs1)
    as [msgs1 Hturn].
  { unfold demux_frame. rewrite Hh, Ht, Z2Nat.inj_0, drop_0.
    destruct (Z.eqb_spec p (pkt_pid nlpacket)) as [->|]; cbn [negb];
      [|by eexists].
    destruct (Z.eqb_spec s (pkt_seq nlpacket)) as [->|]; cbn [negb];
      [|by eexists].
    destruct Hcase as [[?|?]|(Hdone & Herr & c & obj & Hc & Hdec)];
      [done|done|].
    destruct (Z.eqb_spec t NLMSG_DONE); [done|].
    destruct (Z.eqb_spec t NLMSG_ERROR); [done|].
    rewrite Hc, Hdec. by eexists. }
  destruct data as [|b data]; [done|].
  assert (forall fuel msgs0,
            demux_loop fuel nlpacket (b :: data) msgs0 = OutOfFuel) as Hall.
  { intros fuel msgs0.
    apply demux_frame_Next in Hturn as (k & new & _ & _ & Hany).
    by eapply demux_loop_stuck. }
  split; [done|]. cbn [wait_loop]. unfold demux. by rewrite Hall.
Qed.

Lemma zero_length_frame_witness :
  wait_loop (E := Linux.host) Sample.getaddr
    [EvRecv (pack_header (E := Linux.host) 0 20 0 0 0);
     EvRecv Sample.done_frame] 0 []
  = Hangs.
Proof.
  apply (zero_length_frame_never_ends (E := Linux.host) Sample.getaddr
           (pack_header (E := Linux.host) 0 20 0 0 0)
           [EvRecv Sample.done_frame] 0 [] 20 0 0 0 "RTM_NEWADDR").
  - vm_compute. reflexivity.
  - vm_compute. reflexivity.
  - left. left. simpl. lia.
Defined.

(** X4: an error frame of the request that ends before the fourth octet
    of its body cannot be classified: reading the code raises
    [struct.error], whatever the frame was meant to say, acknowledgements
    included. *)
Theorem truncated_error_frame_raises_struct_error
    `{E : NlPacket} (nlpacket : NetlinkPacket) (data : bytes)
    (evs : list event) (n : Z) (msgs : list NetlinkPacket)
    (len fl : Z) (name : string) :
  NLMSG_ERROR <> NLMSG_DONE ->
  type_to_string !! NLMSG_ERROR = Some name ->
  unpack_header (take header_LEN data)
  = Some (len, NLMSG_ERROR, fl, pkt_seq nlpacket, pkt_pid nlpacket) ->
  (length data < header_LEN + 4)%nat ->
  wait_loop nlpacket (EvRecv data :: evs) n msgs = Raise struct_error.
Proof.
  intros Hne Hname Hh Hshort.
  apply wait_loop_Stop; [by eapply unpack_header_nonempty|].
  unfold demux_frame. rewrite Hh, Hname, !Z.eqb_refl. cbn [negb].
  destruct (Z.eqb_spec NLMSG_ERROR NLMSG_DONE); [done|].
  unfold Struct.unpack_i. rewrite decide_False; [done|].
  rewrite length_take, length_drop. lia.
Qed.

Lemma truncated_error_frame_witness :
  wait_loop (E := Linux.host) Sample.getaddr
    [EvRecv (frame (E := Linux.host) 2 0 1 1234 [Byte.x00; Byte.x00])] 0 []
  = Raise struct_error.
Proof.
  apply (truncated_error_frame_raises_struct_error (E := Linux.host)
           Sample.getaddr
           (frame (E := Linux.host) 2 0 1 1234 [Byte.x00; Byte.x00])
           [] 0 [] 18 0 "NLMSG_ERROR");
    [simpl; lia | vm_compute; reflexivity | vm_compute; reflexivity
    | vm_compute; lia].
Defined.

(** ** Streams that mix the answer with frames of others *)

Section MixedStreamFacts.
Context `{E : NlPacket}.
Implicit Types (nlpacket : NetlinkPacket) (tail : bytes).
Implicit Types (msgs : list NetlinkPacket) (ws : list wire_frame).

Lemma stream_bytes_cons w ws tail :
  stream_bytes (w :: ws) ++ tail = wire_bytes w ++ stream_bytes ws ++ tail.
Proof. unfold stream_bytes. simpl. by rewrite <- app_assoc. Qed.

Lemma answers_true nlpacket w :
  answers nlpacket w = true ->
  wf_pid w = pkt_pid nlpacket /\ wf_seq w = pkt_seq nlpacket.
Proof. unfold answers. intros [?%Z.eqb_eq ?%Z.eqb_eq]%andb_true_iff. done. Qed.

(** One turn on a frame of the stream that does not answer the request *)
Lemma foreign_turn nlpacket w rest msgs :
  stream_frame nlpacket w -> answers nlpacket w = false ->
  demux_frame nlpacket (wire_bytes w ++ rest) msgs = Next rest msgs.
Proof.
  intros (Hs & Hp & Hw) Hno. rewrite Hno in Hw.
  destruct Hw as (Ht & Hf & Hl & [name Hname]).
  unfold wire_bytes, frame_bytes.
  erewrite foreign_frame_skipped.
  - f_equal. apply drop_frame.
  - by apply unpack_frame.
  - exact Hname.
  - unfold answers in Hno. apply andb_false_iff in Hno.
    destruct Hno as [Hno|Hno]; apply Z.eqb_neq in Hno; eauto.
Qed.

(** The frames of a stream take one turn each; those that answer the
    request leave an object, the others leave nothing. *)
Lemma demux_loop_stream nlpacket ws tail objs fuel msgs :
  Forall (stream_frame nlpacket) ws ->
  decode_stream nlpacket ws tail = Some <$> objs ->
  demux_loop (length ws + fuel) nlpacket (stream_bytes ws ++ tail) msgs
  = demux_loop fuel nlpacket tail (msgs ++ objs).
Proof.
  intros Hws. revert objs msgs.
  induction Hws as [|w ws Hw Hws IH]; intros objs msgs Hdec.
  - destruct objs; [|done]. by rewrite app_nil_r.
  - rewrite stream_bytes_cons. cbn [length Nat.add].
    rewrite demux_loop_S
      by (unfold wire_bytes, frame_bytes; apply frame_nonempty).
    cbn [decode_stream] in Hdec.
    destruct (answers nlpacket w) eqn:Hans.
    + destruct objs as [|obj objs]; [done|].
      injection Hdec as Hobj Hrest.
      destruct (data_class (rx_type (wf_frame w))) as [c|] eqn:Hc; [|done].
      cbn [mbind option_bind] in Hobj.
      rewrite stream_bytes_cons in Hobj.
      destruct (answers_true _ _ Hans) as [Hpid Hseq].
      destruct Hw as (Hs & Hp & Hw). rewrite Hans in Hw.
      unfold wire_bytes in *. rewrite Hpid, Hseq in *.
      rewrite (data_frame_turn _ _ _ _ c obj) by done.
      rewrite (IH objs) by done. by rewrite <- app_assoc.
    + rewrite foreign_turn by done. by apply IH.
Qed.

Lemma length_stream_bytes ws : (length ws <= length (stream_bytes ws))%nat.
Proof.
  induction ws as [|w ws IH]; [done|].
  change (stream_bytes (w :: ws)) with (wire_bytes w ++ stream_bytes ws).
  rewrite length_app. unfold wire_bytes, frame_bytes. rewrite length_frame.
  unfold header_LEN. cbn [length]. lia.
Qed.

Lemma length_decode_stream nlpacket ws tail :
  length (decode_stream nlpacket ws tail)
  = length (filter (fun w => answers nlpacket w = true) ws).
Proof.
  induction ws as [|w ws IH]; [done|]. cbn [decode_stream].
  rewrite filter_cons. destruct (answers nlpacket w) eqn:Hans.
  - rewrite decide_True by done. simpl. by rewrite IH.
  - rewrite decide_False by done. exact IH.
Qed.

End MixedStreamFacts.

(** X5: one [recv] buffer holds frames of any origin, packed back to back:
    data frames of the request, and between them frames of other pids or
    sequences (of types that the table lists).  Then the loop accumulates the
    objects of the frames that answer the request, one each and in the order
    of the stream, and nothing for the others.  When the buffer ends there,
    the call goes back to waiting with these objects added; when a Done
    frame of the request follows, the call returns them. *)
Theorem foreign_frames_are_filtered_in_order
    `{E : NlPacket} (nlpacket : NetlinkPacket) (ws : list wire_frame)
    (done_flags : Z) (done_payload trailing : bytes) (evs : list event)
    (n : Z) (msgs objs : list NetlinkPacket) :
  let done_frame :=
    frame NLMSG_DONE done_flags (pkt_seq nlpacket) (pkt_pid nlpacket)
      done_payload in
  0 <= pkt_seq nlpacket < 2 ^ 32 -> 0 <= pkt_pid nlpacket < 2 ^ 32 ->
  0 <= NLMSG_DONE < 2 ^ 16 -> 0 <= done_flags < 2 ^ 16 ->
  Z.of_nat (header_LEN + length done_payload) < 2 ^ 32 ->
  is_Some (type_to_string !! NLMSG_DONE) ->
  ws <> [] ->
  Forall (stream_frame nlpacket) ws ->
  (decode_stream nlpacket ws [] = Some <$> objs ->
   wait_loop nlpacket (EvRecv (stream_bytes ws) :: evs) n msgs
   = wait_loop nlpacket evs n (msgs ++ objs))
  /\ (decode_stream nlpacket ws (done_frame ++ trailing) = Some <$> objs ->
      wait_loop nlpacket
        (EvRecv (stream_bytes ws ++ done_frame ++ trailing) :: evs) n msgs
      = Return (msgs ++ objs))
  /\ (forall tail, decode_stream nlpacket ws tail = Some <$> objs ->
        length objs
        = length (filter (fun w => answers nlpacket w = true) ws)).
Proof.
  intros done_frame Hs Hp Ht Hf Hl Hname Hne Hws.
  pose proof (length_stream_bytes ws) as Hlen.
  split; [|split].
  - intros Hdec. apply wait_loop_Exhausted.
    + intros Hnil. rewrite Hnil in Hlen. destruct ws; [done|].
      simpl in Hlen. lia.
    + unfold demux.
      rewrite (demux_loop_more_fuel (length ws + 0)); [|lia|];
        rewrite <- (app_nil_r (stream_bytes ws));
        by rewrite (demux_loop_stream _ _ _ objs).
  - intros Hdec. apply wait_loop_Stop_demux.
    + intros Hnil. apply app_eq_nil in Hnil as [_ Hnil].
      by apply frame_nonempty in Hnil.
    + assert (demux_loop 1 nlpacket (done_frame ++ trailing) (msgs ++ objs)
              = Final (Return (msgs ++ objs))) as Hdone.
      { subst done_frame. rewrite demux_loop_S by apply frame_nonempty.
        by rewrite done_frame_turn. }
      unfold demux. rewrite (demux_loop_more_fuel (length ws + 1)).
      * by rewrite (demux_loop_stream _ _ _ objs).
      * rewrite length_app. subst done_frame.
        rewrite length_app, length_frame. unfold header_LEN. lia.
      * by rewrite (demux_loop_stream _ _ _ objs), Hdone.
  - intros tail Hdec. apply (f_equal length) in Hdec.
    rewrite length_fmap in Hdec. rewrite <- Hdec.
    apply length_decode_stream.
Qed.

Lemma foreign_frames_witness :
  wait_loop (E := Linux.host) Sample.getaddr
    [EvRecv (stream_bytes (E := Linux.host)
               [ {| wf_seq := 1; wf_pid := 1234; wf_frame := Sample.newaddr |};
                 {| wf_seq := 0; wf_pid := 1234; wf_frame := Sample.newaddr' |};
                 {| wf_seq := 1; wf_pid := 77; wf_frame := Sample.newaddr |};
                 {| wf_seq := 1; wf_pid := 1234; wf_frame := Sample.newaddr' |} ]
             ++ frame (E := Linux.host) 3 2 1 1234 (Struct.zeros 4) ++ [])]
    0 []
  = Return ([] ++ [Sample.newaddr_obj (Struct.zeros 8);
                   Sample.newaddr_obj (Byte.x02 :: Struct.zeros 7)]).
Proof.
  assert (forall f, f = Sample.newaddr \/ f = Sample.newaddr' ->
                    data_frame (E := Linux.host) f) as Hdata.
  { intros f [-> | ->]; unfold data_frame;
      (repeat split; try (vm_compute; congruence); try (by eexists)). }
  assert (forall f, f = Sample.newaddr \/ f = Sample.newaddr' ->
            0 <= rx_type f < 2 ^ 16 /\ 0 <= rx_flags f < 2 ^ 16 /\
            Z.of_nat (header_LEN + length (rx_payload f)) < 2 ^ 32 /\
            is_Some (type_to_string (NlPacket := Linux.host) !! rx_type f))
    as Hforeign.
  { intros f [-> | ->];
      (repeat split; try (vm_compute; congruence); try (by eexists)). }
  refine (proj1 (proj2
    (foreign_frames_are_filtered_in_order (E := Linux.host) Sample.getaddr
       _ 2 (Struct.zeros 4) [] [] 0 [] _ _ _ _ _ _ _ _ _)) _).
  - simpl. lia.
  - simpl. lia.
  - simpl. lia.
  - simpl. lia.
  - vm_compute. reflexivity.
  - by eexists.
  - discriminate.
  - repeat (apply List.Forall_cons; [|]); try apply List.Forall_nil;
      (split; [simpl; lia|]); (split; [simpl; lia|]);
      match goal with
      | |- context [answers ?p ?w] =>
        let b := eval vm_compute in (answers p w) in
        change (answers p w) with b; cbv iota
      end.
    + apply (Hdata Sample.newaddr). by left.
    + apply (Hforeign Sample.newaddr'). by right.
    + apply (Hforeign Sample.newaddr). by left.
    + apply (Hdata Sample.newaddr'). by right.
  - vm_compute. reflexivity.
Defined.

(** ** Requests and their answers in a session *)

Section SessionFacts.
Context `{E : NlPacket}.

Lemma request_dump_msg_Prepared rtm_type family debug msg :
  request_dump_msg rtm_type family debug = Prepared msg ->
  pkt_debug msg = debug /\ pkt_msgtype msg = rtm_type
  /\ rtm_type ∈ [RTM_GETADDR; RTM_GETLINK; RTM_GETNEIGH; RTM_GETROUTE]
  /\ 0 <= family <= 255.
Proof.
  unfold request_dump_msg, pack_Bxxx_i, Struct.pack_B.
  destruct (decide (0 <= family <= 255)) as [Hfam|Hfam]; simpl.
  - repeat case_match; intros [= <-]; simpl; (split; [done|]);
      (split; [done|]); (split; [|done]);
      repeat match goal with H : (_ =? _) = true |- _ =>
               apply Z.eqb_eq in H end; subst; set_solver.
  - by repeat case_match.
Qed.

Lemma request_dump_msg_supported rtm_type family debug :
  rtm_type ∈ [RTM_GETADDR; RTM_GETLINK; RTM_GETNEIGH; RTM_GETROUTE] ->
  request_dump_msg rtm_type family debug
  = match pack_Bxxx_i family
            (if rtm_type =? RTM_GETADDR then 1
             else if rtm_type =? RTM_GETLINK then 3 else 2) with
    | Some body =>
      Prepared
        (set_attributes ∅
           (set_flags (Z.lor NLM_F_REQUEST NLM_F_DUMP)
              (set_body body
                 (new_packet
                    (if rtm_type =? RTM_GETADDR then Address
                     else if rtm_type =? RTM_GETLINK then Link
                     else if rtm_type =? RTM_GETNEIGH then Neighbor
                     else Route) rtm_type debug))))
    | None => PackError
    end.
Proof.
  intros Hin. unfold request_dump_msg.
  destruct (Z.eqb_spec rtm_type RTM_GETADDR); [done|].
  destruct (Z.eqb_spec rtm_type RTM_GETLINK); [done|].
  destruct (Z.eqb_spec rtm_type RTM_GETNEIGH); [done|].
  destruct (Z.eqb_spec rtm_type RTM_GETROUTE); [done|].
  set_solver.
Qed.

(** The wait loop never ends like the call for an unbuilt packet. *)
Lemma wait_loop_not_ReturnNone (p : NetlinkPacket) (evs : list event) n
    (msgs : list NetlinkPacket) :
  wait_loop p evs n msgs <> ReturnNone.
Proof.
  revert n msgs. induction evs as [|ev evs IH]; intros n msgs; [done|].
  destruct ev as [| |d]; simpl; [done| |].
  - destruct (_ <=? _); [done|]. apply IH.
  - destruct d; [done|]. destruct (demux _ _ _) eqn:Hd; [apply IH| |done].
    intros ->. by apply demux_loop_Final in Hd as [[? ?]|[? ?]].
Qed.

End SessionFacts.

(** X6: in a session, the reply to an earlier request is never taken for
    the reply to a later one: the later request carries a greater sequence
    number, so that a frame with the pid and the sequence of the earlier one
    is skipped, whatever its type (as long as the table lists it). *)
Theorem reply_to_an_earlier_request_is_skipped
    `{E : NlPacket} (reqs : list NetlinkPacket) (m : NetlinkManager)
    (i j : nat) (p q : NetlinkPacket) (data : bytes)
    (msgs : list NetlinkPacket) (len t fl : Z) (name : string) :
  (session_builds reqs m).1 !! i = Some p ->
  (session_builds reqs m).1 !! j = Some q ->
  (i < j)%nat ->
  unpack_header (take header_LEN data)
  = Some (len, t, fl, pkt_seq p, pkt_pid p) ->
  type_to_string !! t = Some name ->
  demux_frame q data msgs = Next (drop (Z.to_nat len) data) msgs.
Proof.
  intros Hp Hq Hij Hh Ht.
  destruct (session_builds reqs m) as [built m'] eqn:Hs. cbn [fst] in *.
  pose proof (session_builds_seq _ _ _ _ Hs) as [_ Hseq].
  apply Hseq in Hp, Hq.
  eapply foreign_frame_skipped; [exact Hh | exact Ht |]. right. lia.
Qed.

Lemma reply_to_an_earlier_request_witness :
  demux_frame (E := Linux.host)
    (build_message (E := Linux.host) 2 1234 (new_packet Link 18 false))
    (frame_bytes (E := Linux.host) 1 1234 Sample.newaddr) []
  = Next (drop (Z.to_nat 24)
            (frame_bytes (E := Linux.host) 1 1234 Sample.newaddr)) [].
Proof.
  apply (reply_to_an_earlier_request_is_skipped (E := Linux.host)
           [new_packet Address 22 false; new_packet Link 18 false]
           Sample.m0 0 1
           (build_message (E := Linux.host) 1 1234
              (new_packet Address 22 false))
           (build_message (E := Linux.host) 2 1234 (new_packet Link 18 false))
           _ [] 24 20 2 "RTM_NEWADDR").
  - vm_compute. reflexivity.
  - vm_compute. reflexivity.
  - lia.
  - vm_compute. reflexivity.
  - vm_compute. reflexivity.
Defined.



(** X8: [request_dump] sends nothing for a request it cannot build.  For a
    type other than the four GET types it returns [None]; for one of them
    and a family outside 0..255, [pack] raises [struct.error].  In both
    cases the session is as it was: no sequence number is taken and nothing
    is transmitted.  Otherwise one sequence number is taken and one message
    is transmitted. *)
Theorem request_dump_leaves_the_session_when_it_cannot_build
    `{E : NlPacket} (rtm_type family : Z) (debug : bool) (evs : list event)
    (m : NetlinkManager) :
  let supported :=
    rtm_type ∈ [RTM_GETADDR; RTM_GETLINK; RTM_GETNEIGH; RTM_GETROUTE] in
  (~ supported -> request_dump rtm_type family debug evs m = (ReturnNone, m))
  /\ (supported -> ~ 0 <= family <= 255 ->
      request_dump rtm_type family debug evs m = (Raise struct_error, m))
  /\ (supported -> 0 <= family <= 255 ->
      (request_dump rtm_type family debug evs m).1 <> ReturnNone
      /\ sequence (request_dump rtm_type family debug evs m).2
         = (Sequence_next (sequence m)).2
      /\ exists message,
           transmitted (request_dump rtm_type family debug evs m).2
           = transmitted m ++ [message]).
Proof.
  intros supported. split; [|split].
  - intros Hno. unfold request_dump.
    destruct (request_dump_msg rtm_type family debug) as [| |msg] eqn:Hmsg;
      [done| |].
    + exfalso. unfold request_dump_msg in Hmsg.
      apply Hno. subst supported.
      repeat match type of Hmsg with
      | (if ?c =? ?d then _ else _) = _ =>
        destruct (Z.eqb_spec c d) as [->|]; [set_solver|]
      end. done.
    + apply request_dump_msg_Prepared in Hmsg as (_ & _ & Hin & _). done.
  - intros Hin Hfam. unfold request_dump.
    rewrite request_dump_msg_supported by done.
    unfold pack_Bxxx_i, Struct.pack_B. by rewrite decide_False.
  - intros Hin Hfam. unfold request_dump.
    rewrite request_dump_msg_supported by done.
    unfold pack_Bxxx_i, Struct.pack_B. rewrite decide_True by done.
    cbn [fmap option_fmap option_map].
    match goal with |- context [build_next ?x m] => set (msg := x) end.
    unfold build_next, next_sequence. cbn [Sequence_next pid].
    unfold tx_nlpacket_get_response.
    destruct (build_message_nonempty msg (_next (sequence m) + 1) (pid m))
      as (b & message & Hb).
    rewrite Hb. cbn [fst snd].
    split.
    { apply wait_loop_not_ReturnNone. }
    split; [by rewrite (proj1 (proj2 (transmitted_sendall _ _)))|].
    exists (b :: message). by rewrite (proj1 (transmitted_sendall _ _)).
Qed.

Lemma request_dump_leaves_the_session_witness :
  request_dump (E := Linux.host) 16 0 false [] Sample.m0
  = (ReturnNone, Sample.m0)
  /\ request_dump (E := Linux.host) 26 256 false [] Sample.m0
     = (Raise struct_error, Sample.m0).
Proof.
  split.
  - apply (request_dump_leaves_the_session_when_it_cannot_build
             (E := Linux.host) 16 0 false [] Sample.m0).
    simpl. rewrite !elem_of_cons, elem_of_nil. lia.
  - apply (request_dump_leaves_the_session_when_it_cannot_build
             (E := Linux.host) 26 256 false [] Sample.m0).
    + simpl. set_solver.
    + lia.
Defined.

(** ** Builders that send without waiting *)

Module PackFacts.

Lemma pack_B_Some v : 0 <= v <= 255 -> exists o, Struct.pack_B v = Some o.
Proof. intros Hv. unfold Struct.pack_B. rewrite decide_True by done. eauto. Qed.

Lemma pack_B_None v : ~ 0 <= v <= 255 -> Struct.pack_B v = None.
Proof. intros Hv. unfold Struct.pack_B. by rewrite decide_False. Qed.

Lemma pack_i_Some big v :
  - 2 ^ 31 <= v < 2 ^ 31 -> exists x, Pack.pack_i big v = Some x.
Proof. intros Hv. unfold Pack.pack_i. rewrite decide_True by done. eauto. Qed.

Lemma pack_i_None big v :
  ~ - 2 ^ 31 <= v < 2 ^ 31 -> Pack.pack_i big v = None.
Proof. intros Hv. unfold Pack.pack_i. by rewrite decide_False. Qed.

Lemma pack_L_Some big v :
  0 <= v < 2 ^ 32 -> exists x, Pack.pack_L big v = Some x.
Proof. intros Hv. unfold Pack.pack_L. rewrite decide_True by done. eauto. Qed.

Lemma pack_H_Some big v :
  0 <= v < 2 ^ 16 -> exists x, Pack.pack_H big v = Some x.
Proof. intros Hv. unfold Pack.pack_H. rewrite decide_True by done. eauto. Qed.

End PackFacts.

Section TxBuilderFacts.
Context `{E : NlPacket} `{X : NlPacketMore}.

Lemma build_and_tx_Prepared (x : NetlinkPacket) (m : NetlinkManager) :
  (build_and_tx (Prepared x) m).1 = None
  /\ one_sent m (build_and_tx (Prepared x) m).2.
Proof.
  unfold build_and_tx, build_next, next_sequence.
  cbn [Sequence_next fst snd pid].
  destruct (build_message_nonempty x (_next (sequence m) + 1) (pid m))
    as (b & message & Hb).
  unfold tx_nlpacket. rewrite Hb. cbn [fst snd]. split; [done|].
  destruct (transmitted_sendall (b :: message)
              {| pid := pid m;
                 sequence := {| _next := _next (sequence m) + 1 |};
                 tx_socket := tx_socket m; debug := debug m |})
    as (Htx & Hseq & Hpid).
  unfold one_sent. rewrite Hseq, Hpid, Htx.
  repeat split; [|by eexists].
  unfold sendall. by destruct (tx_socket m).
Qed.

End TxBuilderFacts.

(** X10: [link_set_updown] accepts the states ["up"] and ["down"] and no
    other: for any other string (case matters) it raises the "Unsupported
    state" exception that names the string, before anything is built.  For
    the two states, and an [IFF_UP] that fits the unsigned 32-bit field, it
    returns after sending one request. *)
Theorem link_set_updown_accepts_up_and_down_only
    `{E : NlPacket} `{X : NlPacketMore} (ifname state : string)
    (m : NetlinkManager) :
  0 <= IFF_UP < 2 ^ 32 ->
  (state <> "up"%string -> state <> "down"%string ->
   link_set_updown ifname state m = (Some (UnsupportedState state), m))
  /\ (state = "up"%string \/ state = "down"%string ->
      (link_set_updown ifname state m).1 = None
      /\ one_sent m (link_set_updown ifname state m).2).
Proof.
  intros Hup. split.
  - intros H1 H2. unfold link_set_updown.
    destruct (String.eqb_spec state "up"); [done|].
    by destruct (String.eqb_spec state "down").
  - assert (forall fl, 0 <= fl < 2 ^ 32 ->
              exists x, link_set_updown_msg ifname fl m = Prepared x)
      as Hmsg.
    { intros fl Hfl. unfold link_set_updown_msg, Pack.BxxxiLL.
      unfold Struct.pack_B, Pack.pack_i, Pack.pack_L, AF_UNSPEC.
      rewrite !decide_True by lia. simpl. by eexists. }
    intros [-> | ->]; unfold link_set_updown; simpl.
    + destruct (Hmsg IFF_UP Hup) as [x ->]. apply build_and_tx_Prepared.
    + destruct (Hmsg 0 ltac:(lia)) as [x ->]. apply build_and_tx_Prepared.
Qed.

Lemma link_set_updown_witness :
  link_set_updown (E := Linux.host) (X := LinuxMore.host_more)
    "swp1" "UP" Sample.m0
  = (Some (UnsupportedState "UP"), Sample.m0)
  /\ (link_set_updown (E := Linux.host) (X := LinuxMore.host_more)
        "swp1" "down" Sample.m0).1 = None.
Proof.
  split.
  - apply (link_set_updown_accepts_up_and_down_only (E := Linux.host)
             (X := LinuxMore.host_more) "swp1" "UP" Sample.m0);
      [simpl; lia | discriminate | discriminate].
  - apply (link_set_updown_accepts_up_and_down_only (E := Linux.host)
             (X := LinuxMore.host_more) "swp1" "down" Sample.m0);
      [simpl; lia | by right].
Defined.

(** X11: [link_set_protodown] does not check its state: every string
    other than ["on"] means off, so that the call does what it does for
    ["off"], and it never raises. *)
Theorem link_set_protodown_takes_any_other_state_for_off
    `{E : NlPacket} `{X : NlPacketMore} (ifname state : string)
    (m : NetlinkManager) :
  (link_set_protodown ifname state m).1 = None
  /\ one_sent m (link_set_protodown ifname state m).2
  /\ (state <> "on"%string ->
      link_set_protodown ifname state m = link_set_protodown ifname "off" m).
Proof.
  assert (exists x, link_set_protodown_msg ifname state m = Prepared x)
    as [x Hx].
  { unfold link_set_protodown_msg, Pack.BxxxiLL.
    unfold Struct.pack_B, Pack.pack_i, Pack.pack_L, AF_UNSPEC.
    rewrite !decide_True by lia. simpl. by eexists. }
  unfold link_set_protodown. rewrite Hx.
  split; [apply build_and_tx_Prepared|].
  split; [apply build_and_tx_Prepared|].
  intros Hoff. rewrite <- Hx. f_equal. unfold link_set_protodown_msg.
  by destruct (String.eqb_spec state "on").
Qed.

Lemma link_set_protodown_witness :
  link_set_protodown (E := Linux.host) (X := LinuxMore.host_more)
    "swp1" "up" Sample.m0
  = link_set_protodown (E := Linux.host) (X := LinuxMore.host_more)
      "swp1" "off" Sample.m0.
Proof.
  apply (link_set_protodown_takes_any_other_state_for_off (E := Linux.host)
           (X := LinuxMore.host_more) "swp1" "up" Sample.m0).
  discriminate.
Defined.



(** X13: [neighbor_add] and [neighbor_del] raise [struct.error], with the
    session as it was, exactly when the address family does not fit an octet
    or the interface index does not fit a signed 32-bit word (the constants
    [NUD_REACHABLE] and [RTN_UNICAST] fitting their fields); otherwise each of
    them sends one request.  A deletion takes a sequence number like an
    addition. *)
Theorem neighbor_requests_are_sent_when_family_and_index_fit
    `{E : NlPacket} `{X : NlPacketMore} (afi ifindex : Z) (ip : ip_address)
    (mac : attr_value) (m : NetlinkManager) :
  0 <= NUD_REACHABLE < 2 ^ 16 -> 0 <= RTN_UNICAST <= 255 ->
  let fits := 0 <= afi <= 255 /\ - 2 ^ 31 <= ifindex < 2 ^ 31 in
  (fits ->
   (neighbor_add afi ifindex ip mac m).1 = None
   /\ one_sent m (neighbor_add afi ifindex ip mac m).2
   /\ (neighbor_del afi ifindex ip mac m).1 = None
   /\ one_sent m (neighbor_del afi ifindex ip mac m).2)
  /\ (~ fits ->
      neighbor_add afi ifindex ip mac m = (Some (Exn struct_error), m)
      /\ neighbor_del afi ifindex ip mac m = (Some (Exn struct_error), m)).
Proof.
  intros Hnud Hrtn fits. subst fits.
  unfold neighbor_add, neighbor_del, neighbor_msg, Pack.BxxxiHBB.
  destruct (PackFacts.pack_H_Some big_endian NUD_REACHABLE Hnud) as [y Hy].
  destruct (PackFacts.pack_B_Some 0 ltac:(lia)) as [u Hu].
  destruct (PackFacts.pack_B_Some RTN_UNICAST Hrtn) as [v Hv].
  split.
  - intros [Hafi Hidx].
    destruct (PackFacts.pack_B_Some afi Hafi) as [o Ho].
    destruct (PackFacts.pack_i_Some big_endian ifindex Hidx) as [x Hx].
    rewrite Ho, Hx, Hy, Hu, Hv. cbn [mbind option_bind].
    repeat split; apply build_and_tx_Prepared.
  - intros Hout.
    destruct (decide (0 <= afi <= 255)) as [Hafi|Hafi].
    + destruct (PackFacts.pack_B_Some afi Hafi) as [o Ho].
      rewrite Ho. cbn [mbind option_bind].
      rewrite (PackFacts.pack_i_None big_endian ifindex);
        [split; reflexivity|].
      intros Hidx. by apply Hout.
    + rewrite (PackFacts.pack_B_None afi Hafi). split; reflexivity.
Qed.

Lemma neighbor_requests_witness :
  (neighbor_add (E := Linux.host) (X := LinuxMore.host_more)
     2 3 (IPv4Address 167772161) (AStr "00:11:22:33:44:55") Sample.m0).1
  = None
  /\ neighbor_del (E := Linux.host) (X := LinuxMore.host_more)
       256 3 (IPv4Address 167772161) (AStr "00:11:22:33:44:55") Sample.m0
     = (Some (Exn struct_error), Sample.m0).
Proof.
  split.
  - refine (proj1 (proj1
      (neighbor_requests_are_sent_when_family_and_index_fit
         (E := Linux.host) (X := LinuxMore.host_more)
         2 3 (IPv4Address 167772161) (AStr "00:11:22:33:44:55")
         Sample.m0 _ _) _)); simpl; lia.
  - refine (proj2 (proj2
      (neighbor_requests_are_sent_when_family_and_index_fit
         (E := Linux.host) (X := LinuxMore.host_more)
         256 3 (IPv4Address 167772161) (AStr "00:11:22:33:44:55")
         Sample.m0 _ _) _)); simpl; lia.
Defined.

(** ** Route batches that fail, and batches of both kinds *)

Section MoreBatchFacts.
Context `{E : NlPacket}.
Implicit Types (m : NetlinkManager) (total : option bytes).

Lemma batch_loop_app {A : Type} (prepare : A -> prepared)
    (l1 l2 : list A) total m :
  batch_loop prepare (l1 ++ l2) total m
  = match batch_loop prepare l1 total m with
    | (inr total', m1) => batch_loop prepare l2 total' m1
    | (inl e, m1) => (inl e, m1)
    end.
Proof.
  revert total m. induction l1 as [|x l1 IH]; intros total m; [done|].
  cbn [app batch_loop]. destruct (prepare x); [done|done|].
  destruct (build_next _ _) as [route m1].
  destruct (tx_or_concat_message _ _ _) as [total' m2]. apply IH.
Qed.

Lemma batch_loop_succeeds {A : Type} (prepare : A -> prepared)
    (items : list A) total m :
  Forall (fun x => exists p, prepare x = Prepared p) items ->
  exists total' m', batch_loop prepare items total m = (inr total', m').
Proof.
  intros Hall. revert total m.
  induction Hall as [|x items [p Hp] Hall IH]; intros total m.
  - by eexists _, _.
  - cbn [batch_loop]. rewrite Hp.
    destruct (build_next _ _) as [route m1].
    destruct (tx_or_concat_message _ _ _) as [total' m2]. apply IH.
Qed.

Lemma tx_or_concat_message_session total (route : NetlinkPacket) m :
  sequence (tx_or_concat_message total route m).2 = sequence m
  /\ pid (tx_or_concat_message total route m).2 = pid m
  /\ debug (tx_or_concat_message total route m).2 = debug m.
Proof.
  unfold tx_or_concat_message, tx_nlpacket_raw.
  destruct (_ <=? _); [|done]. cbn [snd].
  match goal with |- context [sendall ?t m] =>
    destruct (transmitted_sendall t m) as (_ & -> & ->);
    split; [done|]; split; [done|];
    unfold sendall; by destruct (tx_socket m)
  end.
Qed.

(** A loop that ends without an exception has taken one sequence number
    for each item. *)
Lemma batch_loop_session {A : Type} (prepare : A -> prepared)
    (items : list A) total m r m' :
  batch_loop prepare items total m = (r, m') ->
  pid m' = pid m /\ debug m' = debug m
  /\ (forall total', r = inr total' ->
        _next (sequence m') = _next (sequence m) + Z.of_nat (length items)).
Proof.
  revert total m. induction items as [|x items IH]; intros total m.
  - simpl. intros [= <- <-]. repeat split. intros. lia.
  - cbn [batch_loop]. destruct (prepare x); [by intros [= <- <-]..|].
    unfold build_next, next_sequence. cbn [Sequence_next].
    match goal with |- context [tx_or_concat_message ?t ?p ?n] =>
      pose proof (tx_or_concat_message_session t p n) as (Hseq & Hpid & Hdbg);
      destruct (tx_or_concat_message t p n) as [total1 m2]
    end.
    cbn [snd sequence pid debug] in *.
    intros (Hp & Hd & Hn)%IH. rewrite Hpid in Hp. rewrite Hdbg in Hd.
    split; [done|]. split; [done|].
    intros total' Hr. rewrite (Hn total' Hr), Hseq. cbn [_next length]. lia.
Qed.

Lemma flush_rest_spec total m :
  transmitted (flush_rest total m)
  = transmitted m ++ match pending total with [] => [] | r => [r] end
  /\ sequence (flush_rest total m) = sequence m
  /\ pid (flush_rest total m) = pid m
  /\ debug (flush_rest total m) = debug m.
Proof.
  unfold flush_rest, pending, tx_nlpacket_raw.
  destruct total as [[|b t]|]; cbn [truthy]; rewrite ?app_nil_r; try done.
  change (default [] (Some (b :: t))) with (b :: t).
  destruct (transmitted_sendall (b :: t) m) as (Htx & Hseq & Hpid).
  split; [done|]. split; [done|]. split; [done|].
  unfold sendall. by destruct (tx_socket m).
Qed.

End MoreBatchFacts.

(** X14: when a route cannot be packed (a field of its service header
    does not fit an octet), [_routes_add_or_delete] ends with
    [struct.error] at that route.  The routes before it have each taken a
    sequence number, but what was waiting in [total_message] is never
    flushed: only the batches that reached the budget have left, and the
    rest of these requests is lost.  In particular nothing at all is
    transmitted when the requests before the failure stay under the
    budget. *)
Theorem routes_before_a_pack_failure_are_not_flushed
    `{E : NlPacket} (add_route : bool) (good : list route_spec)
    (bad : route_spec) (rest : list route_spec)
    (ecmp_routes : list ecmp_spec) (table protocol route_scope route_type : Z)
    (m : NetlinkManager) :
  let rtm_command := if add_route then RTM_NEWROUTE else RTM_DELROUTE in
  let debug := bool_decide (rtm_command ∈ debug m) in
  let prepare :=
    route_msg rtm_command debug table protocol route_scope route_type in
  let msgs := built_messages prepare good (_next (sequence m)) (pid m) in
  let r :=
    _routes_add_or_delete add_route (good ++ bad :: rest) ecmp_routes
      table protocol route_scope route_type m in
  Forall (fun x => exists p, prepare x = Prepared p) good ->
  prepare bad = PackError ->
  r.1 = Some struct_error
  /\ _next (sequence r.2) = _next (sequence m) + Z.of_nat (length good)
  /\ (exists flushed lost,
        transmitted r.2 = transmitted m ++ flushed
        /\ mjoin flushed ++ lost = mjoin msgs
        /\ Forall (fun t => PACKET_CONCAT_SIZE <= Z.of_nat (length t))
             flushed
        /\ Z.of_nat (length lost) < PACKET_CONCAT_SIZE)
  /\ (Z.of_nat (length (mjoin msgs)) < PACKET_CONCAT_SIZE ->
      transmitted r.2 = transmitted m).
Proof.
  intros rtm_command debug prepare msgs r Hgood Hbad.
  assert (exists total' m1,
            batch_loop prepare good None m = (inr total', m1)
            /\ r = (Some struct_error, m1)) as (total' & m1 & Hloop & Hr).
  { destruct (batch_loop_succeeds prepare good None m Hgood)
      as (total' & m1 & Hloop).
    exists total', m1. split; [done|].
    subst r. unfold _routes_add_or_delete.
    fold rtm_command. fold debug. fold prepare.
    destruct (good ++ bad :: rest) as [|x l] eqn:Hl.
    { by destruct good. }
    rewrite <- Hl, batch_loop_app, Hloop. cbn [batch_loop].
    by rewrite Hbad. }
  rewrite Hr. cbn [fst snd].
  pose proof (batch_loop_session _ _ _ _ _ _ Hloop) as (_ & _ & Hnext).
  pose proof (batch_loop_spec prepare good None m total' m1 ltac:(done) Hloop)
    as (flushed & Htx & Hjoin & Hall & Hlost).
  fold msgs in Hjoin.
  assert (Forall (fun t => PACKET_CONCAT_SIZE <= Z.of_nat (length t)) flushed)
    as Hbig.
  { eapply Forall_impl; [exact Hall|]. by intros t [? _]. }
  split; [done|]. split; [by eapply Hnext|]. split.
  - exists flushed, (pending total'). done.
  - intros Hsmall. rewrite Htx.
    destruct flushed as [|t flushed]; [by rewrite app_nil_r|].
    apply Forall_cons in Hbig as [Ht _].
    apply (f_equal length) in Hjoin. change (pending None) with (@nil Byte.byte) in Hjoin.
    rewrite app_nil_l in Hjoin. rewrite <- Hjoin in Hsmall.
    rewrite mjoin_cons, !length_app in Hsmall. lia.
Qed.

Lemma routes_before_a_pack_failure_witness :
  (_routes_add_or_delete (E := Linux.host) true
     (replicate 2 Sample.route4
      ++ (256, IPv4Address 167772160, 24, None, 3) :: [Sample.route4])
     [] 254 14 0 1 Sample.m0).1 = Some struct_error
  /\ _next (sequence
       (_routes_add_or_delete (E := Linux.host) true
          (replicate 2 Sample.route4
           ++ (256, IPv4Address 167772160, 24, None, 3) :: [Sample.route4])
          [] 254 14 0 1 Sample.m0).2)
     = _next (sequence Sample.m0) + Z.of_nat (length (replicate 2 Sample.route4)).
Proof.
  destruct (routes_before_a_pack_failure_are_not_flushed (E := Linux.host)
              true (replicate 2 Sample.route4)
              (256, IPv4Address 167772160, 24, None, 3) [Sample.route4]
              [] 254 14 0 1 Sample.m0) as (Hr & Hn & _).
  - repeat constructor; by eexists.
  - vm_compute. reflexivity.
  - split; [exact Hr | exact Hn].
Defined.

(** X15: when [_routes_add_or_delete] is given both [routes] and
    [ecmp_routes], the requests of [routes] that were waiting after the last
    route are flushed, but [total_message] keeps them; the loop over
    [ecmp_routes] appends to them, so that these octets are transmitted a
    second time, ahead of the first ECMP request. *)
Theorem routes_left_waiting_are_sent_again_with_the_ecmp_routes
    `{E : NlPacket} (add_route : bool) (routes : list route_spec)
    (ecmp_routes : list ecmp_spec) (table protocol route_scope route_type : Z)
    (m : NetlinkManager) :
  let rtm_command := if add_route then RTM_NEWROUTE else RTM_DELROUTE in
  let debug := bool_decide (rtm_command ∈ debug m) in
  let msgs_routes :=
    built_messages
      (route_msg rtm_command debug table protocol route_scope route_type)
      routes (_next (sequence m)) (pid m) in
  let msgs_ecmp :=
    built_messages
      (ecmp_msg rtm_command debug table protocol route_scope route_type)
      ecmp_routes (_next (sequence m) + Z.of_nat (length routes)) (pid m) in
  let r :=
    _routes_add_or_delete add_route routes ecmp_routes table protocol
      route_scope route_type m in
  routes <> [] -> ecmp_routes <> [] -> r.1 = None ->
  exists flushed waiting again,
    transmitted r.2
    = transmitted m ++ flushed
      ++ match waiting with [] => [] | _ => [waiting] end ++ again
    /\ mjoin flushed ++ waiting = mjoin msgs_routes
    /\ mjoin again = waiting ++ mjoin msgs_ecmp
    /\ Z.of_nat (length waiting) < PACKET_CONCAT_SIZE.
Proof.
  intros rtm_command debug msgs_routes msgs_ecmp r Hroutes Hecmp Hok.
  subst r. unfold _routes_add_or_delete in *.
  fold rtm_command in Hok |- *. fold debug in Hok |- *.
  destruct routes as [|x routes]; [done|].
  destruct ecmp_routes as [|y ecmp_routes]; [done|].
  destruct (batch_loop _ (x :: routes) None m) as [[e|total1] m1] eqn:Hloop1;
    [done|].
  destruct (flush_rest_spec total1 m1) as (Htx1 & Hseq1 & Hpid1 & Hdbg1).
  destruct (batch_loop _ (y :: ecmp_routes) total1 (flush_rest total1 m1))
    as [[e|total2] m2] eqn:Hloop2; [done|].
  cbn [snd].
  pose proof (batch_loop_session _ _ _ _ _ _ Hloop1) as (Hp1 & _ & Hn1).
  specialize (Hn1 total1 eq_refl).
  pose proof (batch_loop_spec _ _ None m total1 m1 ltac:(done) Hloop1)
    as (flushed & HtxA & HjoinA & _ & Hwait).
  pose proof (batch_loop_spec _ _ total1 _ total2 m2 Hwait Hloop2)
    as (flushed2 & HtxB & HjoinB & _ & _).
  rewrite Hseq1, Hpid1, Hn1, Hp1 in HjoinB.
  destruct (flush_rest_spec total2 m2) as (Htx2 & _).
  exists flushed, (pending total1),
    (flushed2 ++ match pending total2 with [] => [] | r => [r] end).
  split; [|split; [|split]].
  - rewrite Htx2, HtxB, Htx1, HtxA. rewrite <- !app_assoc.
    by destruct (pending total1).
  - exact HjoinA.
  - subst msgs_ecmp. rewrite join_app, <- HjoinB. f_equal.
    destruct (pending total2); [done|]. simpl. by rewrite app_nil_r.
  - exact Hwait.
Qed.

Lemma routes_left_waiting_witness :
  exists flushed waiting again,
    transmitted
      (_routes_add_or_delete (E := Linux.host) true
         (replicate 3 Sample.route4)
         [((2, IPv4Address 5, 24), AList [])] 254 14 0 1 Sample.m0).2
    = transmitted Sample.m0 ++ flushed
      ++ match waiting with [] => [] | _ => [waiting] end ++ again
    /\ mjoin flushed ++ waiting
       = mjoin (built_messages (E := Linux.host)
                  (route_msg (E := Linux.host) 24 false 254 14 0 1)
                  (replicate 3 Sample.route4) 0 1234)
    /\ mjoin again
       = waiting
         ++ mjoin (built_messages (E := Linux.host)
                     (ecmp_msg (E := Linux.host) 24 false 254 14 0 1)
                     [((2, IPv4Address 5, 24), AList [])]
                     (0 + Z.of_nat (length (replicate 3 Sample.route4)))
                     1234).
Proof.
  destruct (routes_left_waiting_are_sent_again_with_the_ecmp_routes
              (E := Linux.host) true (replicate 3 Sample.route4)
              [((2, IPv4Address 5, 24), AList [])] 254 14 0 1 Sample.m0)
    as (flushed & waiting & again & Htx & Hj1 & Hj2 & _).
  - discriminate.
  - discriminate.
  - vm_compute. reflexivity.
  - exists flushed, waiting, again.
    split; [exact Htx | split; [exact Hj1 | exact Hj2]].
Defined.

(** ** The debug registry *)

Section DebugFacts.

Lemma _debug_set_clear_session msg_types enabled (m : NetlinkManager) :
  pid (_debug_set_clear msg_types enabled m) = pid m
  /\ sequence (_debug_set_clear msg_types enabled m) = sequence m
  /\ tx_socket (_debug_set_clear msg_types enabled m) = tx_socket m.
Proof.
  revert m. induction msg_types as [|x l IH]; intros m; [done|].
  cbn [_debug_set_clear]. by destruct (IH
    {| pid := pid m; sequence := sequence m; tx_socket := tx_socket m;
       debug := if enabled then {[x]} ∪ debug m else debug m ∖ {[x]} |})
    as (-> & -> & ->).
Qed.

Lemma _debug_set_clear_debug msg_types enabled (m : NetlinkManager) :
  debug (_debug_set_clear msg_types enabled m)
  = if enabled then list_to_set msg_types ∪ debug m
    else debug m ∖ list_to_set msg_types.
Proof.
  revert m. induction msg_types as [|x l IH]; intros m.
  - cbn [_debug_set_clear list_to_set]. destruct enabled; set_solver.
  - cbn [_debug_set_clear list_to_set]. rewrite IH. cbn [debug].
    destruct enabled; apply leibniz_equiv; set_solver.
Qed.

End DebugFacts.


(** X17: a message type is debugged by a request builder exactly when the
    last call of its group switched it on: after [debug_link enabled], the
    request that [link_set_updown] prepares carries [enabled] as its debug
    flag, and so does the one of [_get_iface_by_name]; after
    [debug_neighbor enabled], the one of [neighbor_add]; a manager that was
    just made debugs nothing. *)
Theorem debug_groups_reach_the_requests
    `{E : NlPacket} `{X : NlPacketMore} (enabled : bool) (ifname : string)
    (if_flags afi ifindex : Z) (ip : ip_address) (mac : attr_value)
    (m : NetlinkManager) :
  let carries (p : prepared) :=
    match p with Prepared x => pkt_debug x = enabled | _ => True end in
  carries (link_set_updown_msg ifname if_flags (debug_link enabled m))
  /\ carries (_get_iface_by_name_msg ifname (debug_link enabled m))
  /\ carries (neighbor_msg RTM_NEWNEIGH (Z.lor NLM_F_CREATE NLM_F_REQUEST)
                afi ifindex ip mac (debug_neighbor enabled m))
  /\ (forall pid0 mtype,
        debug_this_packet mtype (NetlinkManager_init pid0) = false).
Proof.
  intros carries. subst carries.
  assert (forall t, t ∈ [RTM_NEWLINK; RTM_DELLINK; RTM_GETLINK; RTM_SETLINK] ->
            bool_decide (t ∈ debug (debug_link enabled m)) = enabled) as Hlink.
  { intros t Ht. unfold debug_link. rewrite _debug_set_clear_debug.
    destruct enabled; case_bool_decide; set_solver. }
  assert (bool_decide (RTM_NEWNEIGH ∈ debug (debug_neighbor enabled m))
          = enabled) as Hnbr.
  { unfold debug_neighbor. rewrite _debug_set_clear_debug.
    destruct enabled; case_bool_decide; set_solver. }
  split; [|split; [|split]].
  - unfold link_set_updown_msg. rewrite Hlink by set_solver.
    by destruct (Pack.BxxxiLL _ _ _ _ _).
  - unfold _get_iface_by_name_msg. rewrite Hlink by set_solver.
    by destruct (Pack.Bxxxiii _ _ _ _ _).
  - unfold neighbor_msg. rewrite Hnbr.
    by destruct (Pack.BxxxiHBB _ _ _ _ _ _).
  - intros pid0 mtype. unfold debug_this_packet.
    by apply bool_decide_eq_false_2, not_elem_of_empty.
Qed.

(** ** What every call keeps of the session *)

Section KeepsFacts.
Context `{E : NlPacket} `{X : NlPacketMore}.
Implicit Types (m : NetlinkManager).

Lemma keeps_refl m : keeps_session m m.
Proof. by repeat split. Qed.

Lemma keeps_trans m1 m2 m3 :
  keeps_session m1 m2 -> keeps_session m2 m3 -> keeps_session m1 m3.
Proof.
  intros (Hp1 & Hn1) (Hp2 & Hn2). split; [congruence | lia].
Qed.

Lemma sendall_keeps message m : keeps_session m (sendall message m).
Proof.
  split; unfold sendall; by destruct (tx_socket m).
Qed.

Lemma build_next_keeps (x : NetlinkPacket) m :
  keeps_session m (build_next x m).2.
Proof.
  split; [done|]. cbn. lia.
Qed.

Lemma tx_nlpacket_keeps (x : NetlinkPacket) m :
  keeps_session m (tx_nlpacket x m).2.
Proof.
  unfold tx_nlpacket. destruct (pkt_message x) as [[|b t]|];
    try apply keeps_refl. apply sendall_keeps.
Qed.

Lemma tx_nlpacket_get_response_keeps (x : NetlinkPacket) evs m :
  keeps_session m (tx_nlpacket_get_response x evs m).2.
Proof.
  unfold tx_nlpacket_get_response. destruct (pkt_message x) as [[|b t]|];
    try apply keeps_refl. apply sendall_keeps.
Qed.

Lemma build_and_tx_keeps (p : prepared) m :
  keeps_session m (build_and_tx p m).2.
Proof.
  destruct p as [| |x]; try apply keeps_refl.
  unfold build_and_tx. destruct (build_next x m) as [x' m1] eqn:Hb.
  eapply keeps_trans; [|apply tx_nlpacket_keeps].
  change m1 with (x', m1).2. rewrite <- Hb. apply build_next_keeps.
Qed.

Lemma build_and_collect_keeps (p : prepared) evs m :
  keeps_session m (build_and_collect p evs m).2.
Proof.
  destruct p as [| |x]; try apply keeps_refl.
  unfold build_and_collect. destruct (build_next x m) as [x' m1] eqn:Hb.
  eapply keeps_trans; [|apply tx_nlpacket_get_response_keeps].
  change m1 with (x', m1).2. rewrite <- Hb. apply build_next_keeps.
Qed.

Lemma request_dump_keeps rtm_type family debug evs m :
  keeps_session m (request_dump rtm_type family debug evs m).2.
Proof.
  unfold request_dump.
  destruct (request_dump_msg rtm_type family debug) as [| |x];
    try apply keeps_refl.
  apply (build_and_collect_keeps (Prepared x)).
Qed.

Lemma _link_add_keeps ifindex ifname kind data m :
  keeps_session m (_link_add ifindex ifname kind data m).2.
Proof.
  unfold _link_add. destruct (pack_Bxxx_i AF_UNSPEC 3); [|apply keeps_refl].
  match goal with |- context [build_next ?x m] =>
    pose proof (build_next_keeps x m) as Hb;
    destruct (build_next x m) as [x' m1]
  end.
  pose proof (tx_nlpacket_keeps x' m1) as Ht.
  destruct (tx_nlpacket x' m1) as [ok m2]. by eapply keeps_trans.
Qed.

Lemma tx_or_concat_message_keeps total (route : NetlinkPacket) m :
  keeps_session m (tx_or_concat_message total route m).2.
Proof.
  unfold tx_or_concat_message, tx_nlpacket_raw.
  destruct (_ <=? _); [apply sendall_keeps | apply keeps_refl].
Qed.

Lemma batch_loop_keeps {A : Type} (prepare : A -> prepared)
    (items : list A) total m :
  keeps_session m (batch_loop prepare items total m).2.
Proof.
  revert total m. induction items as [|x items IH]; intros total m.
  - apply keeps_refl.
  - cbn [batch_loop]. destruct (prepare x) as [| |route];
      try apply keeps_refl.
    pose proof (build_next_keeps route m) as Hb.
    destruct (build_next route m) as [route' m1].
    pose proof (tx_or_concat_message_keeps total route' m1) as Ht.
    destruct (tx_or_concat_message total route' m1) as [total' m2].
    eapply keeps_trans; [exact Hb|]. eapply keeps_trans; [exact Ht|]. apply IH.
Qed.

Lemma flush_rest_keeps total m : keeps_session m (flush_rest total m).
Proof.
  unfold flush_rest, tx_nlpacket_raw.
  destruct (truthy total); [apply sendall_keeps | apply keeps_refl].
Qed.

Lemma _routes_add_or_delete_keeps add_route routes ecmp_routes table protocol
    route_scope route_type m :
  keeps_session m
    (_routes_add_or_delete add_route routes ecmp_routes table protocol
       route_scope route_type m).2.
Proof.
  unfold _routes_add_or_delete.
  set (rtm_command := if add_route then RTM_NEWROUTE else RTM_DELROUTE).
  set (debug := bool_decide (rtm_command ∈ debug m)).
  assert (forall total m1, keeps_session m m1 ->
            keeps_session m
              (match ecmp_routes with
               | [] => (None, m1)
               | _ :: _ =>
                 match batch_loop
                         (ecmp_msg rtm_command debug table protocol
                            route_scope route_type) ecmp_routes total m1 with
                 | (inr total', m2) => (None, flush_rest total' m2)
                 | (inl e, m2) => (Some e, m2)
                 end
               end).2) as Hecmp.
  { intros total m1 H1. destruct ecmp_routes as [|y l]; [done|].
    pose proof (batch_loop_keeps
                  (ecmp_msg rtm_command debug table protocol route_scope
                     route_type) (y :: l) total m1) as H2.
    destruct (batch_loop _ (y :: l) total m1) as [[e|total'] m2]; cbn [snd] in *.
    - by eapply keeps_trans.
    - eapply keeps_trans; [exact H1|].
      eapply keeps_trans; [exact H2|]. apply flush_rest_keeps. }
  destruct routes as [|x l].
  - apply Hecmp, keeps_refl.
  - pose proof (batch_loop_keeps
                  (route_msg rtm_command debug table protocol route_scope
                     route_type) (x :: l) None m) as H1.
    destruct (batch_loop _ (x :: l) None m) as [[e|total'] m1]; cbn [snd] in *.
    + exact H1.
    + apply Hecmp. eapply keeps_trans; [exact H1|]. apply flush_rest_keeps.
Qed.

Lemma _debug_set_clear_keeps msg_types enabled m :
  keeps_session m (_debug_set_clear msg_types enabled m).
Proof.
  destruct (_debug_set_clear_session msg_types enabled m) as (Hp & Hs & Ht).
  split; [done|]. by rewrite Hs.
Qed.

Lemma after_keeps (c : call) m : keeps_session m (after c m).
Proof.
  destruct c; cbn [after].
  - apply _debug_set_clear_keeps.
  - apply _debug_set_clear_keeps.
  - apply _debug_set_clear_keeps.
  - apply _debug_set_clear_keeps.
  - by split.
  - apply request_dump_keeps.
  - apply _routes_add_or_delete_keeps.
  - apply _routes_add_or_delete_keeps.
  - unfold route_get. destruct ip as [a|]; [|apply keeps_refl].
    destruct (ip_to_afi (IsIp a)) as [f|afi]; [apply keeps_refl|].
    match goal with |- context [build_and_collect ?p evs m] =>
      pose proof (build_and_collect_keeps p evs m);
      by destruct (build_and_collect p evs m)
    end.
  - apply request_dump_keeps.
  - unfold get_iface_index, _get_iface_by_name.
    pose proof (build_and_collect_keeps (_get_iface_by_name_msg ifname m)
                  evs m).
    by destruct (build_and_collect _ evs m).
  - unfold link_add_vlan. repeat case_match; try apply keeps_refl;
      apply _link_add_keeps.
  - apply _link_add_keeps.
  - apply build_and_tx_keeps.
  - apply build_and_tx_keeps.
  - unfold link_set_updown. repeat case_match; try apply keeps_refl;
      apply build_and_tx_keeps.
  - apply build_and_tx_keeps.
  - apply build_and_tx_keeps.
  - apply build_and_tx_keeps.
Qed.

End KeepsFacts.

(** X18: whatever calls are made on a manager, in whatever order, and
    whether they return or raise one of the exceptions of the model: the
    pid stays the one the manager was made with, and the sequence allocator
    never goes back, so that a number that was given out is not given out
    again.  The calls are those of [call]: the debug switches, [shutdown],
    the lookups and the builders, in the runs where the socket calls
    complete. *)
Theorem calls_keep_the_pid_and_the_numbering
    `{E : NlPacket} `{X : NlPacketMore} (cs : list call)
    (m : NetlinkManager) :
  pid (after_all cs m) = pid m
  /\ _next (sequence m) <= _next (sequence (after_all cs m)).
Proof.
  change (keeps_session m (after_all cs m)).
  unfold after_all. revert m.
  induction cs as [|c cs IH]; intros m; [apply keeps_refl|].
  cbn [foldl]. eapply keeps_trans; [apply after_keeps | apply IH].
Qed.

(** ** The lookups *)

Section LookupFacts.
Context `{E : NlPacket} `{X : NlPacketMore}.
Implicit Types (m : NetlinkManager).

(** Timeouts short of the limit only count. *)
Lemma wait_loop_quiet nlpacket (k : nat) evs n msgs :
  n + Z.of_nat k < MAX_NULL_READS ->
  wait_loop nlpacket (replicate k EvTimeout ++ evs) n msgs
  = wait_loop nlpacket evs (n + Z.of_nat k) msgs.
Proof.
  revert n. induction k as [|k IH]; intros n Hn.
  - simpl. by rewrite Z.add_0_r.
  - cbn [replicate app wait_loop].
    destruct (Z.leb_spec MAX_NULL_READS (n + 1)); [lia|].
    rewrite IH by lia. f_equal. lia.
Qed.

Lemma wait_loop_no_answer nlpacket (k : nat) e rest :
  (k < 30)%nat ->
  e = EvShutdown \/ e = EvRecv [] \/ (e = EvTimeout /\ k = 29%nat) ->
  wait_loop nlpacket (replicate k EvTimeout ++ e :: rest) 0 [] = Return [].
Proof.
  intros Hk He. rewrite wait_loop_quiet by (unfold MAX_NULL_READS; lia).
  destruct He as [->|[->|[-> ->]]]; reflexivity.
Qed.

Lemma build_and_collect_Prepared (x : NetlinkPacket) evs m :
  (build_and_collect (Prepared x) evs m).1
  = wait_loop (build_message (_next (sequence m) + 1) (pid m) x) evs 0 []
  /\ one_sent m (build_and_collect (Prepared x) evs m).2.
Proof.
  unfold build_and_collect, build_next, next_sequence.
  cbn [Sequence_next fst snd pid].
  destruct (build_message_nonempty x (_next (sequence m) + 1) (pid m))
    as (b & message & Hb).
  unfold tx_nlpacket_get_response. rewrite Hb. cbn [fst snd].
  split; [done|].
  destruct (transmitted_sendall (b :: message)
              {| pid := pid m;
                 sequence := {| _next := _next (sequence m) + 1 |};
                 tx_socket := tx_socket m; debug := debug m |})
    as (Htx & Hseq & Hpid).
  unfold one_sent. rewrite Hseq, Hpid, Htx.
  repeat split; [|by eexists].
  unfold sendall. by destruct (tx_socket m).
Qed.

Lemma _get_iface_by_name_msg_Prepared ifname m :
  exists x,
    _get_iface_by_name_msg ifname m = Prepared x
    /\ pkt_debug x = bool_decide (RTM_GETLINK ∈ debug m).
Proof.
  unfold _get_iface_by_name_msg, Pack.Bxxxiii, Struct.pack_B, Pack.pack_i,
    AF_UNSPEC.
  rewrite !decide_True by lia. simpl. by eexists.
Qed.

Lemma route_get_msg_Prepared (a : ip_address) debug :
  exists x,
    route_get_msg match a with IPv4Address _ => AF_INET | _ => AF_INET6 end
      a debug = Prepared x
    /\ pkt_debug x = debug.
Proof.
  unfold route_get_msg, Pack.Bxxxxxxxi, Struct.pack_B, Pack.pack_i,
    AF_INET, AF_INET6.
  destruct a; rewrite !decide_True by lia; simpl; by eexists.
Qed.

(** The result of [get_iface_index] and of [_get_iface_by_name], from the
    result of the wait for the answer to their request *)
Lemma _get_iface_by_name_wait ifname evs m :
  exists x,
    pkt_debug x = bool_decide (RTM_GETLINK ∈ debug m)
    /\ (_get_iface_by_name ifname evs m).1
       = match wait_loop (build_message (_next (sequence m) + 1) (pid m) x)
                 evs 0 [] with
         | Return (iface :: _) => Gives (Some iface)
         | Return [] => Fails IndexError
         | Raise (NetlinkNoAddressError _) => Gives None
         | Raise e => Fails (Exn e)
         | ReturnNone => Fails TypeError
         | Waiting n msgs => StillWaiting n msgs
         | Hangs => NeverEnds
         end
    /\ one_sent m (_get_iface_by_name ifname evs m).2.
Proof.
  destruct (_get_iface_by_name_msg_Prepared ifname m) as (x & Hx & Hd).
  exists x. split; [done|]. unfold _get_iface_by_name. rewrite Hx.
  destruct (build_and_collect_Prepared x evs m) as (Hr & Hs).
  destruct (build_and_collect (Prepared x) evs m) as [r m'].
  cbn [fst snd] in *. by rewrite Hr.
Qed.

Lemma get_iface_index_of ifname evs m :
  (get_iface_index ifname evs m).1
  = match (_get_iface_by_name ifname evs m).1 with
    | Gives (Some iface) =>
      Gives (if link_truthy iface then Some (link_ifindex iface) else None)
    | Gives None => Gives None
    | Fails f => Fails f
    | StillWaiting n msgs => StillWaiting n msgs
    | NeverEnds => NeverEnds
    end
  /\ (get_iface_index ifname evs m).2 = (_get_iface_by_name ifname evs m).2.
Proof.
  unfold get_iface_index. by destruct (_get_iface_by_name ifname evs m).
Qed.

(** The turn of the inner loop for an error frame that answers the
    request *)
Lemma error_turn nlpacket data msgs len fl code name err :
  NLMSG_ERROR <> NLMSG_DONE ->
  type_to_string !! NLMSG_ERROR = Some name ->
  unpack_header (take header_LEN data)
  = Some (len, NLMSG_ERROR, fl, pkt_seq nlpacket, pkt_pid nlpacket) ->
  Struct.unpack_i big_endian (take 4 (drop header_LEN data)) = Some code ->
  decode_packet (new_packet Error NLMSG_ERROR (pkt_debug nlpacket))
    len fl (pkt_seq nlpacket) (pkt_pid nlpacket) data = Some err ->
  demux_frame nlpacket data msgs
  = Stop (if Z.abs code =? 0 then Return msgs
          else if Z.abs code =? NLE_NOADDR
               then Raise (NetlinkNoAddressError (Z.abs code))
               else Raise (NetlinkError (Z.abs code))).
Proof.
  intros Hne Hname Hh Hcode Hdec.
  unfold demux_frame. rewrite Hh, Hname, !Z.eqb_refl. simpl.
  destruct (Z.eqb_spec NLMSG_ERROR NLMSG_DONE) as [?|_]; [done|].
  rewrite Hcode, Hdec. by repeat case_match.
Qed.

End LookupFacts.

(** X19: what the lookups make of a request that gets no answer.  When
    the wait ends without a frame for the request (after the thirtieth
    timeout, on the shutdown flag, or on a closed socket),
    [tx_nlpacket_get_response] returns the empty list: [route_get] returns
    it, but [_get_iface_by_name] takes its first item, so that it raises
    [IndexError], and [get_iface_index] with it; it does not return [None].
    The request has been sent in each case. *)
Theorem lookup_without_an_answer_raises_IndexError
    `{E : NlPacket} `{X : NlPacketMore} (ifname : string) (a : ip_address)
    (debug : bool) (m : NetlinkManager) (k : nat) (e : event)
    (rest : list event) :
  let evs := replicate k EvTimeout ++ e :: rest in
  (k < 30)%nat ->
  e = EvShutdown \/ e = EvRecv [] \/ (e = EvTimeout /\ k = 29%nat) ->
  (_get_iface_by_name ifname evs m).1 = Fails IndexError
  /\ (get_iface_index ifname evs m).1 = Fails IndexError
  /\ one_sent m (get_iface_index ifname evs m).2
  /\ (route_get (IsIp a) debug evs m).1 = Gives (Some [])
  /\ one_sent m (route_get (IsIp a) debug evs m).2.
Proof.
  intros evs Hk He.
  destruct (_get_iface_by_name_wait ifname evs m) as (x & _ & Hr & Hs).
  destruct (get_iface_index_of ifname evs m) as (Hi & Hm).
  subst evs. rewrite wait_loop_no_answer in Hr by done.
  rewrite Hi, Hm, Hr. split; [done|]. split; [done|]. split; [done|].
  unfold route_get.
  assert (ip_to_afi (IsIp a)
          = inr match a with IPv4Address _ => AF_INET | _ => AF_INET6 end)
    as -> by (by destruct a).
  destruct (route_get_msg_Prepared a debug) as (y & -> & _).
  destruct (build_and_collect_Prepared y
              (replicate k EvTimeout ++ e :: rest) m) as (Hr' & Hs').
  rewrite wait_loop_no_answer in Hr' by done.
  destruct (build_and_collect (Prepared y) _ m) as [r m'].
  cbn [fst snd] in *. by rewrite Hr'.
Qed.

Lemma lookup_without_an_answer_witness :
  (get_iface_index (E := Linux.host) (X := LinuxMore.host_more) "swp1"
     (replicate 29 EvTimeout ++ EvTimeout :: []) Sample.m0).1
  = Fails IndexError
  /\ (route_get (E := Linux.host) (X := LinuxMore.host_more)
        (IsIp (IPv4Address 167772160)) false
        (replicate 29 EvTimeout ++ EvTimeout :: []) Sample.m0).1
     = Gives (Some []).
Proof.
  destruct (lookup_without_an_answer_raises_IndexError
              (E := Linux.host) (X := LinuxMore.host_more) "swp1"
              (IPv4Address 167772160) false Sample.m0 29 EvTimeout [])
    as (_ & Hi & _ & Hr & _).
  - lia.
  - right. right. split; reflexivity.
  - split; [exact Hi | exact Hr].
Defined.

(** X20: [get_iface_index] reads the index off the first object of the
    answer.  When the answer to the request of [_get_iface_by_name] arrives
    as data frames and a Done frame in one buffer, [_get_iface_by_name]
    returns the first decoded object and drops the others, and
    [get_iface_index] returns the [ifindex] of that object, or [None] when
    the object counts as false. *)
Theorem get_iface_index_reads_the_first_object_of_the_answer
    `{E : NlPacket} `{X : NlPacketMore} (ifname : string)
    (m : NetlinkManager) (fs : list rx_frame) (done_flags : Z)
    (done_payload trailing : bytes) (more : list event)
    (iface : NetlinkPacket) (others : list NetlinkPacket) :
  let seq := _next (sequence m) + 1 in
  let debug := bool_decide (RTM_GETLINK ∈ debug m) in
  let done_frame := frame NLMSG_DONE done_flags seq (pid m) done_payload in
  let evs :=
    EvRecv (chunk_bytes seq (pid m) fs ++ done_frame ++ trailing) :: more in
  0 <= seq < 2 ^ 32 -> 0 <= pid m < 2 ^ 32 ->
  0 <= NLMSG_DONE < 2 ^ 16 -> 0 <= done_flags < 2 ^ 16 ->
  Z.of_nat (header_LEN + length done_payload) < 2 ^ 32 ->
  is_Some (type_to_string !! NLMSG_DONE) ->
  Forall data_frame fs ->
  decode_chunk debug seq (pid m) fs (done_frame ++ trailing)
  = Some <$> (iface :: others) ->
  (_get_iface_by_name ifname evs m).1 = Gives (Some iface)
  /\ (get_iface_index ifname evs m).1
     = Gives (if link_truthy iface then Some (link_ifindex iface) else None).
Proof.
  intros seq debug done_frame evs Hs Hp Ht Hf Hl Hname Hfs Hdec.
  destruct (_get_iface_by_name_wait ifname evs m) as (x & Hd & Hr & _).
  destruct (get_iface_index_of ifname evs m) as (Hi & _).
  fold seq in Hr. set (p := build_message seq (pid m) x) in Hr.
  assert (pkt_seq p = seq /\ pkt_pid p = pid m /\ pkt_debug p = debug)
    as (Hpseq & Hppid & Hpdebug) by done.
  assert (wait_loop p evs 0 [] = Return (iface :: others)) as Hw.
  { subst evs. apply wait_loop_Stop_demux.
    - intros Hnil. apply app_eq_nil in Hnil as [_ Hnil].
      by apply frame_nonempty in Hnil.
    - rewrite <- Hpseq, <- Hppid, <- Hpdebug in *.
      by apply (demux_last_chunk p fs done_flags done_payload trailing
                  (iface :: others) []). }
  rewrite Hw in Hr. rewrite Hi, Hr. done.
Qed.

Lemma get_iface_index_reads_witness :
  (get_iface_index (E := Linux.host) (X := LinuxMore.host_more) "swp1"
     [EvRecv (chunk_bytes (E := Linux.host) 1 1234
                [LinuxMore.newlink; LinuxMore.newlink]
              ++ frame (E := Linux.host) 3 2 1 1234 (Struct.zeros 4) ++ [])]
     Sample.m0).1
  = Gives (Some 3).
Proof.
  assert (data_frame (E := Linux.host) LinuxMore.newlink) as Hframe.
  { unfold data_frame;
      (repeat split; try (vm_compute; congruence); try (by eexists)). }
  refine (proj2 (get_iface_index_reads_the_first_object_of_the_answer
           (E := Linux.host) (X := LinuxMore.host_more) "swp1" Sample.m0
           [LinuxMore.newlink; LinuxMore.newlink] 2 (Struct.zeros 4) [] []
           {| pkt_class := Link; pkt_msgtype := 16; pkt_debug := false;
              pkt_flags := 0; pkt_family := None;
              pkt_body := rx_payload LinuxMore.newlink;
              pkt_attributes := ∅; pkt_length := 32; pkt_seq := 1;
              pkt_pid := 1234; pkt_message := None |}
           [ {| pkt_class := Link; pkt_msgtype := 16; pkt_debug := false;
                pkt_flags := 0; pkt_family := None;
                pkt_body := rx_payload LinuxMore.newlink;
                pkt_attributes := ∅; pkt_length := 32; pkt_seq := 1;
                pkt_pid := 1234; pkt_message := None |} ]
           _ _ _ _ _ _ _ _)).
  - simpl. lia.
  - simpl. lia.
  - simpl. lia.
  - lia.
  - vm_compute. reflexivity.
  - by eexists.
  - constructor; [done|]. constructor; [done|constructor].
  - vm_compute. reflexivity.
Defined.

(** X21: what [get_iface_index] makes of an error frame that answers its
    request.  The code "no such address" is the one case that is caught:
    the result is [None].  Any other code leaves as [NetlinkError].  A code
    of zero, the acknowledgement, ends the wait with an empty response,
    whose first item [_get_iface_by_name] takes: [IndexError]. *)
Theorem get_iface_index_gives_None_for_the_no_address_error_only
    `{E : NlPacket} `{X : NlPacketMore} (ifname : string)
    (m : NetlinkManager) (data : bytes) (evs : list event)
    (len fl code : Z) (name : string) (err : NetlinkPacket) :
  let seq := _next (sequence m) + 1 in
  let debug := bool_decide (RTM_GETLINK ∈ debug m) in
  let r := (get_iface_index ifname (EvRecv data :: evs) m).1 in
  NLMSG_ERROR <> NLMSG_DONE ->
  type_to_string !! NLMSG_ERROR = Some name ->
  unpack_header (take header_LEN data)
  = Some (len, NLMSG_ERROR, fl, seq, pid m) ->
  Struct.unpack_i big_endian (take 4 (drop header_LEN data)) = Some code ->
  decode_packet (new_packet Error NLMSG_ERROR debug) len fl seq (pid m) data
  = Some err ->
  (Z.abs code = 0 -> r = Fails IndexError)
  /\ (Z.abs code <> 0 -> Z.abs code = NLE_NOADDR -> r = Gives None)
  /\ (Z.abs code <> 0 -> Z.abs code <> NLE_NOADDR ->
      r = Fails (Exn (NetlinkError (Z.abs code)))).
Proof.
  intros seq debug r Hne Hname Hh Hcode Hdec.
  destruct (_get_iface_by_name_wait ifname (EvRecv data :: evs) m)
    as (x & Hd & Hr & _).
  destruct (get_iface_index_of ifname (EvRecv data :: evs) m) as (Hi & _).
  fold seq in Hr. set (p := build_message seq (pid m) x) in Hr.
  assert (pkt_seq p = seq /\ pkt_pid p = pid m /\ pkt_debug p = debug)
    as (Hpseq & Hppid & Hpdebug) by done.
  rewrite <- Hpseq, <- Hppid in Hh. rewrite <- Hpseq, <- Hppid, <- Hpdebug in Hdec.
  pose proof (error_turn p data [] len fl code name err Hne Hname Hh Hcode
                Hdec) as Hturn.
  apply (wait_loop_Stop _ _ evs 0) in Hturn;
    [|by eapply unpack_header_nonempty].
  subst r. rewrite Hi, Hr, Hturn. split; [|split].
  - intros ->. done.
  - intros H0 Hno. destruct (Z.eqb_spec (Z.abs code) 0); [done|].
    by rewrite Hno, Z.eqb_refl.
  - intros H0 Hno. destruct (Z.eqb_spec (Z.abs code) 0); [done|].
    by destruct (Z.eqb_spec (Z.abs code) NLE_NOADDR).
Qed.

Lemma get_iface_index_gives_None_witness :
  (get_iface_index (E := Linux.host) (X := LinuxMore.host_more) "swp1"
     [EvRecv (LinuxMore.error_reply (-19))] Sample.m0).1 = Gives None
  /\ (get_iface_index (E := Linux.host) (X := LinuxMore.host_more) "swp1"
        [EvRecv (LinuxMore.error_reply 0)] Sample.m0).1 = Fails IndexError.
Proof.
  split.
  - refine (proj1 (proj2
      (get_iface_index_gives_None_for_the_no_address_error_only
         (E := Linux.host) (X := LinuxMore.host_more) "swp1" Sample.m0
         (LinuxMore.error_reply (-19)) [] 36 0 (-19) "NLMSG_ERROR"
         _ _ _ _ _ _)) _ _);
      try (vm_compute; reflexivity); vm_compute; lia.
  - refine (proj1
      (get_iface_index_gives_None_for_the_no_address_error_only
         (E := Linux.host) (X := LinuxMore.host_more) "swp1" Sample.m0
         (LinuxMore.error_reply 0) [] 36 0 0 "NLMSG_ERROR"
         _ _ _ _ _ _) _);
      try (vm_compute; reflexivity); vm_compute; lia.
Defined.

(** X22: [route_get] sends one request for an address of either family
    and none for anything else.  For an address, the family octet is 2 or
    10, so that [pack] cannot fail: one sequence number is taken, one
    message is transmitted, and the call does not end with the bare [None]
    of an unbuilt packet.  For another argument, [ip_to_afi] raises before
    a sequence number is taken, and the session is as it was. *)
Theorem route_get_sends_one_request_for_an_address_and_none_otherwise
    `{E : NlPacket} `{X : NlPacketMore} (ip : ip_arg) (debug : bool)
    (evs : list event) (m : NetlinkManager) :
  match ip with
  | IsIp a =>
    one_sent m (route_get ip debug evs m).2
    /\ (route_get ip debug evs m).1 <> Gives None
    /\ (route_get ip debug evs m).1 <> Fails InvalidIpType
  | NotIp => route_get ip debug evs m = (Fails InvalidIpType, m)
  end.
Proof.
  destruct ip as [a|]; [|done]. unfold route_get.
  assert (ip_to_afi (IsIp a)
          = inr match a with IPv4Address _ => AF_INET | _ => AF_INET6 end)
    as -> by (by destruct a).
  destruct (route_get_msg_Prepared a debug) as (y & -> & _).
  destruct (build_and_collect_Prepared y evs m) as (Hr & Hs).
  pose proof (wait_loop_not_ReturnNone
                (build_message (_next (sequence m) + 1) (pid m) y) evs 0 [])
    as Hnone.
  destruct (build_and_collect (Prepared y) evs m) as [r m'].
  cbn [fst snd] in *. rewrite <- Hr in Hnone.
  split; [done|]. by destruct r.
Qed.

(** ** Socket calls that raise *)

Section FaultFacts.
Context `{E : NlPacket}.
Implicit Types (m : NetlinkManager) (fault : option sock_fault).

(** When every socket call completes, [sendall_or_raise] is [sendall]. *)
Lemma sendall_or_raise_completes message m :
  sendall_or_raise None message m = (None, sendall message m).
Proof. unfold sendall_or_raise, sendall. by destruct (tx_socket m). Qed.

(** A fault that does not strike changes nothing. *)
Lemma sendall_or_raise_spared fault message m :
  fault_strikes fault m = false ->
  sendall_or_raise fault message m = (None, sendall message m).
Proof.
  unfold fault_strikes, sendall_or_raise, sendall.
  destruct fault as [[| |]|], (tx_socket m); done.
Qed.

(** A fault that strikes raises, and nothing is written. *)
Lemma sendall_or_raise_struck fault message m :
  fault_strikes fault m = true ->
  (sendall_or_raise fault message m).1 = Some socket_error
  /\ transmitted (sendall_or_raise fault message m).2 = transmitted m.
Proof.
  unfold fault_strikes, sendall_or_raise, transmitted.
  destruct fault as [[| |]|], (tx_socket m) eqn:Hs; try done;
    cbn; by rewrite ?Hs.
Qed.

(** A transmission touches the socket and nothing else. *)
Lemma sendall_or_raise_session fault message m :
  pid (sendall_or_raise fault message m).2 = pid m
  /\ sequence (sendall_or_raise fault message m).2 = sequence m
  /\ debug (sendall_or_raise fault message m).2 = debug m.
Proof.
  unfold sendall_or_raise.
  by destruct fault as [[| |]|], (tx_socket m).
Qed.



End FaultFacts.

(** X9: a builder is not all or nothing when a socket call raises.  Every
    builder ends with [x.build_message(self.sequence.next(), self.pid)] and
    [return self.tx_nlpacket(x)], so that the sequence number is taken
    before the socket is touched: when [socket.socket], [bind] or [sendall]
    raises, the call ends with [socket.error], the number is spent, and
    nothing is transmitted.  [socket.socket] and [bind] can raise only when
    the manager has no socket yet.  When no call raises, the builder does
    what [build_and_tx] says: one number, one message.  A request that
    cannot be packed raises before the number is taken, fault or no
    fault. *)
Theorem a_socket_failure_costs_the_builder_a_sequence_number
    `{E : NlPacket} (fault : option sock_fault) (x : NetlinkPacket)
    (m : NetlinkManager) :
  let r := build_and_tx_or_raise fault (Prepared x) m in
  _next (sequence r.2) = _next (sequence m) + 1
  /\ pid r.2 = pid m /\ debug r.2 = debug m
  /\ (fault_strikes fault m = true ->
      r.1 = Some (Exn socket_error) /\ transmitted r.2 = transmitted m)
  /\ (fault_strikes fault m = false ->
      r = build_and_tx (Prepared x) m
      /\ r.1 = None
      /\ exists message, transmitted r.2 = transmitted m ++ [message])
  /\ build_and_tx_or_raise fault PackError m = (Some (Exn struct_error), m).
Proof.
  intros r. subst r.
  unfold build_and_tx_or_raise, build_and_tx, build_next, next_sequence.
  cbn [Sequence_next fst snd pid].
  set (m1 := {| pid := pid m;
                sequence := {| _next := _next (sequence m) + 1 |};
                tx_socket := tx_socket m; debug := debug m |}).
  destruct (build_message_nonempty x (_next (sequence m) + 1) (pid m))
    as (b & message & Hb).
  unfold tx_nlpacket_or_raise, tx_nlpacket. rewrite Hb.
  destruct (sendall_or_raise_session fault (b :: message) m1)
    as (Hpid & Hseq & Hdebug).
  assert (fault_strikes fault m1 = fault_strikes fault m) as Hstrikes by done.
  assert (transmitted m1 = transmitted m) as Htx by done.
  destruct (sendall_or_raise fault (b :: message) m1) as [raised m2] eqn:Hsend.
  cbn [fst snd] in *. rewrite Hseq, Hpid, Hdebug.
  split; [done|]. split; [done|]. split; [done|]. split; [|split; [|done]].
  - intros Hstruck. rewrite <- Hstrikes in Hstruck.
    destruct (sendall_or_raise_struck fault (b :: message) m1 Hstruck)
      as (Hraised & Hsame).
    rewrite Hsend in Hraised, Hsame. cbn [fst snd] in *.
    by rewrite Hraised, Hsame, Htx.
  - intros Hspared. rewrite <- Hstrikes in Hspared.
    rewrite (sendall_or_raise_spared fault (b :: message) m1 Hspared)
      in Hsend.
    injection Hsend as <- <-. split; [done|]. split; [done|].
    exists (b :: message). rewrite <- Htx.
    apply transmitted_sendall.
Qed.

Lemma a_socket_failure_witness :
  (build_and_tx_or_raise (E := Linux.host) (Some SendallRaises)
     (Prepared (new_packet Link 16 false)) Sample.m0).1
  = Some (Exn socket_error)
  /\ _next (sequence
       (build_and_tx_or_raise (E := Linux.host) (Some SendallRaises)
          (Prepared (new_packet Link 16 false)) Sample.m0).2) = 1
  /\ transmitted
       (build_and_tx_or_raise (E := Linux.host) (Some SendallRaises)
          (Prepared (new_packet Link 16 false)) Sample.m0).2 = [].
Proof.
  destruct (a_socket_failure_costs_the_builder_a_sequence_number
              (E := Linux.host) (Some SendallRaises)
              (new_packet Link 16 false) Sample.m0)
    as (Hseq & _ & _ & Hstruck & _).
  destruct (Hstruck eq_refl) as (Hraised & Hsame).
  split; [exact Hraised|]. split; [exact Hseq | exact Hsame].
Defined.

(** X23: [shutdown] closes the socket and changes nothing else: the pid,
    the sequence and the debug registry are as they were, and a manager
    without a socket is left as it is, so that a second [shutdown] does
    nothing.  The numbering goes on where it was: the next request that is
    sent takes the next number and opens a new socket, bound to [(pid, 0)],
    on which it is the first message.  Opening it calls [socket.socket] and
    [bind] again, so that a failure of either strikes again. *)
Theorem shutdown_closes_the_socket_and_keeps_the_numbering
    `{E : NlPacket} `{X : NlPacketMore} (x : NetlinkPacket)
    (m : NetlinkManager) :
  let seq := _next (sequence m) + 1 in
  let m' := (build_and_tx (Prepared x) (shutdown m)).2 in
  (pid (shutdown m) = pid m /\ sequence (shutdown m) = sequence m
   /\ debug (shutdown m) = debug m /\ tx_socket (shutdown m) = None)
  /\ (tx_socket m = None -> shutdown m = m)
  /\ shutdown (shutdown m) = shutdown m
  /\ pkt_message (build_message seq (pid m) x) <> None
  /\ tx_socket m'
     = Some {| sock_bind := Some (pid m, 0);
               sock_sent :=
                 [default [] (pkt_message (build_message seq (pid m) x))] |}
  /\ (pid m' = pid m /\ _next (sequence m') = seq /\ debug m' = debug m)
  /\ (forall fault, fault <> None -> fault_strikes fault (shutdown m) = true).
Proof.
  intros seq m'. subst m'.
  destruct (build_message_nonempty x seq (pid m)) as (b & message & Hb).
  split; [done|]. split; [by destruct m as [? ? [?|] ?]; intros [=]|].
  split; [done|]. split; [by rewrite Hb|].
  unfold build_and_tx, build_next, next_sequence, shutdown.
  cbn [Sequence_next fst snd pid sequence tx_socket debug]. fold seq.
  unfold tx_nlpacket. rewrite Hb.
  split; [done|]. split; [done|].
  intros [[| |]|] Hfault; done.
Qed.

Lemma shutdown_closes_the_socket_witness :
  shutdown (sendall [Byte.x01] Sample.m0) = Sample.m0
  /\ fault_strikes (Some BindRaises)
       (shutdown (sendall [Byte.x01] Sample.m0)) = true.
Proof.
  destruct (shutdown_closes_the_socket_and_keeps_the_numbering
              (E := Linux.host) (X := LinuxMore.host_more)
              (new_packet Link 16 false) (sendall [Byte.x01] Sample.m0))
    as (_ & _ & _ & _ & _ & _ & Hstrikes).
  split; [reflexivity|]. apply Hstrikes. discriminate.
Defined.


